(** * cyberpower_pdu: a shallow embedding of the PDU clients

    The development follows the three client modules of the package:
    - [Pdu]        : [cyberpower_pdu/__init__.py], the facade [CyberPowerPDU],
                     the simulated PDU and the puresnmp client;
    - [AsyncApi]   : [cyberpower_pdu/async_api.py], the pysnmp helpers and
                     [AsyncCyberPowerPDUHardware];
    - [TelnetApi]  : [cyberpower_pdu/telnet_api.py], the Telnet client and
                     its regular-expression parser;
    and, built on them,
    - [Gui]        : [cyberpower_pdu/gui.py], the methods of the window that
                     call the facade;
    - [SimObj]     : the simulated PDU once more, with its list of states as
                     an object in a store;
    - [IpAddressLineEdit] : [cyberpower_pdu/widgets/ip_address_line_edit.py],
                     the pattern of the validator and the style sheet it
                     leads to.

    Python [int] is [Z], [str] is [string], a [dict[int, bool]] is a
    [gmap Z bool], an exception is a value of [exn], and a coroutine that
    talks to the network is a function from the state of the network to a
    result and the new state of the network. *)

From Stdlib Require Import ZArith List String Ascii Bool Lia.
From Stdlib Require Import DecimalString.
From Stdlib Require Import Floats.PrimFloat Floats.SpecFloat Floats.FloatOps.
From stdpp Require Import base option gmap strings.

Local Open Scope Z_scope.
Local Open Scope string_scope.
Local Arguments String.append : simpl nomatch.
Local Set Warnings "-inexact-float".

(** ** Python values shared by the three modules *)

(** The exception classes the package raises or lets through.  The
    message is the argument given to the constructor of the exception. *)
Inductive exn : Type :=
  | RuntimeError (msg : string)
  | ValueError (msg : string)
  | TypeError (msg : string)
  | NotImplementedError (msg : string)
  | KeyError (key : Z)
  | IndexError (msg : string)
  | AttributeError (msg : string)
  | OverflowError (msg : string)
  | IncompleteReadError (partial : string)
  | LibraryError (cls msg : string).

Inductive result (A : Type) : Type :=
  | Ok (a : A)
  | Raise (e : exn).
Arguments Ok {A} a.
Arguments Raise {A} e.

(** [str(n)] for a Python [int]. *)
Definition str_of_int (n : Z) : string :=
  NilZero.string_of_int (Z.to_int n).

(** [float(n)] for a Python [int]: the nearest double, ties to even, and
    [OverflowError] when the integer is too large for a finite double. *)
Definition float_of_int (n : Z) : result float :=
  let f := SF2Prim (binary_normalize prec emax n 0 false) in
  if PrimFloat.is_infinity f
  then Raise (OverflowError "int too large to convert to float")
  else Ok f.

(** The two characters that end a line on the wire. *)
Definition CRLF : string := String "013" (String "010" EmptyString).

(** [needle in haystack] for two [str]. *)
Fixpoint str_contains (needle haystack : string) : bool :=
  if String.prefix needle haystack then true
  else match haystack with
       | EmptyString => false
       | String _ rest => str_contains needle rest
       end.

(** ** Coroutines: state of the network and exceptions

    [M W A] is a computation that returns an [A] or raises, and that
    changes the state [W] of the network on the way.  The state reached
    when an exception is raised is kept: what was sent stays sent. *)
Definition M (W A : Type) : Type := W -> result A * W.

Definition ret {W A} (a : A) : M W A := fun w => (Ok a, w).
Definition raise {W A} (e : exn) : M W A := fun w => (Raise e, w).
Definition bind {W A B} (m : M W A) (k : A -> M W B) : M W B :=
  fun w => match m w with
           | (Ok a, w') => k a w'
           | (Raise e, w') => (Raise e, w')
           end.
Definition lift {W A} (r : result A) : M W A := fun w => (r, w).

Definition gets {W A} (f : W -> A) : M W A := fun w => (Ok (f w), w).
Definition modify {W} (f : W -> W) : M W unit := fun w => (Ok tt, f w).

Declare Scope py_scope.
Delimit Scope py_scope with py.
Notation "'let*' x ':=' m 'in' k" := (bind m (fun x => k))
  (at level 10, x name, m at level 100, k at level 200) : py_scope.
Notation "'do*' m 'in' k" := (bind m (fun _ => k))
  (at level 10, m at level 100, k at level 200) : py_scope.
Local Open Scope py_scope.

(** [[await f(x) for x in xs]]: the calls are made one after the other,
    and the first exception ends the comprehension. *)
Fixpoint for_each {W A B} (f : A -> M W B) (xs : list A) : M W (list B) :=
  match xs with
  | [] => ret []
  | x :: xs' =>
      let* y := f x in
      let* ys := for_each f xs' in
      ret (y :: ys)
  end.

(** [range(lo, hi)]. *)
Definition range (lo hi : Z) : list Z :=
  map (fun k => lo + Z.of_nat k) (seq 0 (Z.to_nat (hi - lo))).

(** A method of an object that talks to the network runs on the pair of
    the object and the network; a module-level coroutine runs on the
    network alone. *)
Definition on_network {S N A} (m : M N A) : M (S * N) A :=
  fun w => match m (snd w) with (r, n') => (r, (fst w, n')) end.
Definition get_self {S N} : M (S * N) S := gets fst.
Definition set_self {S N} (f : S -> S) : M (S * N) unit :=
  modify (fun w => (f (fst w), snd w)).

(** ** [cyberpower_pdu/async_api.py] *)
Module AsyncApi.

Inductive OutletCommand : Type :=
  | IMMEDIATE_ON
  | IMMEDIATE_OFF
  | IMMEDIATE_REBOOT.

Definition value (c : OutletCommand) : Z :=
  match c with
  | IMMEDIATE_ON => 1
  | IMMEDIATE_OFF => 2
  | IMMEDIATE_REBOOT => 3
  end.

(** The pysnmp objects a variable binding can carry.  [OtherValue] is
    any object that is none of the five classes the package imports;
    it keeps the text of [type(snmp_value)]. *)
Inductive snmp_value : Type :=
  | Integer32 (n : Z)
  | Integer (n : Z)
  | Unsigned32 (n : Z)
  | Gauge32 (n : Z)
  | OctetString (s : string)
  | OtherValue (type_text : string).

(** [int | str] *)
Inductive py_value : Type :=
  | PyInt (n : Z)
  | PyStr (s : string).

(** The error status of a response: its integer, whose truth value the
    code tests, and the text [str] gives for it. *)
Record error_status_t : Type := {
  status_code : Z;
  status_text : string
}.

(** What [getCmd] and [setCmd] return: [error_indication] is [None] or
    an object that is true, given here by its text. *)
Record response : Type := {
  error_indication : option string;
  error_status : error_status_t;
  error_index : Z;
  variable_bindings : list (string * snmp_value)
}.

Inductive request : Type :=
  | GetCmd (ip_address community object_identity : string)
  | SetCmd (ip_address community object_identity : string) (v : snmp_value).

(** The network: the requests sent so far, oldest first, and the
    agent, which answers a request knowing the requests before it. *)
Record network : Type := {
  agent : list request -> request -> response;
  sent : list request
}.

Definition exchange (rq : request) : M network response :=
  fun n => (Ok (agent n (sent n) rq),
            {| agent := agent n; sent := sent n ++ [rq] |}).

Definition convert_snmp_type_to_python_type (snmp_value : snmp_value)
  : result py_value :=
  match snmp_value with
  | Integer32 n => Ok (PyInt n)
  | Integer n => Ok (PyInt n)
  | Unsigned32 n => Ok (PyInt n)
  | Gauge32 n => Ok (PyInt n)
  | OctetString s => Ok (PyStr s)
  | OtherValue type_text =>
      Raise (TypeError
               ("Only SNMP types of type integer and string are supported. "
                ++ "Received type of " ++ type_text))
  end.

Definition get_data (ip_address object_identity : string) : M network py_value :=
  let* iterator := exchange (GetCmd ip_address "public" object_identity) in
  match error_indication iterator with
  | Some text => raise (RuntimeError text)
  | None =>
      if negb (status_code (error_status iterator) =? 0)%Z
      then raise (RuntimeError (status_text (error_status iterator)))
      else
        match variable_bindings iterator with
        | [(_oid, v)] => lift (convert_snmp_type_to_python_type v)
        | [] => raise (ValueError "not enough values to unpack (expected 1, got 0)")
        | _ => raise (ValueError "too many values to unpack (expected 1)")
        end
  end.

Definition py_str (v : py_value) : string :=
  match v with
  | PyInt n => str_of_int n
  | PyStr s => s
  end.

Definition get_integer_data (ip_address object_identity : string) : M network Z :=
  let* response := get_data ip_address object_identity in
  match response with
  | PyInt n => ret n
  | _ => raise (ValueError ("Expected an integer response and received `"
                            ++ py_str response ++ "` instead"))
  end.

Definition get_string_data (ip_address object_identity : string) : M network string :=
  let* response := get_data ip_address object_identity in
  match response with
  | PyStr s => ret s
  | _ => raise (ValueError ("Expected a string response and received `"
                            ++ py_str response ++ "` instead"))
  end.

Definition set_data (ip_address object_identity : string) (v : snmp_value)
  : M network unit :=
  let* iterator := exchange (SetCmd ip_address "private" object_identity v) in
  match error_indication iterator with
  | Some text => raise (RuntimeError text)
  | None =>
      if negb (status_code (error_status iterator) =? 0)%Z
      then raise (RuntimeError (status_text (error_status iterator)))
      else ret tt
  end.

Definition get_number_of_outlets (ip_address : string) : M network Z :=
  get_integer_data ip_address ".1.3.6.1.4.1.3808.1.1.3.3.1.3.0".

Definition get_number_of_banks (ip_address : string) : M network Z :=
  get_integer_data ip_address ".1.3.6.1.4.1.3808.1.1.3.2.1.4.0".

Definition get_outlet_state (ip_address : string) (outlet : Z) : M network bool :=
  let oid := ".1.3.6.1.4.1.3808.1.1.3.3.5.1.1.4." ++ str_of_int outlet in
  let* response := get_integer_data ip_address oid in
  match response with
  | 1 => ret true
  | 2 => ret false
  | _ => raise (ValueError ("Received unexpected value for outlet state: "
                            ++ str_of_int response))
  end.

Definition send_outlet_command (ip_address : string) (outlet : Z)
    (command : OutletCommand) : M network unit :=
  let oid := ".1.3.6.1.4.1.3808.1.1.3.3.3.1.1.4." ++ str_of_int outlet in
  set_data ip_address oid (Integer (value command)).

Definition get_bank_load (ip_address : string) (bank : Z) : M network float :=
  let* tenths_of_amps :=
    get_integer_data ip_address
      (".1.3.6.1.4.1.3808.1.1.6.5.4.1.5." ++ str_of_int bank) in
  let* f := lift (float_of_int tenths_of_amps) in
  ret (PrimFloat.div f 10).

(** *** [class AsyncCyberPowerPDUHardware] *)
Module Hw.

Record t : Type := {
  self_ip_address : string;
  self_number_of_banks : Z;
  self_number_of_outlets : Z
}.

Definition init (ip_address : string) : t :=
  {| self_ip_address := ip_address;
     self_number_of_banks := 0;
     self_number_of_outlets := 0 |}.

Definition set_number_of_banks (n : Z) (self : t) : t :=
  {| self_ip_address := self_ip_address self;
     self_number_of_banks := n;
     self_number_of_outlets := self_number_of_outlets self |}.

Definition set_number_of_outlets (n : Z) (self : t) : t :=
  {| self_ip_address := self_ip_address self;
     self_number_of_banks := self_number_of_banks self;
     self_number_of_outlets := n |}.

Definition initialize : M (t * network) unit :=
  let* self := get_self in
  let* banks := on_network (get_number_of_banks (self_ip_address self)) in
  do* set_self (set_number_of_banks banks) in
  let* self := get_self in
  let* outlets := on_network (get_number_of_outlets (self_ip_address self)) in
  set_self (set_number_of_outlets outlets).

Definition number_of_outlets : M (t * network) Z :=
  let* self := get_self in
  if (self_number_of_outlets self =? 0)%Z
  then raise (RuntimeError
         "The `initialize` must be called to populate the `number_of_outlets` property")
  else ret (self_number_of_outlets self).

(** [0 < outlet <= self.number_of_outlets]: the property is read only
    when the first comparison holds. *)
Definition valid_outlet_index (outlet : Z) : M (t * network) bool :=
  if (0 <? outlet)%Z
  then let* n := number_of_outlets in ret (outlet <=? n)%Z
  else ret false.

Definition get_outlet_value_error (outlet : Z) : M (t * network) exn :=
  let* n := number_of_outlets in
  ret (ValueError ("Invalid outlet value of: " ++ str_of_int outlet
                   ++ ". Valid outlet values " ++ "are 1 to " ++ str_of_int n)).

(** The second literal of the message is not an f-string in the
    source, its braces are kept as they are. *)
Definition get_bank_load (bank : Z) : M (t * network) float :=
  let* self := get_self in
  if (0 <? bank)%Z && (bank <=? self_number_of_banks self)%Z
  then on_network (AsyncApi.get_bank_load (self_ip_address self) bank)
  else
    let message :=
      "Invalid bank value of: " ++ str_of_int bank ++ ". "
      ++ "Valid bank values are 1 to {self.__number_of_banks}" in
    raise (ValueError message).

Definition get_outlet_state (outlet : Z) : M (t * network) bool :=
  let* valid := valid_outlet_index outlet in
  if valid
  then let* self := get_self in
       on_network (AsyncApi.get_outlet_state (self_ip_address self) outlet)
  else let* e := get_outlet_value_error outlet in raise e.

Definition send_outlet_command (outlet : Z) (command : OutletCommand)
  : M (t * network) unit :=
  let* valid := valid_outlet_index outlet in
  if valid
  then let* self := get_self in
       on_network (AsyncApi.send_outlet_command (self_ip_address self) outlet command)
  else let* e := get_outlet_value_error outlet in raise e.

End Hw.

End AsyncApi.

(** ** [cyberpower_pdu/__init__.py] *)
Module Pdu.

Inductive OutletCommand : Type :=
  | IMMEDIATE_ON
  | IMMEDIATE_OFF
  | IMMEDIATE_REBOOT.

Definition value (c : OutletCommand) : Z :=
  match c with
  | IMMEDIATE_ON => 1
  | IMMEDIATE_OFF => 2
  | IMMEDIATE_REBOOT => 3
  end.

(** [l[i]] and [l[i] = x] for a Python list: a negative index counts
    from the end, an index out of range raises [IndexError]. *)
Definition py_getitem {A} (l : list A) (i : Z) : result A :=
  let j := if (i <? 0)%Z then (i + Z.of_nat (length l))%Z else i in
  if (j <? 0)%Z then Raise (IndexError "list index out of range")
  else match l !! Z.to_nat j with
       | Some x => Ok x
       | None => Raise (IndexError "list index out of range")
       end.

Definition py_setitem {A} (l : list A) (i : Z) (x : A) : result (list A) :=
  let j := if (i <? 0)%Z then (i + Z.of_nat (length l))%Z else i in
  if (j <? 0)%Z then Raise (IndexError "list assignment index out of range")
  else if (j <? Z.of_nat (length l))%Z then Ok (<[Z.to_nat j := x]> l)
  else Raise (IndexError "list assignment index out of range").

(** *** [class CyberPowerPDUSimulation] *)
Module Sim.

Record t : Type := {
  self_number_of_outlets : Z;
  self_outlet_states : list bool
}.

Definition init : t :=
  {| self_number_of_outlets := 0; self_outlet_states := [] |}.

Definition number_of_outlets : M t Z :=
  let* self := gets id in
  if (self_number_of_outlets self =? 0)%Z
  then raise (RuntimeError
         "The `initialize` must be called to populate the `number_of_outlets` property")
  else ret (self_number_of_outlets self).

Definition initialize : M t unit :=
  do* modify (fun self => {| self_number_of_outlets := 16;
                             self_outlet_states := self_outlet_states self |}) in
  modify (fun self =>
            {| self_number_of_outlets := self_number_of_outlets self;
               self_outlet_states :=
                 repeat false (Z.to_nat (self_number_of_outlets self)) |}).

Definition close : M t unit := ret tt.

Definition get_all_outlet_states : M t (list bool) :=
  gets self_outlet_states.

Definition get_outlet_state (outlet : Z) : M t bool :=
  let* self := gets id in
  lift (py_getitem (self_outlet_states self) (outlet - 1)).

Definition assign_outlet_state (outlet : Z) (b : bool) : M t unit :=
  let* self := gets id in
  let* l := lift (py_setitem (self_outlet_states self) (outlet - 1) b) in
  modify (fun self => {| self_number_of_outlets := self_number_of_outlets self;
                         self_outlet_states := l |}).

Definition send_outlet_command (outlet : Z) (command : OutletCommand) : M t unit :=
  match command with
  | IMMEDIATE_ON => assign_outlet_state outlet true
  | IMMEDIATE_OFF => assign_outlet_state outlet false
  | IMMEDIATE_REBOOT => assign_outlet_state outlet true
  end.

End Sim.

(** The puresnmp client built by [initialize], and the requests it
    sends.  The objects read here are INTEGER objects of the MIB named
    in the source, for which [PyWrapper.get] returns an [int]; a
    failure of the exchange is an exception of the library. *)
Record client : Type := {
  client_ip : string;
  client_port : Z;
  client_credentials : string
}.

Inductive request : Type :=
  | Get (c : client) (oid : string)
  | Set_ (c : client) (oid : string) (v : Z).

Record network : Type := {
  agent : list request -> request -> result Z;
  sent : list request
}.

Definition exchange (rq : request) : M network Z :=
  fun n => (agent n (sent n) rq,
            {| agent := agent n; sent := sent n ++ [rq] |}).

(** *** [class CyberPowerPDUHardware] *)
Module Hw.

(** [self_client] is [None] as long as the attribute [__client] has
    not been assigned. *)
Record t : Type := {
  self_ip_address : string;
  self_number_of_outlets : Z;
  self_client : option client
}.

Definition init (ip_address : string) (port : Z) : t :=
  {| self_ip_address := ip_address;
     self_number_of_outlets := 0;
     self_client := None |}.

Definition client_get (oid : string) : M (t * network) Z :=
  let* self := get_self in
  match self_client self with
  | Some c => on_network (exchange (Get c oid))
  | None => raise (AttributeError
      "'CyberPowerPDUHardware' object has no attribute '_CyberPowerPDUHardware__client'")
  end.

Definition client_set (oid : string) (v : Z) : M (t * network) Z :=
  let* self := get_self in
  match self_client self with
  | Some c => on_network (exchange (Set_ c oid v))
  | None => raise (AttributeError
      "'CyberPowerPDUHardware' object has no attribute '_CyberPowerPDUHardware__client'")
  end.

Definition number_of_outlets : M (t * network) Z :=
  let* self := get_self in
  if (self_number_of_outlets self =? 0)%Z
  then raise (RuntimeError
         "The `initialize` must be called to populate the `number_of_outlets` property")
  else ret (self_number_of_outlets self).

Definition get_number_of_outlets : M (t * network) Z :=
  client_get ".1.3.6.1.4.1.3808.1.1.3.3.1.3.0".

Definition get_number_of_banks : M (t * network) Z :=
  client_get ".1.3.6.1.4.1.3808.1.1.3.2.1.4.0".

Definition get_bank_load (bank : Z) : M (t * network) float :=
  let* response := client_get (".1.3.6.1.4.1.3808.1.1.6.5.4.1.5." ++ str_of_int bank) in
  let* tenths_of_amps := lift (float_of_int response) in
  ret (PrimFloat.div tenths_of_amps 10).

Definition initialize : M (t * network) unit :=
  do* set_self (fun self =>
        {| self_ip_address := self_ip_address self;
           self_number_of_outlets := self_number_of_outlets self;
           self_client := Some {| client_ip := self_ip_address self;
                                  client_port := 161;
                                  client_credentials := "private" |} |}) in
  let* n := get_number_of_outlets in
  set_self (fun self =>
        {| self_ip_address := self_ip_address self;
           self_number_of_outlets := n;
           self_client := self_client self |}).

Definition close : M (t * network) unit := ret tt.

Definition valid_outlet_index (outlet : Z) : M (t * network) bool :=
  if (0 <? outlet)%Z
  then let* n := number_of_outlets in ret (outlet <=? n)%Z
  else ret false.

Definition get_outlet_value_error (outlet : Z) : M (t * network) exn :=
  let* n := number_of_outlets in
  ret (ValueError ("Invalid outlet value of: " ++ str_of_int outlet
                   ++ ". Valid outlet values " ++ "are 1 to " ++ str_of_int n)).

Definition get_outlet_state (outlet : Z) : M (t * network) bool :=
  let* valid := valid_outlet_index outlet in
  if valid
  then
    let* response :=
      client_get (".1.3.6.1.4.1.3808.1.1.3.3.5.1.1.4." ++ str_of_int outlet) in
    match response with
    | 1 => ret true
    | 2 => ret false
    | _ => raise (ValueError ("Received unexpected value for outlet state: "
                              ++ str_of_int response))
    end
  else let* e := get_outlet_value_error outlet in raise e.

Definition get_all_outlet_states : M (t * network) (list bool) :=
  let* n := number_of_outlets in
  for_each get_outlet_state (range 1 (n + 1)).

Definition send_outlet_command (outlet : Z) (command : OutletCommand)
  : M (t * network) unit :=
  let* valid := valid_outlet_index outlet in
  if valid
  then
    let oid := ".1.3.6.1.4.1.3808.1.1.3.3.3.1.1.4." ++ str_of_int outlet in
    do* client_set oid (value command) in ret tt
  else let* e := get_outlet_value_error outlet in raise e.

End Hw.

(** *** [class CyberPowerPDU], the facade: it holds the session chosen
    by [simulate] when it is built and forwards every call to it. *)
Inductive session : Type :=
  | Simulated (s : Sim.t)
  | Hardware (h : Hw.t).

Definition init (ip_address : string) (port : Z) (simulate : bool) : session :=
  if simulate then Simulated Sim.init else Hardware (Hw.init ip_address port).

Definition forward {A} (sim : M Sim.t A) (hw : M (Hw.t * network) A)
  : M (session * network) A :=
  fun w =>
    match fst w with
    | Simulated s => match sim s with (r, s') => (r, (Simulated s', snd w)) end
    | Hardware h => match hw (h, snd w) with (r, (h', n')) => (r, (Hardware h', n')) end
    end.

Definition number_of_outlets := forward Sim.number_of_outlets Hw.number_of_outlets.
Definition initialize := forward Sim.initialize Hw.initialize.
Definition close := forward Sim.close Hw.close.
Definition get_all_outlet_states :=
  forward Sim.get_all_outlet_states Hw.get_all_outlet_states.
Definition get_outlet_state (outlet : Z) :=
  forward (Sim.get_outlet_state outlet) (Hw.get_outlet_state outlet).
Definition send_outlet_command (outlet : Z) (command : OutletCommand) :=
  forward (Sim.send_outlet_command outlet command)
          (Hw.send_outlet_command outlet command).

End Pdu.

(** ** [cyberpower_pdu/telnet_api.py] *)
Module TelnetApi.

Inductive OutletCommand : Type :=
  | IMMEDIATE_ON
  | IMMEDIATE_OFF
  | IMMEDIATE_REBOOT.

Definition to_telnet_action (self : OutletCommand) : string :=
  match self with
  | IMMEDIATE_ON => "on"
  | IMMEDIATE_OFF => "off"
  | IMMEDIATE_REBOOT => "reboot"
  end.

(** *** Text

    A character of a page is an [ascii]; the pages of the PDU are
    ASCII text, and the classes below are those of Python's [re] and
    [str] on the code points below 128. *)
Definition code (c : ascii) : N := N_of_ascii c.

Definition is_digit (c : ascii) : bool :=
  (48 <=? code c)%N && (code c <=? 57)%N.

Definition is_space (c : ascii) : bool :=
  ((9 <=? code c)%N && (code c <=? 13)%N)
  || ((28 <=? code c)%N && (code c <=? 32)%N).

Definition is_upper (c : ascii) : bool :=
  (65 <=? code c)%N && (code c <=? 90)%N.

Definition is_lower (c : ascii) : bool :=
  (97 <=? code c)%N && (code c <=? 122)%N.

Definition is_word (c : ascii) : bool :=
  is_lower c || is_upper c || is_digit c || (code c =? 95)%N.

Definition lower_char (c : ascii) : ascii :=
  if is_upper c then ascii_of_N (code c + 32) else c.

Fixpoint lower (s : string) : string :=
  match s with
  | EmptyString => EmptyString
  | String c s' => String (lower_char c) (lower s')
  end.

Fixpoint lstrip (s : string) : string :=
  match s with
  | String c s' => if is_space c then lstrip s' else s
  | EmptyString => EmptyString
  end.

Fixpoint rstrip (s : string) : string :=
  match s with
  | EmptyString => EmptyString
  | String c s' =>
      match rstrip s' with
      | EmptyString => if is_space c then EmptyString else String c EmptyString
      | t => String c t
      end
  end.

Definition strip (s : string) : string := rstrip (lstrip s).

Fixpoint drop (n : nat) (s : string) : string :=
  match n, s with
  | S k, String _ s' => drop k s'
  | _, _ => s
  end.

(** [int(s)] for a [str]: surrounding white space, an optional sign,
    decimal digits, single underscores between digits. *)
Fixpoint int_digits (acc : Z) (after_digit : bool) (s : string) : option Z :=
  match s with
  | EmptyString => if after_digit then Some acc else None
  | String c s' =>
      if is_digit c
      then int_digits (10 * acc + Z.of_N (code c - 48)) true s'
      else if (code c =? 95)%N && after_digit
           then int_digits acc false s'
           else None
  end.

Definition int_of_str (s : string) : result Z :=
  let body :=
    match strip s with
    | String "-" r => Z.opp <$> int_digits 0 false r
    | String "+" r => int_digits 0 false r
    | t => int_digits 0 false t
    end in
  match body with
  | Some n => Ok n
  | None => Raise (ValueError ("invalid literal for int() with base 10: '" ++ s ++ "'"))
  end.

(** *** Regular expressions

    The part of [re] the pattern of the module needs: literals, a
    greedy [+] on a character class, concatenation, alternation and
    capturing groups (none of them under an alternation).  [exec r s]
    lists the ways [r] matches a prefix of [s], in the order the
    backtracking matcher tries them: each way is the texts of the
    groups, in the order of their opening parentheses, and what is
    left of [s]. *)
Inductive regex : Type :=
  | Lit (l : string)
  | PlusClass (p : ascii -> bool)
  | Seq (r1 r2 : regex)
  | Alt (r1 r2 : regex)
  | Group (r : regex).

(** What is left after zero or more characters of the class, the
    longest run first. *)
Fixpoint star_rests (p : ascii -> bool) (s : string) : list string :=
  match s with
  | String c s' => if p c then star_rests p s' ++ [s] else [s]
  | EmptyString => [s]
  end.

Definition plus_rests (p : ascii -> bool) (s : string) : list string :=
  match s with
  | String c s' => if p c then star_rests p s' else []
  | EmptyString => []
  end.

Fixpoint exec (r : regex) (s : string) : list (list string * string) :=
  match r with
  | Lit l =>
      if String.prefix l s then [([], drop (String.length l) s)] else []
  | PlusClass p => map (fun rest => ([], rest)) (plus_rests p s)
  | Seq r1 r2 =>
      flat_map (fun m1 =>
                  map (fun m2 => ((fst m1 ++ fst m2)%list, snd m2)) (exec r2 (snd m1)))
               (exec r1 s)
  | Alt r1 r2 => exec r1 s ++ exec r2 s
  | Group r' =>
      map (fun m =>
             (substring 0 (String.length s - String.length (snd m)) s :: fst m,
              snd m))
          (exec r' s)
  end.

(** [re.findall]: the matches are looked for from left to right; after
    a match the search goes on where the match ended.  [skip] counts
    the characters of the last match that are still to be passed. *)
Fixpoint findall_from (r : regex) (skip : nat) (s : string) : list (list string) :=
  match skip with
  | S k =>
      match s with
      | String _ s' => findall_from r k s'
      | EmptyString => []
      end
  | O =>
      match exec r s with
      | (groups, rest) :: _ =>
          groups ::
            match s with
            | String _ s' =>
                findall_from r (String.length s - String.length rest - 1) s'
            | EmptyString => []
            end
      | [] =>
          match s with
          | String _ s' => findall_from r 0 s'
          | EmptyString => []
          end
      end
  end.

Definition findall (pattern : regex) (s : string) : list (list string) :=
  findall_from pattern 0 s.

(** [r"(\d+)\s+\w+\d+\s+(On|Off)"] *)
Definition pattern : regex :=
  Seq (Group (PlusClass is_digit))
    (Seq (PlusClass is_space)
       (Seq (PlusClass is_word)
          (Seq (PlusClass is_digit)
             (Seq (PlusClass is_space)
                (Group (Alt (Lit "On") (Lit "Off"))))))).

Definition convert_telnet_string_to_bool (telnet_string : string) : result bool :=
  let t := lower (strip telnet_string) in
  if String.eqb t "on" then Ok true
  else if String.eqb t "off" then Ok false
  else Raise (ValueError ("Invalid telnet on/off string: " ++ telnet_string)).

(** [{int(outlet): convert_telnet_string_to_bool(state) for outlet, state
    in matches}]: a later match replaces an earlier one with its key. *)
Fixpoint states_of_matches (acc : gmap Z bool) (matches : list (list string))
  : result (gmap Z bool) :=
  match matches with
  | [] => Ok acc
  | [outlet; state] :: rest =>
      match int_of_str outlet with
      | Ok k =>
          match convert_telnet_string_to_bool state with
          | Ok b => states_of_matches (<[k := b]> acc) rest
          | Raise e => Raise e
          end
      | Raise e => Raise e
      end
  | _ :: _ => Raise (ValueError "not enough values to unpack (expected 2)")
  end.

(** The mapping built from one response. *)
Definition parse_response (response : string) : result (gmap Z bool) :=
  states_of_matches ∅ (findall pattern response).

(** *** The connection

    [written] is what was given to the writer, oldest first;
    [incoming] is what the next calls of [readuntil] return, one text
    for each call, and [readuntil] raises at the end of the stream. *)
Record connection : Type := {
  host_up : bool;
  written : list string;
  incoming : list string;
  closed : bool
}.

Definition write (line : string) : M connection unit :=
  modify (fun c => {| host_up := host_up c;
                      written := written c ++ [line];
                      incoming := incoming c;
                      closed := closed c |}).

Definition drain : M connection unit := ret tt.

Definition readuntil (separator : string) : M connection string :=
  fun c =>
    match incoming c with
    | text :: rest =>
        (Ok text, {| host_up := host_up c; written := written c;
                     incoming := rest; closed := closed c |})
    | [] => (Raise (IncompleteReadError ""), c)
    end.

Definition read_to_eof : M connection string :=
  fun c => (Ok (String.concat "" (incoming c)),
            {| host_up := host_up c; written := written c;
               incoming := []; closed := closed c |}).

Definition close_writer : M connection unit :=
  modify (fun c => {| host_up := host_up c; written := written c;
                      incoming := incoming c; closed := true |}).

(** *** [class AsyncTelnetCyberPowerPDUHardware] *)
Module Hw.

(** [self_connected] tells whether the attributes [__reader] and
    [__writer] have been assigned. *)
Record t : Type := {
  self_ip_address : string;
  self_number_of_outlets : Z;
  self_connected : bool
}.

Definition init (ip_address : string) : t :=
  {| self_ip_address := ip_address;
     self_number_of_outlets := 0;
     self_connected := false |}.

(** A call on [self.__writer] or [self.__reader]. *)
Definition on_stream {A} (m : M connection A) : M (t * connection) A :=
  let* self := get_self in
  if self_connected self then on_network m
  else raise (AttributeError
    "'AsyncTelnetCyberPowerPDUHardware' object has no attribute '_AsyncTelnetCyberPowerPDUHardware__writer'").

Definition open_connection : M (t * connection) unit :=
  let* up := gets (fun w => host_up (snd w)) in
  if (up : bool)
  then set_self (fun self => {| self_ip_address := self_ip_address self;
                                self_number_of_outlets := self_number_of_outlets self;
                                self_connected := true |})
  else raise (LibraryError "ConnectionRefusedError" "Connect call failed").

(** The body of [while outlet_states == {}], on the texts still to
    come: one pass for each text read. *)
Fixpoint poll (outlet_states : gmap Z bool) (incoming : list string)
    (c : connection) : result (gmap Z bool) * connection :=
  if decide (outlet_states = ∅)
  then
    match write ("oltsta show" ++ CRLF) c with
    | (_, c1) =>
        match incoming with
        | [] => (Raise (IncompleteReadError ""), c1)
        | response :: rest =>
            let c2 := {| host_up := host_up c1; written := written c1;
                         incoming := rest; closed := closed c1 |} in
            match parse_response response with
            | Ok outlet_states' => poll outlet_states' rest c2
            | Raise e => (Raise e, c2)
            end
        end
    end
  else (Ok outlet_states, c).

Definition get_outlet_states : M (t * connection) (gmap Z bool) :=
  on_stream (fun c => poll ∅ (incoming c) c).

Definition initialize : M (t * connection) unit :=
  do* open_connection in
  do* on_stream (readuntil "Login Name: ") in
  do* on_stream (write ("test-username" ++ CRLF)) in
  do* on_stream drain in
  do* on_stream (readuntil "Login Password: ") in
  do* on_stream (write ("test-password" ++ CRLF)) in
  do* on_stream drain in
  do* on_stream (readuntil "CyberPower > ") in
  let* outlet_states := get_outlet_states in
  set_self (fun self => {| self_ip_address := self_ip_address self;
                           self_number_of_outlets := Z.of_nat (size outlet_states);
                           self_connected := self_connected self |}).

Definition number_of_outlets : M (t * connection) Z :=
  let* self := get_self in
  if (self_number_of_outlets self =? 0)%Z
  then raise (RuntimeError
         "The `initialize` must be called to populate the `number_of_outlets` property")
  else ret (self_number_of_outlets self).

Definition valid_outlet_index (outlet : Z) : M (t * connection) bool :=
  if (0 <? outlet)%Z
  then let* n := number_of_outlets in ret (outlet <=? n)%Z
  else ret false.

Definition get_outlet_value_error (outlet : Z) : M (t * connection) exn :=
  let* n := number_of_outlets in
  ret (ValueError ("Invalid outlet value of: " ++ str_of_int outlet
                   ++ ". Valid outlet values " ++ "are 1 to " ++ str_of_int n)).

Definition get_outlet_state (outlet : Z) : M (t * connection) bool :=
  let* valid := valid_outlet_index outlet in
  if valid
  then
    let* outlet_states := get_outlet_states in
    match outlet_states !! outlet with
    | Some b => ret b
    | None => raise (KeyError outlet)
    end
  else let* e := get_outlet_value_error outlet in raise e.

Definition get_bank_load (bank : Z) : M (t * connection) float :=
  raise (NotImplementedError "This method is not implemented in the telnet API").

Definition send_outlet_command (outlet : Z) (command : OutletCommand)
  : M (t * connection) unit :=
  let* valid := valid_outlet_index outlet in
  if valid
  then
    do* on_stream (write ("oltctrl index " ++ str_of_int outlet ++ " act "
                          ++ to_telnet_action command ++ CRLF)) in
    on_stream drain
  else let* e := get_outlet_value_error outlet in raise e.

Definition close : M (t * connection) unit :=
  do* on_stream (write ("exit" ++ CRLF)) in
  do* on_stream drain in
  do* on_stream read_to_eof in
  on_stream close_writer.

End Hw.

End TelnetApi.

(** ** The error names of the specification

    The specification names the failures; the package raises built-in
    exceptions.  The predicates below say which exception stands for
    which name. *)

Definition not_initialized_message : string :=
  "The `initialize` must be called to populate the `number_of_outlets` property".

(** [NotInitializedError]: the [RuntimeError] of the property
    [number_of_outlets]. *)
Definition is_NotInitializedError (e : exn) : bool :=
  match e with
  | RuntimeError msg => String.eqb msg not_initialized_message
  | _ => false
  end.

(** [OutOfRangeError] carrying the value and the range 1..count: a
    [ValueError] whose message shows both. *)
Definition is_OutOfRangeError (v count : Z) (e : exn) : bool :=
  match e with
  | ValueError msg =>
      str_contains ("value of: " ++ str_of_int v ++ ".") msg
      && str_contains ("1 to " ++ str_of_int count) msg
  | _ => false
  end.

(** [UnexpectedValueError]: the [ValueError] of the outlet-state reads. *)
Definition is_UnexpectedValueError (e : exn) : bool :=
  match e with
  | ValueError msg => String.prefix "Received unexpected value" msg
  | _ => false
  end.

(** [UnsupportedOperationError]: [NotImplementedError]. *)
Definition is_UnsupportedOperationError (e : exn) : bool :=
  match e with
  | NotImplementedError _ => true
  | _ => false
  end.

Definition outlet_range_message (outlet count : Z) : string :=
  "Invalid outlet value of: " ++ str_of_int outlet
  ++ ". Valid outlet values are 1 to " ++ str_of_int count.

(** The integer a pysnmp response decodes to, when it has no error and
    one binding of an integer class. *)
Definition wire_integer (r : AsyncApi.response) : option Z :=
  match AsyncApi.error_indication r with
  | Some _ => None
  | None =>
      if (AsyncApi.status_code (AsyncApi.error_status r) =? 0)%Z
      then match AsyncApi.variable_bindings r with
           | [(_, v)] =>
               match AsyncApi.convert_snmp_type_to_python_type v with
               | Ok (AsyncApi.PyInt n) => Some n
               | _ => None
               end
           | _ => None
           end
      else None
  end.

(** A response that carries the integer [n] and no error. *)
Definition integer_response (n : Z) : AsyncApi.response :=
  {| AsyncApi.error_indication := None;
     AsyncApi.error_status := {| AsyncApi.status_code := 0;
                                 AsyncApi.status_text := "noError" |};
     AsyncApi.error_index := 0;
     AsyncApi.variable_bindings := [("", AsyncApi.Integer n)] |}.

(** The network after one more request. *)
Definition async_after (net : AsyncApi.network) (rq : AsyncApi.request)
  : AsyncApi.network :=
  {| AsyncApi.agent := AsyncApi.agent net;
     AsyncApi.sent := (AsyncApi.sent net ++ [rq])%list |}.

Definition pdu_after (net : Pdu.network) (rq : Pdu.request) : Pdu.network :=
  {| Pdu.agent := Pdu.agent net;
     Pdu.sent := (Pdu.sent net ++ [rq])%list |}.

(** The connection after one more line was written, and after one text
    was read. *)
Definition wrote (c : TelnetApi.connection) (lines : list string)
  : TelnetApi.connection :=
  {| TelnetApi.host_up := TelnetApi.host_up c;
     TelnetApi.written := (TelnetApi.written c ++ lines)%list;
     TelnetApi.incoming := TelnetApi.incoming c;
     TelnetApi.closed := TelnetApi.closed c |}.

Definition with_incoming (c : TelnetApi.connection) (texts : list string)
  : TelnetApi.connection :=
  {| TelnetApi.host_up := TelnetApi.host_up c;
     TelnetApi.written := TelnetApi.written c;
     TelnetApi.incoming := texts;
     TelnetApi.closed := TelnetApi.closed c |}.

(** ** Networks used as examples *)

Definition outlet_count_oid : string := ".1.3.6.1.4.1.3808.1.1.3.3.1.3.0".
Definition bank_count_oid : string := ".1.3.6.1.4.1.3808.1.1.3.2.1.4.0".

(** A PDU that reports [count] outlets and answers every other read
    with [state]; a write is answered with the value written. *)
Definition pdu_network_with (count state : Z) : Pdu.network :=
  {| Pdu.agent := fun _ rq =>
       match rq with
       | Pdu.Get _ oid => if String.eqb oid outlet_count_oid then Ok count else Ok state
       | Pdu.Set_ _ _ v => Ok v
       end;
     Pdu.sent := [] |}.

(** The same PDU seen through pysnmp, with [banks] banks. *)
Definition async_network_with (count banks state : Z) : AsyncApi.network :=
  {| AsyncApi.agent := fun _ rq =>
       match rq with
       | AsyncApi.GetCmd _ _ oid =>
           if String.eqb oid outlet_count_oid then integer_response count
           else if String.eqb oid bank_count_oid then integer_response banks
           else integer_response state
       | AsyncApi.SetCmd _ _ _ v =>
           {| AsyncApi.error_indication := None;
              AsyncApi.error_status := {| AsyncApi.status_code := 0;
                                          AsyncApi.status_text := "noError" |};
              AsyncApi.error_index := 0;
              AsyncApi.variable_bindings := [("", v)] |}
       end;
     AsyncApi.sent := [] |}.

(** A Telnet connection on which the texts are still to be read. *)
Definition telnet_connection (texts : list string) : TelnetApi.connection :=
  {| TelnetApi.host_up := true;
     TelnetApi.written := [];
     TelnetApi.incoming := texts;
     TelnetApi.closed := false |}.

Definition example_ip : string := "192.168.20.177".

(** The client that [initialize] builds for the puresnmp class. *)
Definition pdu_client (ip : string) : Pdu.client :=
  {| Pdu.client_ip := ip; Pdu.client_port := 161; Pdu.client_credentials := "private" |}.

(** The addresses of the state of an outlet and of the load of a bank. *)
Definition outlet_state_oid (outlet : Z) : string :=
  ".1.3.6.1.4.1.3808.1.1.3.3.5.1.1.4." ++ str_of_int outlet.
Definition bank_load_oid (bank : Z) : string :=
  ".1.3.6.1.4.1.3808.1.1.6.5.4.1.5." ++ str_of_int bank.

(** What the specification asks of the result [r] of a read of the
    state of an outlet whose wire integer is [v]. *)
Definition decodes_outlet_state (r : result bool) (v : Z) : Prop :=
  (v = 1 -> r = Ok true)
  /\ (v = 2 -> r = Ok false)
  /\ (v <> 1 -> v <> 2 ->
      exists e, r = Raise e /\ is_UnexpectedValueError e = true).

(** Clients after [initialize] on a PDU with 8 outlets and 2 banks. *)
Definition async_hw_8 : AsyncApi.Hw.t :=
  {| AsyncApi.Hw.self_ip_address := example_ip;
     AsyncApi.Hw.self_number_of_banks := 2;
     AsyncApi.Hw.self_number_of_outlets := 8 |}.

Definition pdu_hw_8 : Pdu.Hw.t :=
  {| Pdu.Hw.self_ip_address := example_ip;
     Pdu.Hw.self_number_of_outlets := 8;
     Pdu.Hw.self_client := Some (pdu_client example_ip) |}.

Definition telnet_hw_8 : TelnetApi.Hw.t :=
  {| TelnetApi.Hw.self_ip_address := example_ip;
     TelnetApi.Hw.self_number_of_outlets := 8;
     TelnetApi.Hw.self_connected := true |}.

(** The PDU is at rest when its answers do not depend on the requests
    made before: nothing switches an outlet while the states are read. *)
Definition pdu_at_rest (net : Pdu.network) : Prop :=
  forall (history : list Pdu.request) (rq : Pdu.request),
    Pdu.agent net history rq = Pdu.agent net [] rq.

(** The query of the states of the outlets, as it is written. *)
Definition oltsta_show : string := "oltsta show" ++ CRLF.

(** ** Pages of the Telnet client

    A row of the table of outlets: the digits of the index, a gap of
    white space, a name made of word characters ([row_label]) and ended
    by digits ([row_number]), a gap, and [On] or [Off]. *)
Record row : Type := {
  row_index : string;
  row_gap1 : string;
  row_label : string;
  row_number : string;
  row_gap2 : string;
  row_state : bool
}.

Fixpoint all_chars (p : ascii -> bool) (s : string) : bool :=
  match s with
  | EmptyString => true
  | String ch s' => p ch && all_chars p s'
  end.

Definition non_empty (s : string) : bool :=
  match s with
  | EmptyString => false
  | String _ _ => true
  end.

Definition first_is (p : ascii -> bool) (s : string) : bool :=
  match s with
  | EmptyString => false
  | String ch _ => p ch
  end.

Definition state_text (b : bool) : string := if b then "On" else "Off".

Definition row_text (r : row) : string :=
  row_index r ++ row_gap1 r ++ row_label r ++ row_number r ++ row_gap2 r
  ++ state_text (row_state r).

Definition row_ok (r : row) : bool :=
  non_empty (row_index r) && all_chars TelnetApi.is_digit (row_index r)
  && non_empty (row_gap1 r) && all_chars TelnetApi.is_space (row_gap1 r)
  && non_empty (row_label r) && all_chars TelnetApi.is_word (row_label r)
  && non_empty (row_number r) && all_chars TelnetApi.is_digit (row_number r)
  && non_empty (row_gap2 r) && all_chars TelnetApi.is_space (row_gap2 r).

(** Text without any digit: a heading, a rule, an empty line, a prompt. *)
Definition no_digit (s : string) : bool :=
  all_chars (fun ch => negb (TelnetApi.is_digit ch)) s.

(** The integer a run of decimal digits writes. *)
Fixpoint decimal_value (acc : Z) (s : string) : Z :=
  match s with
  | EmptyString => acc
  | String ch s' => decimal_value (10 * acc + Z.of_N (TelnetApi.code ch - 48)) s'
  end.

Definition row_entry (r : row) : Z * bool :=
  (decimal_value 0 (row_index r), row_state r).

(** A page: rows, each followed by text without digits. *)
Fixpoint page_text (rows : list (row * string)) : string :=
  match rows with
  | [] => EmptyString
  | (r, after) :: rest => row_text r ++ after ++ page_text rest
  end.

Definition page_ok (rows : list (row * string)) : Prop :=
  Forall (fun ra => row_ok (fst ra) = true /\ no_digit (snd ra) = true) rows.

(** The mapping of the rows, a later row replacing an earlier one. *)
Definition states_of_rows (rows : list (row * string)) : gmap Z bool :=
  fold_left (fun acc ra => <[fst (row_entry (fst ra)) := snd (row_entry (fst ra))]> acc)
            rows ∅.

Definition example_row (index name_label name_number : string) (state : bool) : row :=
  {| row_index := index; row_gap1 := "  "; row_label := name_label;
     row_number := name_number; row_gap2 := "   "; row_state := state |}.

(** The page of the specification, and a page without any row. *)
Definition example_page : string :=
  "1  Outlet1   On" ++ CRLF ++ "2  Outlet2   Off" ++ CRLF ++ CRLF ++ "CyberPower > ".

Definition garbled_page : string := CRLF ++ "CyberPower > ".

(** The rows of [example_page], and a page whose rows end in [ON] and
    [off]. *)
Definition example_rows : list (row * string) :=
  [(example_row "1" "Outlet" "1" true, CRLF);
   (example_row "2" "Outlet" "2" false, CRLF ++ CRLF ++ "CyberPower > ")].

Definition shouting_page : string :=
  "1  Outlet1   ON" ++ CRLF ++ "2  Outlet2   off" ++ CRLF ++ CRLF ++ "CyberPower > ".

(** The groups of a match of the pattern: digits, then [On] or [Off]. *)
Definition match_shape (groups : list string) : Prop :=
  exists d lit,
    groups = [d; lit]
    /\ non_empty d = true
    /\ all_chars TelnetApi.is_digit d = true
    /\ (lit = "On" \/ lit = "Off").

(** What holds of the simulated PDU once [initialize] has run: the
    count is the length of the list of states, and it is not 0. *)
Definition sim_initialized (s : Pdu.Sim.t) : Prop :=
  Pdu.Sim.self_number_of_outlets s = Z.of_nat (length (Pdu.Sim.self_outlet_states s))
  /\ Pdu.Sim.self_number_of_outlets s <> 0.

(** ** More of the pysnmp helpers *)

(** The address of the command of an outlet. *)
Definition outlet_control_oid (outlet : Z) : string :=
  ".1.3.6.1.4.1.3808.1.1.3.3.3.1.1.4." ++ str_of_int outlet.

(** The text of the [RuntimeError] that [get_data] and [set_data] raise
    for a response: the error indication when there is one, else the
    error status when it is not 0. *)
Definition transport_error (r : AsyncApi.response) : option string :=
  match AsyncApi.error_indication r with
  | Some text => Some text
  | None =>
      if (AsyncApi.status_code (AsyncApi.error_status r) =? 0)%Z then None
      else Some (AsyncApi.status_text (AsyncApi.error_status r))
  end.

(** A response without error that carries one value. *)
Definition value_response (v : AsyncApi.snmp_value) : AsyncApi.response :=
  {| AsyncApi.error_indication := None;
     AsyncApi.error_status := {| AsyncApi.status_code := 0;
                                 AsyncApi.status_text := "noError" |};
     AsyncApi.error_index := 0;
     AsyncApi.variable_bindings := [("", v)] |}.

(** A network whose agent gives the same response to every request. *)
Definition async_network_replying (r : AsyncApi.response) : AsyncApi.network :=
  {| AsyncApi.agent := fun _ _ => r; AsyncApi.sent := [] |}.

(** A response with an error indication and, below it, an error status. *)
Definition timeout_response : AsyncApi.response :=
  {| AsyncApi.error_indication := Some "No SNMP response received before timeout";
     AsyncApi.error_status := {| AsyncApi.status_code := 2;
                                 AsyncApi.status_text := "noSuchName" |};
     AsyncApi.error_index := 0;
     AsyncApi.variable_bindings := [] |}.

(** The test the clients make on an index. *)
Definition index_in_range (index count : Z) : bool :=
  (0 <? index)%Z && (index <=? count)%Z.

(** A PDU that answers the count of banks with 2 and lets every other
    request run into the timeout. *)
Definition async_network_banks_only : AsyncApi.network :=
  {| AsyncApi.agent := fun _ rq =>
       match rq with
       | AsyncApi.GetCmd _ _ oid =>
           if String.eqb oid bank_count_oid then integer_response 2
           else timeout_response
       | AsyncApi.SetCmd _ _ _ _ => timeout_response
       end;
     AsyncApi.sent := [] |}.

(** The request of the state of every outlet of a list, in its order. *)
Definition state_requests (cl : Pdu.client) (outlets : list Z) : list Pdu.request :=
  map (fun outlet => Pdu.Get cl (outlet_state_oid outlet)) outlets.

(** A PDU with [count] outlets whose outlet [broken] cannot be read. *)
Definition pdu_network_broken_outlet (count broken : Z) : Pdu.network :=
  {| Pdu.agent := fun _ rq =>
       match rq with
       | Pdu.Get _ oid =>
           if String.eqb oid outlet_count_oid then Ok count
           else if String.eqb oid (outlet_state_oid broken)
                then Raise (LibraryError "Timeout" "no response")
                else Ok 1
       | Pdu.Set_ _ _ v => Ok v
       end;
     Pdu.sent := [] |}.

(** The network after a list of requests. *)
Definition pdu_after_all (net : Pdu.network) (rqs : list Pdu.request) : Pdu.network :=
  {| Pdu.agent := Pdu.agent net;
     Pdu.sent := (Pdu.sent net ++ rqs)%list |}.

(** The simulated PDU once [initialize] has run. *)
Definition sim_16 : Pdu.Sim.t := snd (Pdu.Sim.initialize Pdu.Sim.init).

(** The connection once [close] has run on it. *)
Definition closed_connection (c : TelnetApi.connection) : TelnetApi.connection :=
  {| TelnetApi.host_up := TelnetApi.host_up c;
     TelnetApi.written := (TelnetApi.written c ++ [("exit" ++ CRLF)%string])%list;
     TelnetApi.incoming := [];
     TelnetApi.closed := true |}.

(** The indices of the rows of a page. *)
Definition row_keys (rows : list (row * string)) : list Z :=
  map (fun ra => fst (row_entry (fst ra))) rows.

(** A page whose rows carry the indices 5 and 6. *)
Definition shifted_rows : list (row * string) :=
  [(example_row "5" "Outlet" "5" true, CRLF);
   (example_row "6" "Outlet" "6" false, CRLF ++ CRLF ++ "CyberPower > ")].

(** ** [cyberpower_pdu/gui.py]

    The window is modelled by what its methods read and write: the PDU
    it holds, the count it keeps, the text of the line edit and of the
    label, the sixteen outlet controls, the signals it has emitted and
    the single-shot timers it has started.  The layout, the painting
    and the state machine that reacts to the signals are left out. *)
Module Gui.

Definition SIMULATE_HARDWARE : bool := true.

(** [class OutletControl]: the outlet it stands for, whether the widget
    is enabled, and whether its LED is lit. *)
Record OutletControl : Type := {
  outlet : Z;
  enabled : bool;
  checked : bool
}.

Definition setEnabled (b : bool) (c : OutletControl) : OutletControl :=
  {| outlet := outlet c; enabled := b; checked := checked c |}.

Definition set_checked (b : bool) (c : OutletControl) : OutletControl :=
  {| outlet := outlet c; enabled := enabled c; checked := b |}.

Inductive signal : Type :=
  | signal_connected_to_ip_address
  | signal_failed_to_connect_to_ip_address.

(** [class MainWindow].  [self_pdu] is [None] as long as the attribute
    [__pdu] has not been assigned; [self_ip_address] is the text of the
    line edit; a timer is kept as its delay in milliseconds and the
    place in [__outlet_controls] of the control its callback reads. *)
Record t : Type := {
  self_number_of_outlets : Z;
  self_pdu : option Pdu.session;
  self_ip_address : string;
  self_label : string;
  self_outlet_controls : list OutletControl;
  emitted : list signal;
  single_shots : list (Z * Z)
}.

Definition set_number_of_outlets (n : Z) (self : t) : t :=
  {| self_number_of_outlets := n;
     self_pdu := self_pdu self;
     self_ip_address := self_ip_address self;
     self_label := self_label self;
     self_outlet_controls := self_outlet_controls self;
     emitted := emitted self;
     single_shots := single_shots self |}.

Definition set_pdu (p : Pdu.session) (self : t) : t :=
  {| self_number_of_outlets := self_number_of_outlets self;
     self_pdu := Some p;
     self_ip_address := self_ip_address self;
     self_label := self_label self;
     self_outlet_controls := self_outlet_controls self;
     emitted := emitted self;
     single_shots := single_shots self |}.

Definition set_label (text : string) (self : t) : t :=
  {| self_number_of_outlets := self_number_of_outlets self;
     self_pdu := self_pdu self;
     self_ip_address := self_ip_address self;
     self_label := text;
     self_outlet_controls := self_outlet_controls self;
     emitted := emitted self;
     single_shots := single_shots self |}.

Definition set_outlet_controls (l : list OutletControl) (self : t) : t :=
  {| self_number_of_outlets := self_number_of_outlets self;
     self_pdu := self_pdu self;
     self_ip_address := self_ip_address self;
     self_label := self_label self;
     self_outlet_controls := l;
     emitted := emitted self;
     single_shots := single_shots self |}.

Definition add_emitted (s : signal) (self : t) : t :=
  {| self_number_of_outlets := self_number_of_outlets self;
     self_pdu := self_pdu self;
     self_ip_address := self_ip_address self;
     self_label := self_label self;
     self_outlet_controls := self_outlet_controls self;
     emitted := (emitted self ++ [s])%list;
     single_shots := single_shots self |}.

Definition add_single_shot (msec index : Z) (self : t) : t :=
  {| self_number_of_outlets := self_number_of_outlets self;
     self_pdu := self_pdu self;
     self_ip_address := self_ip_address self;
     self_label := self_label self;
     self_outlet_controls := self_outlet_controls self;
     emitted := emitted self;
     single_shots := (single_shots self ++ [(msec, index)])%list |}.

(** The window once [__init__] and [initialize] have run: sixteen
    controls, for the outlets 1 to 16, all disabled. *)
Definition init : t :=
  {| self_number_of_outlets := 0;
     self_pdu := None;
     self_ip_address := "";
     self_label := "";
     self_outlet_controls :=
       map (fun outlet => setEnabled false
                            {| outlet := outlet; enabled := true; checked := false |})
           (range 1 17);
     emitted := [];
     single_shots := [] |}.

(** [try: body except Exception: handler]: what the body changed before
    it raised stays changed. *)
Definition try_except {W A} (body : M W A) (handler : M W A) : M W A :=
  fun w => match body w with
           | (Ok a, w') => (Ok a, w')
           | (Raise _, w') => handler w'
           end.

(** A call on [self.__pdu]. *)
Definition on_pdu {A} (m : M (Pdu.session * Pdu.network) A)
  : M (t * Pdu.network) A :=
  fun w =>
    match self_pdu (fst w) with
    | Some p =>
        match m (p, snd w) with
        | (r, (p', n')) => (r, (set_pdu p' (fst w), n'))
        end
    | None =>
        (Raise (AttributeError
                  "'MainWindow' object has no attribute '_MainWindow__pdu'"), w)
    end.

Definition emit (s : signal) : M (t * Pdu.network) unit :=
  set_self (add_emitted s).

(** [self.__outlet_controls[index]], and a change of that control. *)
Definition outlet_control (index : Z) : M (t * Pdu.network) OutletControl :=
  let* self := get_self in
  lift (Pdu.py_getitem (self_outlet_controls self) index).

Definition update_outlet_control (index : Z) (f : OutletControl -> OutletControl)
  : M (t * Pdu.network) unit :=
  let* self := get_self in
  let* c := lift (Pdu.py_getitem (self_outlet_controls self) index) in
  let* l := lift (Pdu.py_setitem (self_outlet_controls self) index (f c)) in
  set_self (set_outlet_controls l).

(** The body of [try_ip_address], for either value of the constant
    [SIMULATE_HARDWARE] of the module. *)
Definition try_ip_address_with (simulate : bool) : M (t * Pdu.network) unit :=
  let* self := get_self in
  let ip_address := self_ip_address self in
  do* set_self (set_label ("Trying IP address: " ++ ip_address)) in
  do* set_self (set_pdu (Pdu.init ip_address 161 simulate)) in
  try_except
    (do* on_pdu Pdu.initialize in
     let* n := on_pdu Pdu.number_of_outlets in
     do* set_self (set_number_of_outlets n) in
     do* for_each (fun index => update_outlet_control index (setEnabled true))
                  (range 0 n) in
     emit signal_connected_to_ip_address)
    (emit signal_failed_to_connect_to_ip_address).

Definition try_ip_address : M (t * Pdu.network) unit :=
  try_ip_address_with SIMULATE_HARDWARE.

(** [get_outlet_status], for the control at a place of
    [__outlet_controls]. *)
Definition get_outlet_status (index : Z) : M (t * Pdu.network) unit :=
  let* c := outlet_control index in
  let* b := on_pdu (Pdu.get_outlet_state (outlet c)) in
  update_outlet_control index (set_checked b).

Definition get_outlet_statuses : M (t * Pdu.network) unit :=
  let* self := get_self in
  do* for_each get_outlet_status (range 0 (self_number_of_outlets self)) in
  ret tt.

Definition send_outlet_command (index : Z) (state : bool)
  : M (t * Pdu.network) unit :=
  let command := if state then Pdu.IMMEDIATE_ON else Pdu.IMMEDIATE_OFF in
  let* c := outlet_control index in
  do* on_pdu (Pdu.send_outlet_command (outlet c) command) in
  do* set_self (add_single_shot 500 index) in
  set_self (add_single_shot 1000 index).

End Gui.

(** The first [n] controls of a list enabled, the others as they were. *)
Definition enable_first (n : nat) (l : list Gui.OutletControl)
  : list Gui.OutletControl :=
  (map (Gui.setEnabled true) (take n l) ++ drop n l)%list.

(** The window after [try_ip_address]: the PDU it holds, the count it
    keeps, its controls and the signal it emitted last. *)
Definition gui_tried (g : Gui.t) (p : Pdu.session) (count : Z)
    (controls : list Gui.OutletControl) (s : Gui.signal) : Gui.t :=
  {| Gui.self_number_of_outlets := count;
     Gui.self_pdu := Some p;
     Gui.self_ip_address := Gui.self_ip_address g;
     Gui.self_label := "Trying IP address: " ++ Gui.self_ip_address g;
     Gui.self_outlet_controls := controls;
     Gui.emitted := (Gui.emitted g ++ [s])%list;
     Gui.single_shots := Gui.single_shots g |}.

(** The puresnmp client once [initialize] has asked for the count. *)
Definition pdu_hw_counted (ip : string) (count : Z) : Pdu.session :=
  Pdu.Hardware {| Pdu.Hw.self_ip_address := ip;
                  Pdu.Hw.self_number_of_outlets := count;
                  Pdu.Hw.self_client := Some (pdu_client ip) |}.

(** A window whose line edit holds an address. *)
Definition gui_with_address (ip : string) : Gui.t :=
  {| Gui.self_number_of_outlets := Gui.self_number_of_outlets Gui.init;
     Gui.self_pdu := Gui.self_pdu Gui.init;
     Gui.self_ip_address := ip;
     Gui.self_label := Gui.self_label Gui.init;
     Gui.self_outlet_controls := Gui.self_outlet_controls Gui.init;
     Gui.emitted := Gui.emitted Gui.init;
     Gui.single_shots := Gui.single_shots Gui.init |}.

(** A PDU that answers no request. *)
Definition pdu_network_silent : Pdu.network :=
  {| Pdu.agent := fun _ _ => Raise (LibraryError "Timeout" "no response");
     Pdu.sent := [] |}.

(** The window after a command that the PDU accepted: the PDU it holds
    and the two timers started for the control. *)
Definition gui_commanded (g : Gui.t) (p : Pdu.session) (index : Z) : Gui.t :=
  Gui.add_single_shot 1000 index (Gui.add_single_shot 500 index (Gui.set_pdu p g)).

(** The simulated PDU with the state of one outlet replaced. *)
Definition sim_with_state (s : Pdu.Sim.t) (outlet : Z) (b : bool) : Pdu.Sim.t :=
  {| Pdu.Sim.self_number_of_outlets := Pdu.Sim.self_number_of_outlets s;
     Pdu.Sim.self_outlet_states :=
       <[Z.to_nat (outlet - 1) := b]> (Pdu.Sim.self_outlet_states s) |}.

(** The window connected to a simulated PDU, as [try_ip_address] leaves
    it. *)
Definition gui_connected : Gui.t :=
  fst (snd (Gui.try_ip_address (gui_with_address "192.168.20.177", pdu_network_silent))).

(** The window that holds a puresnmp client of 8 outlets. *)
Definition gui_hardware_8 : Gui.t :=
  Gui.set_pdu (pdu_hw_counted "192.168.20.177" 8) (gui_with_address "192.168.20.177").

(** A change made to the first [n] controls of a list. *)
Definition map_first (f : Gui.OutletControl -> Gui.OutletControl) (n : nat)
    (l : list Gui.OutletControl) : list Gui.OutletControl :=
  (map f (take n l) ++ drop n l)%list.

(** The control with its LED showing the state that the list of states
    holds for its outlet. *)
Definition led_of_states (states : list bool) (c : Gui.OutletControl)
  : Gui.OutletControl :=
  Gui.set_checked (nth (Z.to_nat (Gui.outlet c - 1)) states false) c.

(** ** The simulated PDU with its list as an object

    [CyberPowerPDUSimulation] once more, this time with the list of
    states as a Python object: the store holds the list objects by
    address, the attribute [__outlet_states] holds an address, and
    [get_all_outlet_states] returns that address, not a copy. *)
Module SimObj.

Record t : Type := {
  self_number_of_outlets : Z;
  self_outlet_states : nat
}.

(** A new list object, and the list behind an address. *)
Definition new_list (l : list bool) : M (t * list (list bool)) nat :=
  fun w => (Ok (length (snd w)), (fst w, snd w ++ [l])%list).

Definition deref (a : nat) : M (t * list (list bool)) (list bool) :=
  gets (fun w => snd w !!! a).

Definition assign (a : nat) (l : list bool) : M (t * list (list bool)) unit :=
  modify (fun w => (fst w, <[a := l]> (snd w))).

(** [__init__], on a store: the new object and the store with its empty
    list. *)
Definition init (h : list (list bool)) : t * list (list bool) :=
  ({| self_number_of_outlets := 0; self_outlet_states := length h |},
   (h ++ [[]])%list).

Definition number_of_outlets : M (t * list (list bool)) Z :=
  let* self := get_self in
  if (self_number_of_outlets self =? 0)%Z
  then raise (RuntimeError
         "The `initialize` must be called to populate the `number_of_outlets` property")
  else ret (self_number_of_outlets self).

Definition initialize : M (t * list (list bool)) unit :=
  do* set_self (fun self => {| self_number_of_outlets := 16;
                               self_outlet_states := self_outlet_states self |}) in
  let* self := get_self in
  let* a := new_list (repeat false (Z.to_nat (self_number_of_outlets self))) in
  set_self (fun self => {| self_number_of_outlets := self_number_of_outlets self;
                           self_outlet_states := a |}).

Definition close : M (t * list (list bool)) unit := ret tt.

Definition get_all_outlet_states : M (t * list (list bool)) nat :=
  let* self := get_self in
  ret (self_outlet_states self).

Definition get_outlet_state (outlet : Z) : M (t * list (list bool)) bool :=
  let* self := get_self in
  let* l := deref (self_outlet_states self) in
  lift (Pdu.py_getitem l (outlet - 1)).

Definition assign_outlet_state (outlet : Z) (b : bool) : M (t * list (list bool)) unit :=
  let* self := get_self in
  let* l := deref (self_outlet_states self) in
  let* l' := lift (Pdu.py_setitem l (outlet - 1) b) in
  assign (self_outlet_states self) l'.

Definition send_outlet_command (outlet : Z) (command : Pdu.OutletCommand)
  : M (t * list (list bool)) unit :=
  match command with
  | Pdu.IMMEDIATE_ON => assign_outlet_state outlet true
  | Pdu.IMMEDIATE_OFF => assign_outlet_state outlet false
  | Pdu.IMMEDIATE_REBOOT => assign_outlet_state outlet true
  end.

End SimObj.

(** The simulated PDU of [Pdu.Sim] that an object and a store stand
    for. *)
Definition sim_view (w : SimObj.t * list (list bool)) : Pdu.Sim.t :=
  {| Pdu.Sim.self_number_of_outlets := SimObj.self_number_of_outlets (fst w);
     Pdu.Sim.self_outlet_states := snd w !!! SimObj.self_outlet_states (fst w) |}.

(** The state that a command leaves on an outlet. *)
Definition commanded_state (command : Pdu.OutletCommand) : bool :=
  match command with
  | Pdu.IMMEDIATE_OFF => false
  | _ => true
  end.

(** ** [cyberpower_pdu/widgets/ip_address_line_edit.py]

    The pattern of the validator, as the tree of its text

      (?:(?:25[0-5]|2[0-4][0-9]|[01]?[0-9][0-9]?)\.){3}
      (?:25[0-5]|2[0-4][0-9]|[01]?[0-9][0-9]?)

    and a matcher that tries the ways to match in the order of a
    backtracking engine: the first branch of an alternative first, one
    occurrence of an optional item before none.  The validator of Qt
    accepts a text when the pattern matches it from its first character
    to its last, where the two anchors of the pattern hold.  The text
    is a text of 8-bit characters. *)
Module IpAddressLineEdit.

Inductive regex : Type :=
  | Class (p : ascii -> bool)
  | Seq (r1 r2 : regex)
  | Alt (r1 r2 : regex)
  | Opt (r : regex)
  | Repeat (n : nat) (r : regex).

(** [[lo-hi]], a set of characters such as [[01]], and one character. *)
Definition in_range (lo hi c : ascii) : bool :=
  (N_of_ascii lo <=? N_of_ascii c)%N && (N_of_ascii c <=? N_of_ascii hi)%N.

Definition one_of (cs : list ascii) (c : ascii) : bool :=
  existsb (Ascii.eqb c) cs.

Definition Chr (c : ascii) : regex := Class (Ascii.eqb c).

(** The texts that can be left after a match at the start of [s]. *)
Fixpoint exec (r : regex) (s : string) : list string :=
  match r with
  | Class p =>
      match s with
      | String c rest => if p c then [rest] else []
      | EmptyString => []
      end
  | Seq r1 r2 => flat_map (exec r2) (exec r1 s)
  | Alt r1 r2 => (exec r1 s ++ exec r2 s)%list
  | Opt r1 => (exec r1 s ++ [s])%list
  | Repeat n r1 =>
      (fix times (n : nat) (s : string) : list string :=
         match n with
         | O => [s]
         | S n' => flat_map (times n') (exec r1 s)
         end) n s
  end.

(** [(?:25[0-5]|2[0-4][0-9]|[01]?[0-9][0-9]?)] *)
Definition octet : regex :=
  Alt (Seq (Chr "2") (Seq (Chr "5") (Class (in_range "0" "5"))))
      (Alt (Seq (Chr "2") (Seq (Class (in_range "0" "4")) (Class (in_range "0" "9"))))
           (Seq (Opt (Class (one_of ["0"; "1"]%char)))
                (Seq (Class (in_range "0" "9")) (Opt (Class (in_range "0" "9")))))).

Definition ip_address_regex : regex :=
  Seq (Repeat 3 (Seq octet (Chr "."))) octet.

(** [validator.validate(text, 0)[0] == QValidator.Acceptable] *)
Definition acceptable (text : string) : bool :=
  existsb (String.eqb "") (exec ip_address_regex text).

(** [check_ip_address]: the style sheet it sets for the text of the
    line edit. *)
Definition check_ip_address (text : string) : string :=
  let color := if acceptable text then "#FFFFFF" else "#F6989D" in
  "QLineEdit { background-color: " ++ color ++ " }".

End IpAddressLineEdit.

(** A number of one to three decimal digits that is at most 255. *)
Definition is_octet (x : string) : bool :=
  (1 <=? String.length x)%nat && (String.length x <=? 3)%nat
  && all_chars TelnetApi.is_digit x && (decimal_value 0 x <=? 255)%Z.

(** ** Properties *)

Lemma str_of_int_examples :
  str_of_int 0 = "0" /\ str_of_int 5 = "5" /\ str_of_int (-12) = "-12"
  /\ str_of_int 1024 = "1024".
Proof. repeat split. Qed.

(** *** The sentinel: a count of 0 makes every operation that consults
    the count raise the error of the property, without any exchange. *)

Lemma outlet_range_message_eq outlet n :
  "Invalid outlet value of: " ++ str_of_int outlet
    ++ ". Valid outlet values " ++ "are 1 to " ++ str_of_int n
  = outlet_range_message outlet n.
Proof. reflexivity. Qed.

Ltac by_sentinel number_zero :=
  match goal with
  | |- context [(0 <? ?outlet)%Z] =>
      destruct (0 <? outlet)%Z; unfold bind at 1;
      [unfold bind at 1 | unfold ret at 1; unfold bind at 1; unfold bind at 1];
      rewrite number_zero; reflexivity
  end.

Section AsyncSentinel.
Import AsyncApi.
Variables (self : Hw.t) (net : network).
Hypothesis Hzero : Hw.self_number_of_outlets self = 0.

Lemma async_number_of_outlets_zero :
  Hw.number_of_outlets (self, net)
  = (Raise (RuntimeError not_initialized_message), (self, net)).
Proof using Hzero.
  unfold Hw.number_of_outlets, bind, get_self, gets; simpl.
  rewrite Hzero; reflexivity.
Qed.

Lemma async_get_outlet_state_zero outlet :
  Hw.get_outlet_state outlet (self, net)
  = (Raise (RuntimeError not_initialized_message), (self, net)).
Proof using Hzero.
  unfold Hw.get_outlet_state, Hw.valid_outlet_index, Hw.get_outlet_value_error.
  by_sentinel async_number_of_outlets_zero.
Qed.

Lemma async_send_outlet_command_zero outlet command :
  Hw.send_outlet_command outlet command (self, net)
  = (Raise (RuntimeError not_initialized_message), (self, net)).
Proof using Hzero.
  unfold Hw.send_outlet_command, Hw.valid_outlet_index, Hw.get_outlet_value_error.
  by_sentinel async_number_of_outlets_zero.
Qed.
End AsyncSentinel.

Section PduSentinel.
Import Pdu.
Variables (self : Hw.t) (net : network).
Hypothesis Hzero : Hw.self_number_of_outlets self = 0.

Lemma pdu_number_of_outlets_zero :
  Hw.number_of_outlets (self, net)
  = (Raise (RuntimeError not_initialized_message), (self, net)).
Proof using Hzero.
  unfold Hw.number_of_outlets, bind, get_self, gets; simpl.
  rewrite Hzero; reflexivity.
Qed.

Lemma pdu_get_outlet_state_zero outlet :
  Hw.get_outlet_state outlet (self, net)
  = (Raise (RuntimeError not_initialized_message), (self, net)).
Proof using Hzero.
  unfold Hw.get_outlet_state, Hw.valid_outlet_index, Hw.get_outlet_value_error.
  by_sentinel pdu_number_of_outlets_zero.
Qed.

Lemma pdu_send_outlet_command_zero outlet command :
  Hw.send_outlet_command outlet command (self, net)
  = (Raise (RuntimeError not_initialized_message), (self, net)).
Proof using Hzero.
  unfold Hw.send_outlet_command, Hw.valid_outlet_index, Hw.get_outlet_value_error.
  by_sentinel pdu_number_of_outlets_zero.
Qed.

Lemma pdu_get_all_outlet_states_zero :
  Hw.get_all_outlet_states (self, net)
  = (Raise (RuntimeError not_initialized_message), (self, net)).
Proof using Hzero.
  unfold Hw.get_all_outlet_states. unfold bind at 1.
  rewrite pdu_number_of_outlets_zero; reflexivity.
Qed.
End PduSentinel.

Section TelnetSentinel.
Import TelnetApi.
Variables (self : Hw.t) (c : connection).
Hypothesis Hzero : Hw.self_number_of_outlets self = 0.

Lemma telnet_number_of_outlets_zero :
  Hw.number_of_outlets (self, c)
  = (Raise (RuntimeError not_initialized_message), (self, c)).
Proof using Hzero.
  unfold Hw.number_of_outlets, bind, get_self, gets; simpl.
  rewrite Hzero; reflexivity.
Qed.

Lemma telnet_get_outlet_state_zero outlet :
  Hw.get_outlet_state outlet (self, c)
  = (Raise (RuntimeError not_initialized_message), (self, c)).
Proof using Hzero.
  unfold Hw.get_outlet_state, Hw.valid_outlet_index, Hw.get_outlet_value_error.
  by_sentinel telnet_number_of_outlets_zero.
Qed.

Lemma telnet_send_outlet_command_zero outlet command :
  Hw.send_outlet_command outlet command (self, c)
  = (Raise (RuntimeError not_initialized_message), (self, c)).
Proof using Hzero.
  unfold Hw.send_outlet_command, Hw.valid_outlet_index, Hw.get_outlet_value_error.
  by_sentinel telnet_number_of_outlets_zero.
Qed.
End TelnetSentinel.

(** *** The range check: with a count that is not 0, an index outside
    1..count is refused with the message that shows the index and the
    count, and nothing is exchanged; an index inside passes. *)

Section AsyncRange.
Import AsyncApi.
Variables (self : Hw.t) (net : network).
Hypothesis Hcount : Hw.self_number_of_outlets self <> 0.

Lemma async_number_of_outlets_ok :
  Hw.number_of_outlets (self, net)
  = (Ok (Hw.self_number_of_outlets self), (self, net)).
Proof using Hcount.
  unfold Hw.number_of_outlets, bind, get_self, gets; simpl.
  destruct (Z.eqb_spec (Hw.self_number_of_outlets self) 0); [contradiction|reflexivity].
Qed.

Lemma async_valid_outlet_index outlet :
  Hw.valid_outlet_index outlet (self, net)
  = (Ok ((0 <? outlet)%Z && (outlet <=? Hw.self_number_of_outlets self)%Z),
     (self, net)).
Proof using Hcount.
  unfold Hw.valid_outlet_index. destruct (0 <? outlet)%Z; [|reflexivity].
  unfold bind. rewrite async_number_of_outlets_ok. reflexivity.
Qed.

Lemma async_get_outlet_value_error outlet :
  Hw.get_outlet_value_error outlet (self, net)
  = (Ok (ValueError (outlet_range_message outlet (Hw.self_number_of_outlets self))),
     (self, net)).
Proof using Hcount.
  unfold Hw.get_outlet_value_error, bind.
  rewrite async_number_of_outlets_ok. reflexivity.
Qed.

Lemma async_get_outlet_state_out_of_range outlet :
  ~ (1 <= outlet <= Hw.self_number_of_outlets self)%Z ->
  Hw.get_outlet_state outlet (self, net)
  = (Raise (ValueError (outlet_range_message outlet (Hw.self_number_of_outlets self))),
     (self, net)).
Proof using Hcount.
  intros Hout. unfold Hw.get_outlet_state. unfold bind at 1.
  rewrite async_valid_outlet_index.
  replace ((0 <? outlet)%Z && (outlet <=? Hw.self_number_of_outlets self)%Z)
    with false by (symmetry; apply andb_false_iff; lia).
  unfold bind. rewrite async_get_outlet_value_error. reflexivity.
Qed.

Lemma async_send_outlet_command_out_of_range outlet command :
  ~ (1 <= outlet <= Hw.self_number_of_outlets self)%Z ->
  Hw.send_outlet_command outlet command (self, net)
  = (Raise (ValueError (outlet_range_message outlet (Hw.self_number_of_outlets self))),
     (self, net)).
Proof using Hcount.
  intros Hout. unfold Hw.send_outlet_command. unfold bind at 1.
  rewrite async_valid_outlet_index.
  replace ((0 <? outlet)%Z && (outlet <=? Hw.self_number_of_outlets self)%Z)
    with false by (symmetry; apply andb_false_iff; lia).
  unfold bind. rewrite async_get_outlet_value_error. reflexivity.
Qed.
End AsyncRange.

Ltac index_refused valid_lemma error_lemma :=
  intros Hout; unfold bind at 1; rewrite valid_lemma;
  match goal with
  | |- context [((0 <? ?i)%Z && (?i <=? ?n)%Z)] =>
      replace ((0 <? i)%Z && (i <=? n)%Z) with false
        by (symmetry; apply andb_false_iff; lia)
  end;
  unfold bind; rewrite error_lemma; reflexivity.

Ltac index_accepted valid_lemma :=
  unfold bind at 1; rewrite valid_lemma;
  match goal with
  | |- context [((0 <? ?i)%Z && (?i <=? ?n)%Z)] =>
      replace ((0 <? i)%Z && (i <=? n)%Z) with true
        by (symmetry; apply andb_true_iff; lia)
  end.

Section PduRange.
Import Pdu.
Variables (self : Hw.t) (net : network).
Hypothesis Hcount : Hw.self_number_of_outlets self <> 0.

Lemma pdu_number_of_outlets_ok :
  Hw.number_of_outlets (self, net)
  = (Ok (Hw.self_number_of_outlets self), (self, net)).
Proof using Hcount.
  unfold Hw.number_of_outlets, bind, get_self, gets; simpl.
  destruct (Z.eqb_spec (Hw.self_number_of_outlets self) 0); [contradiction|reflexivity].
Qed.

Lemma pdu_valid_outlet_index outlet :
  Hw.valid_outlet_index outlet (self, net)
  = (Ok ((0 <? outlet)%Z && (outlet <=? Hw.self_number_of_outlets self)%Z),
     (self, net)).
Proof using Hcount.
  unfold Hw.valid_outlet_index. destruct (0 <? outlet)%Z; [|reflexivity].
  unfold bind. rewrite pdu_number_of_outlets_ok. reflexivity.
Qed.

Lemma pdu_get_outlet_value_error outlet :
  Hw.get_outlet_value_error outlet (self, net)
  = (Ok (ValueError (outlet_range_message outlet (Hw.self_number_of_outlets self))),
     (self, net)).
Proof using Hcount.
  unfold Hw.get_outlet_value_error, bind.
  rewrite pdu_number_of_outlets_ok. reflexivity.
Qed.

Lemma pdu_get_outlet_state_out_of_range outlet :
  ~ (1 <= outlet <= Hw.self_number_of_outlets self)%Z ->
  Hw.get_outlet_state outlet (self, net)
  = (Raise (ValueError (outlet_range_message outlet (Hw.self_number_of_outlets self))),
     (self, net)).
Proof using Hcount.
  unfold Hw.get_outlet_state.
  index_refused pdu_valid_outlet_index pdu_get_outlet_value_error.
Qed.

Lemma pdu_send_outlet_command_out_of_range outlet command :
  ~ (1 <= outlet <= Hw.self_number_of_outlets self)%Z ->
  Hw.send_outlet_command outlet command (self, net)
  = (Raise (ValueError (outlet_range_message outlet (Hw.self_number_of_outlets self))),
     (self, net)).
Proof using Hcount.
  unfold Hw.send_outlet_command.
  index_refused pdu_valid_outlet_index pdu_get_outlet_value_error.
Qed.
End PduRange.

Section TelnetRange.
Import TelnetApi.
Variables (self : Hw.t) (c : connection).
Hypothesis Hcount : Hw.self_number_of_outlets self <> 0.

Lemma telnet_number_of_outlets_ok :
  Hw.number_of_outlets (self, c)
  = (Ok (Hw.self_number_of_outlets self), (self, c)).
Proof using Hcount.
  unfold Hw.number_of_outlets, bind, get_self, gets; simpl.
  destruct (Z.eqb_spec (Hw.self_number_of_outlets self) 0); [contradiction|reflexivity].
Qed.

Lemma telnet_valid_outlet_index outlet :
  Hw.valid_outlet_index outlet (self, c)
  = (Ok ((0 <? outlet)%Z && (outlet <=? Hw.self_number_of_outlets self)%Z),
     (self, c)).
Proof using Hcount.
  unfold Hw.valid_outlet_index. destruct (0 <? outlet)%Z; [|reflexivity].
  unfold bind. rewrite telnet_number_of_outlets_ok. reflexivity.
Qed.

Lemma telnet_get_outlet_value_error outlet :
  Hw.get_outlet_value_error outlet (self, c)
  = (Ok (ValueError (outlet_range_message outlet (Hw.self_number_of_outlets self))),
     (self, c)).
Proof using Hcount.
  unfold Hw.get_outlet_value_error, bind.
  rewrite telnet_number_of_outlets_ok. reflexivity.
Qed.

Lemma telnet_get_outlet_state_out_of_range outlet :
  ~ (1 <= outlet <= Hw.self_number_of_outlets self)%Z ->
  Hw.get_outlet_state outlet (self, c)
  = (Raise (ValueError (outlet_range_message outlet (Hw.self_number_of_outlets self))),
     (self, c)).
Proof using Hcount.
  unfold Hw.get_outlet_state.
  index_refused telnet_valid_outlet_index telnet_get_outlet_value_error.
Qed.

Lemma telnet_send_outlet_command_out_of_range outlet command :
  ~ (1 <= outlet <= Hw.self_number_of_outlets self)%Z ->
  Hw.send_outlet_command outlet command (self, c)
  = (Raise (ValueError (outlet_range_message outlet (Hw.self_number_of_outlets self))),
     (self, c)).
Proof using Hcount.
  unfold Hw.send_outlet_command.
  index_refused telnet_valid_outlet_index telnet_get_outlet_value_error.
Qed.
End TelnetRange.

(** *** Texts *)

Lemma prefix_append (a b : string) : String.prefix a (a ++ b) = true.
Proof.
  induction a as [|ch a IH]; simpl.
  - destruct b; reflexivity.
  - destruct (Ascii.ascii_dec ch ch) as [_|Hne]; [exact IH|contradiction].
Qed.

Lemma str_contains_prefix (needle haystack : string) :
  String.prefix needle haystack = true -> str_contains needle haystack = true.
Proof. intros H. destruct haystack; cbn [str_contains]; rewrite H; reflexivity. Qed.

Lemma str_contains_append (needle before after : string) :
  str_contains needle (before ++ needle ++ after) = true.
Proof.
  induction before as [|ch before IH]; cbn [String.append].
  - apply str_contains_prefix. apply prefix_append.
  - cbn [str_contains]. rewrite IH. destruct (String.prefix needle _); reflexivity.
Qed.

Lemma append_assoc (a b c : string) : (a ++ b) ++ c = a ++ (b ++ c).
Proof. induction a as [|ch a IH]; simpl; [reflexivity|rewrite IH; reflexivity]. Qed.

Lemma append_empty_r (a : string) : a ++ "" = a.
Proof. induction a as [|ch a IH]; simpl; [reflexivity|rewrite IH; reflexivity]. Qed.

(** The message of the outlet clients shows the index and the range. *)
Lemma outlet_range_message_carries (outlet count : Z) :
  is_OutOfRangeError outlet count (ValueError (outlet_range_message outlet count)) = true.
Proof.
  unfold is_OutOfRangeError, outlet_range_message. apply andb_true_iff; split.
  - replace ("Invalid outlet value of: " ++ str_of_int outlet
             ++ ". Valid outlet values are 1 to " ++ str_of_int count)
      with ("Invalid outlet " ++ ("value of: " ++ str_of_int outlet ++ ".")
            ++ " Valid outlet values are 1 to " ++ str_of_int count).
    + apply str_contains_append.
    + simpl. rewrite append_assoc. reflexivity.
  - replace ("Invalid outlet value of: " ++ str_of_int outlet
             ++ ". Valid outlet values are 1 to " ++ str_of_int count)
      with (("Invalid outlet value of: " ++ str_of_int outlet ++ ". Valid outlet values are ")
            ++ ("1 to " ++ str_of_int count) ++ "").
    + apply str_contains_append.
    + rewrite append_empty_r. simpl. rewrite append_assoc. reflexivity.
Qed.

(** *** The bank load of the pysnmp client *)

Lemma async_get_bank_load_out_of_range (self : AsyncApi.Hw.t) (net : AsyncApi.network)
    (bank : Z) :
  ~ (1 <= bank <= AsyncApi.Hw.self_number_of_banks self)%Z ->
  AsyncApi.Hw.get_bank_load bank (self, net)
  = (Raise (ValueError ("Invalid bank value of: " ++ str_of_int bank
                        ++ ". Valid bank values are 1 to {self.__number_of_banks}")),
     (self, net)).
Proof.
  intros Hout. unfold AsyncApi.Hw.get_bank_load, bind, get_self, gets; simpl.
  replace ((0 <? bank)%Z && (bank <=? AsyncApi.Hw.self_number_of_banks self)%Z)
    with false by (symmetry; apply andb_false_iff; lia).
  reflexivity.
Qed.

(** C1 (the defect).  An initialized pysnmp client with two banks is
    asked for the load of bank 3: it raises [ValueError] without any
    exchange, and the message shows the index 3 but not the range: it
    ends with the text of the placeholder, since the second literal of
    the message is not an f-string.  Asked for the state of outlet 9 of
    its 8 outlets, the same client raises the [ValueError] whose message
    shows the index and the range 1 to 8. *)
Theorem C1_bank_load_error_omits_range (ip : string) (net : AsyncApi.network) :
  let self := {| AsyncApi.Hw.self_ip_address := ip;
                 AsyncApi.Hw.self_number_of_banks := 2;
                 AsyncApi.Hw.self_number_of_outlets := 8 |} in
  AsyncApi.Hw.get_bank_load 3 (self, net)
  = (Raise (ValueError
       "Invalid bank value of: 3. Valid bank values are 1 to {self.__number_of_banks}"),
     (self, net))
  /\ is_OutOfRangeError 3 2
       (ValueError
          "Invalid bank value of: 3. Valid bank values are 1 to {self.__number_of_banks}")
     = false
  /\ AsyncApi.Hw.get_outlet_state 9 (self, net)
     = (Raise (ValueError "Invalid outlet value of: 9. Valid outlet values are 1 to 8"),
        (self, net))
  /\ is_OutOfRangeError 9 8
       (ValueError "Invalid outlet value of: 9. Valid outlet values are 1 to 8")
     = true.
Proof. repeat split. Qed.

(** C9.  The Telnet client answers every bank-load query, whatever the
    bank and whatever its state, with [NotImplementedError]; the
    connection is left as it was: nothing is written, nothing is read. *)
Theorem C9_telnet_bank_load_unsupported (self : TelnetApi.Hw.t)
    (c : TelnetApi.connection) (bank : Z) :
  exists e,
    TelnetApi.Hw.get_bank_load bank (self, c) = (Raise e, (self, c))
    /\ is_UnsupportedOperationError e = true.
Proof. eexists; split; reflexivity. Qed.

(** *** Before [initialize], after [close] *)

(** C2 (as stated, refuted).  Before [initialize] the bank-load query of
    the pysnmp client raises the [ValueError] of its own range check,
    which is not the error of the missing initialization; and after
    [initialize] and [close] the puresnmp client still reads the state
    of outlet 1. *)
Lemma C2_counterexample :
  (exists e,
     fst (AsyncApi.Hw.get_bank_load 1
            (AsyncApi.Hw.init example_ip, async_network_with 8 2 1)) = Raise e
     /\ is_NotInitializedError e = false)
  /\ (let w0 := (Pdu.Hw.init example_ip 161, pdu_network_with 8 1) in
      let w1 := snd (Pdu.Hw.initialize w0) in
      let w2 := snd (Pdu.Hw.close w1) in
      fst (Pdu.Hw.initialize w0) = Ok tt
      /\ fst (Pdu.Hw.close w1) = Ok tt
      /\ fst (Pdu.Hw.get_outlet_state 1 w2) = Ok true).
Proof.
  split.
  - eexists. split; [reflexivity|reflexivity].
  - repeat split.
Qed.

(** C2 (amended).  As long as the count of outlets of a client is 0,
    which is so from its construction until [initialize] has stored the
    count, the count query, [get_outlet_state], [send_outlet_command]
    and, where the client has it, [get_all_outlet_states] raise the
    error of the missing initialization, and exchange nothing. *)
Theorem C2_count_guarded_before_initialize
    (a : AsyncApi.Hw.t) (an : AsyncApi.network)
    (p : Pdu.Hw.t) (pn : Pdu.network)
    (t : TelnetApi.Hw.t) (tc : TelnetApi.connection)
    (outlet : Z) (ca : AsyncApi.OutletCommand) (cp : Pdu.OutletCommand)
    (ct : TelnetApi.OutletCommand) :
  AsyncApi.Hw.self_number_of_outlets a = 0 ->
  Pdu.Hw.self_number_of_outlets p = 0 ->
  TelnetApi.Hw.self_number_of_outlets t = 0 ->
  is_NotInitializedError (RuntimeError not_initialized_message) = true
  /\ AsyncApi.Hw.number_of_outlets (a, an)
     = (Raise (RuntimeError not_initialized_message), (a, an))
  /\ AsyncApi.Hw.get_outlet_state outlet (a, an)
     = (Raise (RuntimeError not_initialized_message), (a, an))
  /\ AsyncApi.Hw.send_outlet_command outlet ca (a, an)
     = (Raise (RuntimeError not_initialized_message), (a, an))
  /\ Pdu.Hw.number_of_outlets (p, pn)
     = (Raise (RuntimeError not_initialized_message), (p, pn))
  /\ Pdu.Hw.get_outlet_state outlet (p, pn)
     = (Raise (RuntimeError not_initialized_message), (p, pn))
  /\ Pdu.Hw.get_all_outlet_states (p, pn)
     = (Raise (RuntimeError not_initialized_message), (p, pn))
  /\ Pdu.Hw.send_outlet_command outlet cp (p, pn)
     = (Raise (RuntimeError not_initialized_message), (p, pn))
  /\ TelnetApi.Hw.number_of_outlets (t, tc)
     = (Raise (RuntimeError not_initialized_message), (t, tc))
  /\ TelnetApi.Hw.get_outlet_state outlet (t, tc)
     = (Raise (RuntimeError not_initialized_message), (t, tc))
  /\ TelnetApi.Hw.send_outlet_command outlet ct (t, tc)
     = (Raise (RuntimeError not_initialized_message), (t, tc)).
Proof.
  intros Ha Hp Ht.
  split; [reflexivity|].
  split; [apply async_number_of_outlets_zero; assumption|].
  split; [apply async_get_outlet_state_zero; assumption|].
  split; [apply async_send_outlet_command_zero; assumption|].
  split; [apply pdu_number_of_outlets_zero; assumption|].
  split; [apply pdu_get_outlet_state_zero; assumption|].
  split; [apply pdu_get_all_outlet_states_zero; assumption|].
  split; [apply pdu_send_outlet_command_zero; assumption|].
  split; [apply telnet_number_of_outlets_zero; assumption|].
  split; [apply telnet_get_outlet_state_zero; assumption|].
  apply telnet_send_outlet_command_zero; assumption.
Qed.

Lemma C2_count_guarded_before_initialize_witness :
  Pdu.Hw.get_all_outlet_states (Pdu.Hw.init example_ip 161, pdu_network_with 8 1)
  = (Raise (RuntimeError not_initialized_message),
     (Pdu.Hw.init example_ip 161, pdu_network_with 8 1))
  /\ TelnetApi.Hw.get_outlet_state 1
       (TelnetApi.Hw.init example_ip, telnet_connection [])
     = (Raise (RuntimeError not_initialized_message),
        (TelnetApi.Hw.init example_ip, telnet_connection [])).
Proof.
  pose proof (C2_count_guarded_before_initialize
                (AsyncApi.Hw.init example_ip) (async_network_with 8 2 1)
                (Pdu.Hw.init example_ip 161) (pdu_network_with 8 1)
                (TelnetApi.Hw.init example_ip) (telnet_connection [])
                1 AsyncApi.IMMEDIATE_ON Pdu.IMMEDIATE_ON TelnetApi.IMMEDIATE_ON
                eq_refl eq_refl eq_refl) as H.
  split; [apply H|apply H].
Defined.

(** *** The polling loop of the Telnet client *)

Lemma bind_ok_inv {W A B} (m : M W A) (k : A -> M W B) (w w' : W) (b : B) :
  bind m k w = (Ok b, w') ->
  exists a w1, m w = (Ok a, w1) /\ k a w1 = (Ok b, w').
Proof.
  unfold bind. destruct (m w) as [[a|e] w1]; intros H; [eauto|discriminate].
Qed.

(** The loop never returns the empty mapping. *)
Lemma poll_non_empty (incoming : list string) :
  forall (outlet_states : gmap Z bool) (c c' : TelnetApi.connection)
         (m : gmap Z bool),
    TelnetApi.Hw.poll outlet_states incoming c = (Ok m, c') -> m <> ∅.
Proof.
  induction incoming as [|response rest IH]; intros outlet_states c c' m H.
  - simpl in H. destruct (decide (outlet_states = ∅)) as [He|Hne].
    + discriminate.
    + injection H as <- _. exact Hne.
  - simpl in H. destruct (decide (outlet_states = ∅)) as [He|Hne].
    + destruct (TelnetApi.parse_response response) as [m1|e]; [|discriminate].
      eapply IH; eassumption.
    + injection H as <- _. exact Hne.
Qed.

Lemma get_outlet_states_non_empty (w w' : TelnetApi.Hw.t * TelnetApi.connection)
    (m : gmap Z bool) :
  TelnetApi.Hw.get_outlet_states w = (Ok m, w') -> m <> ∅.
Proof.
  unfold TelnetApi.Hw.get_outlet_states, TelnetApi.Hw.on_stream.
  intros H. apply bind_ok_inv in H as (self & w1 & Hself & H).
  destruct (TelnetApi.Hw.self_connected self); [|discriminate].
  unfold on_network in H.
  destruct (TelnetApi.Hw.poll ∅ (TelnetApi.incoming (snd w1)) (snd w1))
    as [r c2] eqn:Hpoll.
  injection H as -> _. eapply poll_non_empty; eassumption.
Qed.

(** [initialize] of the Telnet client cannot end with a count of 0. *)
Lemma telnet_initialize_count (w : TelnetApi.Hw.t * TelnetApi.connection)
    (self' : TelnetApi.Hw.t) (c' : TelnetApi.connection) :
  TelnetApi.Hw.initialize w = (Ok tt, (self', c')) ->
  (0 < TelnetApi.Hw.self_number_of_outlets self')%Z.
Proof.
  unfold TelnetApi.Hw.initialize. intros H.
  do 8 (apply bind_ok_inv in H as (? & ? & _ & H)).
  apply bind_ok_inv in H as (m & w9 & Hm & H).
  apply get_outlet_states_non_empty in Hm.
  unfold set_self, modify in H. injection H as <- _. simpl.
  apply map_size_non_empty_iff in Hm. lia.
Qed.

(** *** [initialize] of the puresnmp client *)

Lemma pdu_initialize_count (ip : string) (port : Z) (net : Pdu.network) (n : Z) :
  Pdu.agent net (Pdu.sent net) (Pdu.Get (pdu_client ip) outlet_count_oid) = Ok n ->
  Pdu.Hw.initialize (Pdu.Hw.init ip port, net)
  = (Ok tt,
     ({| Pdu.Hw.self_ip_address := ip;
         Pdu.Hw.self_number_of_outlets := n;
         Pdu.Hw.self_client := Some (pdu_client ip) |},
      pdu_after net (Pdu.Get (pdu_client ip) outlet_count_oid))).
Proof.
  intros Hn.
  unfold Pdu.Hw.initialize, Pdu.Hw.get_number_of_outlets, Pdu.Hw.client_get,
    bind, set_self, get_self, gets, modify, on_network, Pdu.exchange; simpl.
  fold (pdu_client ip). fold outlet_count_oid. rewrite Hn. reflexivity.
Qed.

(** C10.  A PDU that reports 0 outlets lets [initialize] of the
    puresnmp client end without error, and the client it leaves answers
    the count query and every operation that checks an index as the
    client that was never initialized does: with the error of the
    missing initialization and without any exchange.  The Telnet client
    keeps the same sentinel, and its [initialize] cannot end with a
    count of 0. *)
Theorem C10_zero_outlets_is_not_initialized
    (ip : string) (port : Z) (net : Pdu.network) :
  Pdu.agent net (Pdu.sent net) (Pdu.Get (pdu_client ip) outlet_count_oid) = Ok 0 ->
  exists self' net',
    Pdu.Hw.initialize (Pdu.Hw.init ip port, net) = (Ok tt, (self', net'))
    /\ (forall (n : Pdu.network) (outlet : Z) (command : Pdu.OutletCommand),
          (Pdu.Hw.number_of_outlets (self', n)
             = (Raise (RuntimeError not_initialized_message), (self', n))
           /\ Pdu.Hw.number_of_outlets (Pdu.Hw.init ip port, n)
             = (Raise (RuntimeError not_initialized_message), (Pdu.Hw.init ip port, n)))
          /\ (Pdu.Hw.get_outlet_state outlet (self', n)
                = (Raise (RuntimeError not_initialized_message), (self', n))
              /\ Pdu.Hw.get_outlet_state outlet (Pdu.Hw.init ip port, n)
                = (Raise (RuntimeError not_initialized_message),
                   (Pdu.Hw.init ip port, n)))
          /\ (Pdu.Hw.send_outlet_command outlet command (self', n)
                = (Raise (RuntimeError not_initialized_message), (self', n))
              /\ Pdu.Hw.send_outlet_command outlet command (Pdu.Hw.init ip port, n)
                = (Raise (RuntimeError not_initialized_message),
                   (Pdu.Hw.init ip port, n)))
          /\ (Pdu.Hw.get_all_outlet_states (self', n)
                = (Raise (RuntimeError not_initialized_message), (self', n))
              /\ Pdu.Hw.get_all_outlet_states (Pdu.Hw.init ip port, n)
                = (Raise (RuntimeError not_initialized_message),
                   (Pdu.Hw.init ip port, n))))
    /\ (forall (t : TelnetApi.Hw.t) (c : TelnetApi.connection) (outlet : Z)
               (command : TelnetApi.OutletCommand),
          TelnetApi.Hw.self_number_of_outlets t = 0 ->
          TelnetApi.Hw.number_of_outlets (t, c)
            = (Raise (RuntimeError not_initialized_message), (t, c))
          /\ TelnetApi.Hw.get_outlet_state outlet (t, c)
            = (Raise (RuntimeError not_initialized_message), (t, c))
          /\ TelnetApi.Hw.send_outlet_command outlet command (t, c)
            = (Raise (RuntimeError not_initialized_message), (t, c)))
    /\ (forall (w : TelnetApi.Hw.t * TelnetApi.connection) (t' : TelnetApi.Hw.t)
               (c' : TelnetApi.connection),
          TelnetApi.Hw.initialize w = (Ok tt, (t', c')) ->
          TelnetApi.Hw.self_number_of_outlets t' <> 0).
Proof.
  intros Hzero. eexists _, _. split; [apply pdu_initialize_count; exact Hzero|].
  split; [|split].
  - intros n outlet command.
    repeat split;
      first [ apply pdu_number_of_outlets_zero
            | apply pdu_get_outlet_state_zero
            | apply pdu_send_outlet_command_zero
            | apply pdu_get_all_outlet_states_zero ]; reflexivity.
  - intros t c outlet command Ht.
    repeat split;
      first [ apply telnet_number_of_outlets_zero
            | apply telnet_get_outlet_state_zero
            | apply telnet_send_outlet_command_zero ]; exact Ht.
  - intros w t' c' H. apply telnet_initialize_count in H. lia.
Qed.

Lemma C10_zero_outlets_is_not_initialized_witness :
  exists self' net',
    Pdu.Hw.initialize (Pdu.Hw.init example_ip 161, pdu_network_with 0 1)
    = (Ok tt, (self', net'))
    /\ Pdu.Hw.get_outlet_state 1 (self', net')
       = (Raise (RuntimeError not_initialized_message), (self', net')).
Proof.
  destruct (C10_zero_outlets_is_not_initialized example_ip 161 (pdu_network_with 0 1)
              eq_refl) as (self' & net' & Hinit & Hops & _).
  exists self', net'. split; [exact Hinit|].
  apply (Hops net' 1 Pdu.IMMEDIATE_ON).
Defined.

(** *** Commands of the Telnet client *)

(** C7.  For an outlet inside 1..count the Telnet client writes one
    line, [oltctrl index N act ACTION] ended by CR LF, where ACTION is
    [on], [off] or [reboot] for the three commands, and returns; the
    texts still to be read are left where they are, so no answer of the
    PDU is awaited or looked at. *)
Theorem C7_telnet_command_line (self : TelnetApi.Hw.t) (c : TelnetApi.connection)
    (outlet : Z) (command : TelnetApi.OutletCommand) :
  TelnetApi.Hw.self_connected self = true ->
  (1 <= outlet <= TelnetApi.Hw.self_number_of_outlets self)%Z ->
  TelnetApi.Hw.send_outlet_command outlet command (self, c)
  = (Ok tt,
     (self,
      wrote c ["oltctrl index " ++ str_of_int outlet ++ " act "
               ++ match command with
                  | TelnetApi.IMMEDIATE_ON => "on"
                  | TelnetApi.IMMEDIATE_OFF => "off"
                  | TelnetApi.IMMEDIATE_REBOOT => "reboot"
                  end ++ CRLF])).
Proof.
  intros Hconn Hrange.
  assert (Hcount : TelnetApi.Hw.self_number_of_outlets self <> 0) by lia.
  unfold TelnetApi.Hw.send_outlet_command.
  index_accepted (telnet_valid_outlet_index self c Hcount).
  unfold TelnetApi.Hw.on_stream, bind, get_self, gets, on_network,
    TelnetApi.write, TelnetApi.drain, modify, ret; simpl.
  repeat (rewrite Hconn; simpl). destruct command; reflexivity.
Qed.

Lemma C7_telnet_command_line_witness :
  TelnetApi.Hw.send_outlet_command 5 TelnetApi.IMMEDIATE_REBOOT
    ({| TelnetApi.Hw.self_ip_address := example_ip;
        TelnetApi.Hw.self_number_of_outlets := 8;
        TelnetApi.Hw.self_connected := true |},
     telnet_connection ["ack"])
  = (Ok tt,
     ({| TelnetApi.Hw.self_ip_address := example_ip;
         TelnetApi.Hw.self_number_of_outlets := 8;
         TelnetApi.Hw.self_connected := true |},
      wrote (telnet_connection ["ack"]) ["oltctrl index 5 act reboot" ++ CRLF])).
Proof.
  apply (C7_telnet_command_line
           {| TelnetApi.Hw.self_ip_address := example_ip;
              TelnetApi.Hw.self_number_of_outlets := 8;
              TelnetApi.Hw.self_connected := true |}
           (telnet_connection ["ack"]) 5 TelnetApi.IMMEDIATE_REBOOT);
    [reflexivity | simpl; lia].
Defined.

(** *** Reads over SNMP *)

Lemma match_outlet_state {A} (v : Z) (a b : A) (c : A) :
  match v with 1 => a | 2 => b | _ => c end
  = if (v =? 1)%Z then a else if (v =? 2)%Z then b else c.
Proof. destruct v as [|[p|[p|p|]|]|p]; reflexivity. Qed.

Lemma decodes_outlet_state_match (v : Z) :
  decodes_outlet_state
    (match v with
     | 1 => Ok true
     | 2 => Ok false
     | _ => Raise (ValueError ("Received unexpected value for outlet state: "
                               ++ str_of_int v))
     end) v.
Proof.
  rewrite match_outlet_state. repeat split.
  - intros ->. reflexivity.
  - intros ->. reflexivity.
  - intros H1 H2.
    destruct (Z.eqb_spec v 1); [contradiction|].
    destruct (Z.eqb_spec v 2); [contradiction|].
    eexists; split; reflexivity.
Qed.

Lemma async_get_integer_data (ip oid : string) (net : AsyncApi.network) (v : Z) :
  wire_integer (AsyncApi.agent net (AsyncApi.sent net) (AsyncApi.GetCmd ip "public" oid))
  = Some v ->
  AsyncApi.get_integer_data ip oid net
  = (Ok v, async_after net (AsyncApi.GetCmd ip "public" oid)).
Proof.
  unfold wire_integer, AsyncApi.get_integer_data, AsyncApi.get_data, bind,
    AsyncApi.exchange, async_after.
  destruct (AsyncApi.agent net (AsyncApi.sent net) (AsyncApi.GetCmd ip "public" oid))
    as [ind [code text] idx binds]; simpl.
  destruct ind; [discriminate|].
  destruct (code =? 0)%Z; [|discriminate]. simpl.
  destruct binds as [|[o x] [|? ?]]; try discriminate.
  unfold lift. destruct (AsyncApi.convert_snmp_type_to_python_type x) as [[n|s]|e];
    try discriminate.
  intros [= ->]. reflexivity.
Qed.

Lemma async_module_get_outlet_state (ip : string) (outlet : Z)
    (net : AsyncApi.network) (v : Z) :
  wire_integer
    (AsyncApi.agent net (AsyncApi.sent net)
       (AsyncApi.GetCmd ip "public" (outlet_state_oid outlet))) = Some v ->
  AsyncApi.get_outlet_state ip outlet net
  = (match v with
     | 1 => Ok true
     | 2 => Ok false
     | _ => Raise (ValueError ("Received unexpected value for outlet state: "
                               ++ str_of_int v))
     end,
     async_after net (AsyncApi.GetCmd ip "public" (outlet_state_oid outlet))).
Proof.
  intros Hw. unfold AsyncApi.get_outlet_state, bind.
  fold (outlet_state_oid outlet).
  rewrite (async_get_integer_data _ _ _ _ Hw).
  destruct v as [|[q|[q|q|]|]|q]; reflexivity.
Qed.

Lemma async_get_outlet_state_in_range (self : AsyncApi.Hw.t) (net : AsyncApi.network)
    (outlet : Z) :
  (1 <= outlet <= AsyncApi.Hw.self_number_of_outlets self)%Z ->
  AsyncApi.Hw.get_outlet_state outlet (self, net)
  = on_network (AsyncApi.get_outlet_state (AsyncApi.Hw.self_ip_address self) outlet)
      (self, net).
Proof.
  intros Hrange.
  assert (Hcount : AsyncApi.Hw.self_number_of_outlets self <> 0) by lia.
  unfold AsyncApi.Hw.get_outlet_state.
  index_accepted (async_valid_outlet_index self net Hcount).
  reflexivity.
Qed.

Lemma pdu_client_get (self : Pdu.Hw.t) (net : Pdu.network) (cl : Pdu.client)
    (oid : string) :
  Pdu.Hw.self_client self = Some cl ->
  Pdu.Hw.client_get oid (self, net)
  = (Pdu.agent net (Pdu.sent net) (Pdu.Get cl oid),
     (self, pdu_after net (Pdu.Get cl oid))).
Proof.
  intros Hcl. unfold Pdu.Hw.client_get, bind, get_self, gets; simpl.
  rewrite Hcl. reflexivity.
Qed.

Lemma pdu_get_outlet_state_in_range (self : Pdu.Hw.t) (net : Pdu.network)
    (cl : Pdu.client) (outlet v : Z) :
  (1 <= outlet <= Pdu.Hw.self_number_of_outlets self)%Z ->
  Pdu.Hw.self_client self = Some cl ->
  Pdu.agent net (Pdu.sent net) (Pdu.Get cl (outlet_state_oid outlet)) = Ok v ->
  Pdu.Hw.get_outlet_state outlet (self, net)
  = (match v with
     | 1 => Ok true
     | 2 => Ok false
     | _ => Raise (ValueError ("Received unexpected value for outlet state: "
                               ++ str_of_int v))
     end,
     (self, pdu_after net (Pdu.Get cl (outlet_state_oid outlet)))).
Proof.
  intros Hrange Hcl Hv.
  assert (Hcount : Pdu.Hw.self_number_of_outlets self <> 0) by lia.
  unfold Pdu.Hw.get_outlet_state.
  index_accepted (pdu_valid_outlet_index self net Hcount).
  unfold bind at 1. fold (outlet_state_oid outlet).
  rewrite (pdu_client_get _ _ _ _ Hcl), Hv.
  destruct v as [|[q|[q|q|]|]|q]; reflexivity.
Qed.

(** C5.  On an outlet inside 1..count, both SNMP clients turn the wire
    integer 1 into [True] and 2 into [False], and raise the [ValueError]
    of the unexpected value on any other integer; one read request is
    sent. *)
Theorem C5_snmp_outlet_state_decode
    (a : AsyncApi.Hw.t) (an : AsyncApi.network)
    (p : Pdu.Hw.t) (pn : Pdu.network) (cl : Pdu.client) (outlet v : Z) :
  (1 <= outlet <= AsyncApi.Hw.self_number_of_outlets a)%Z ->
  wire_integer
    (AsyncApi.agent an (AsyncApi.sent an)
       (AsyncApi.GetCmd (AsyncApi.Hw.self_ip_address a) "public"
          (outlet_state_oid outlet))) = Some v ->
  (1 <= outlet <= Pdu.Hw.self_number_of_outlets p)%Z ->
  Pdu.Hw.self_client p = Some cl ->
  Pdu.agent pn (Pdu.sent pn) (Pdu.Get cl (outlet_state_oid outlet)) = Ok v ->
  (decodes_outlet_state (fst (AsyncApi.Hw.get_outlet_state outlet (a, an))) v
   /\ snd (AsyncApi.Hw.get_outlet_state outlet (a, an))
      = (a, async_after an (AsyncApi.GetCmd (AsyncApi.Hw.self_ip_address a) "public"
                              (outlet_state_oid outlet))))
  /\ (decodes_outlet_state (fst (Pdu.Hw.get_outlet_state outlet (p, pn))) v
      /\ snd (Pdu.Hw.get_outlet_state outlet (p, pn))
         = (p, pdu_after pn (Pdu.Get cl (outlet_state_oid outlet)))).
Proof.
  intros Hra Hwa Hrp Hcl Hwp. split.
  - rewrite async_get_outlet_state_in_range by exact Hra.
    unfold on_network. cbn [fst snd].
    rewrite (async_module_get_outlet_state _ _ _ _ Hwa). cbn [fst snd].
    split; [apply decodes_outlet_state_match|reflexivity].
  - rewrite (pdu_get_outlet_state_in_range _ _ _ _ _ Hrp Hcl Hwp). cbn [fst snd].
    split; [apply decodes_outlet_state_match|reflexivity].
Qed.

Lemma C5_snmp_outlet_state_decode_witness :
  (exists e,
     fst (AsyncApi.Hw.get_outlet_state 4 (async_hw_8, async_network_with 8 2 3)) = Raise e
     /\ is_UnexpectedValueError e = true)
  /\ (exists e,
        fst (Pdu.Hw.get_outlet_state 4 (pdu_hw_8, pdu_network_with 8 3)) = Raise e
        /\ is_UnexpectedValueError e = true).
Proof.
  destruct (C5_snmp_outlet_state_decode
              async_hw_8 (async_network_with 8 2 3)
              pdu_hw_8 (pdu_network_with 8 3) (pdu_client example_ip) 4 3)
    as [[(_ & _ & Ha) _] [(_ & _ & Hp) _]].
  - simpl; lia.
  - reflexivity.
  - simpl; lia.
  - reflexivity.
  - reflexivity.
  - split; [apply Ha|apply Hp]; lia.
Defined.

(** *** The load of a bank *)

(** C8.  For a bank inside 1..banks the pysnmp client returns the wire
    integer, made a float, divided by 10.0: the float for 37 gives the
    double 3.7.  The method of the puresnmp client, which checks no
    index, computes the same quotient. *)
Theorem C8_bank_load_tenths
    (a : AsyncApi.Hw.t) (an : AsyncApi.network)
    (p : Pdu.Hw.t) (pn : Pdu.network) (cl : Pdu.client) (bank v : Z) (f : float) :
  (1 <= bank <= AsyncApi.Hw.self_number_of_banks a)%Z ->
  wire_integer
    (AsyncApi.agent an (AsyncApi.sent an)
       (AsyncApi.GetCmd (AsyncApi.Hw.self_ip_address a) "public" (bank_load_oid bank)))
  = Some v ->
  Pdu.Hw.self_client p = Some cl ->
  Pdu.agent pn (Pdu.sent pn) (Pdu.Get cl (bank_load_oid bank)) = Ok v ->
  float_of_int v = Ok f ->
  AsyncApi.Hw.get_bank_load bank (a, an)
  = (Ok (PrimFloat.div f 10),
     (a, async_after an (AsyncApi.GetCmd (AsyncApi.Hw.self_ip_address a) "public"
                           (bank_load_oid bank))))
  /\ Pdu.Hw.get_bank_load bank (p, pn)
     = (Ok (PrimFloat.div f 10), (p, pdu_after pn (Pdu.Get cl (bank_load_oid bank))))
  /\ (v = 37 -> PrimFloat.div f 10 = 3.7%float).
Proof.
  intros Hrange Hwa Hcl Hwp Hf. repeat split.
  - unfold AsyncApi.Hw.get_bank_load, bind at 1, get_self, gets. cbn [fst snd].
    replace ((0 <? bank)%Z && (bank <=? AsyncApi.Hw.self_number_of_banks a)%Z)
      with true by (symmetry; apply andb_true_iff; lia).
    unfold on_network, AsyncApi.get_bank_load, bind. cbn [fst snd].
    fold (bank_load_oid bank).
    rewrite (async_get_integer_data _ _ _ _ Hwa).
    unfold lift. rewrite Hf. reflexivity.
  - unfold Pdu.Hw.get_bank_load, bind. fold (bank_load_oid bank).
    rewrite (pdu_client_get _ _ _ _ Hcl), Hwp.
    unfold lift. rewrite Hf. reflexivity.
  - intros ->. vm_compute in Hf. injection Hf as <-. reflexivity.
Qed.

Lemma C8_bank_load_tenths_witness :
  fst (AsyncApi.Hw.get_bank_load 2 (async_hw_8, async_network_with 8 2 37))
  = Ok 3.7%float.
Proof.
  destruct (C8_bank_load_tenths
              async_hw_8 (async_network_with 8 2 37)
              pdu_hw_8 (pdu_network_with 8 37) (pdu_client example_ip) 2 37 37%float)
    as (Ha & _ & Hv).
  - simpl; lia.
  - reflexivity.
  - reflexivity.
  - reflexivity.
  - reflexivity.
  - rewrite Ha. cbn [fst]. rewrite (Hv eq_refl). reflexivity.
Defined.

(** *** All the outlets at once *)

Ltac unfold_read :=
  unfold Pdu.Hw.get_outlet_state, Pdu.Hw.valid_outlet_index,
    Pdu.Hw.get_outlet_value_error, Pdu.Hw.number_of_outlets, Pdu.Hw.client_get,
    bind, get_self, gets, ret, raise, on_network, Pdu.exchange.

Ltac split_read h :=
  repeat match goal with
    | |- context [if ?b then _ else _] => destruct b; simpl
    | |- context [match Pdu.Hw.self_client h with _ => _ end] =>
        destruct (Pdu.Hw.self_client h); simpl
    | |- context [match Pdu.agent ?n ?s ?r with _ => _ end] =>
        destruct (Pdu.agent n s r) as [[|[?|[?|?|]|]|?]|?]; simpl
    end.

(** A read of the puresnmp client leaves the client as it is and keeps
    the agent of the network. *)
Lemma pdu_get_outlet_state_frame (h : Pdu.Hw.t) (net : Pdu.network) (outlet : Z) :
  exists net',
    snd (Pdu.Hw.get_outlet_state outlet (h, net)) = (h, net')
    /\ Pdu.agent net' = Pdu.agent net.
Proof.
  unfold_read. simpl. split_read h; eexists; split; reflexivity.
Qed.

(** At rest, the result of a read depends on the agent alone. *)
Lemma pdu_get_outlet_state_at_rest (h : Pdu.Hw.t) (net1 net2 : Pdu.network)
    (outlet : Z) :
  pdu_at_rest net1 ->
  Pdu.agent net2 = Pdu.agent net1 ->
  fst (Pdu.Hw.get_outlet_state outlet (h, net2))
  = fst (Pdu.Hw.get_outlet_state outlet (h, net1)).
Proof.
  intros Hrest Hagent.
  unfold_read. simpl.
  repeat match goal with
    | |- context [if ?b then _ else _] => destruct b; simpl
    | |- context [match Pdu.Hw.self_client h with _ => _ end] =>
        destruct (Pdu.Hw.self_client h); simpl
    end;
    try rewrite Hagent, (Hrest (Pdu.sent net2)), (Hrest (Pdu.sent net1));
    split_read h; reflexivity.
Qed.

Lemma pdu_for_each_reads (h : Pdu.Hw.t) (net0 : Pdu.network) (outlets : list Z) :
  pdu_at_rest net0 ->
  (forall x, In x outlets ->
             exists b, fst (Pdu.Hw.get_outlet_state x (h, net0)) = Ok b) ->
  forall net, Pdu.agent net = Pdu.agent net0 ->
    exists l net',
      for_each Pdu.Hw.get_outlet_state outlets (h, net) = (Ok l, (h, net'))
      /\ Pdu.agent net' = Pdu.agent net0
      /\ Forall2 (fun x b => fst (Pdu.Hw.get_outlet_state x (h, net0)) = Ok b)
           outlets l.
Proof.
  intros Hrest. induction outlets as [|x xs IH]; intros Hreads net Hagent.
  - exists [], net. repeat split; [assumption|constructor].
  - destruct (Hreads x (or_introl eq_refl)) as [b Hb].
    destruct (pdu_get_outlet_state_frame h net x) as (net1 & Hsnd & Hag1).
    pose proof (pdu_get_outlet_state_at_rest h net0 net x Hrest Hagent) as Hfst.
    rewrite Hb in Hfst.
    destruct (IH (fun y Hy => Hreads y (or_intror Hy)) net1) as (l & net' & Hl & Hag' & Hall).
    { rewrite Hag1. exact Hagent. }
    exists (b :: l), net'. split; [|split; [exact Hag'|constructor; assumption]].
    cbn [for_each]. unfold bind at 1.
    destruct (Pdu.Hw.get_outlet_state x (h, net)) as [r w1]. cbn [fst snd] in *.
    subst r w1. unfold bind at 1. rewrite Hl. reflexivity.
Qed.

Lemma Forall2_shifted_seq {B} (P : Z -> B -> Prop) (lo : Z) (m : nat) :
  forall (s : nat) (l : list B),
    Forall2 P (map (fun k => (lo + Z.of_nat k)%Z) (seq s m)) l ->
    length l = m
    /\ forall k, (k < m)%nat ->
                 exists b, nth_error l k = Some b /\ P (lo + Z.of_nat (s + k))%Z b.
Proof.
  induction m as [|m IH]; intros s l H.
  - inversion H; subst. split; [reflexivity|]. intros k Hk. lia.
  - cbn [seq map] in H. inversion H as [|x b xs l' Hx Hxs]; subst.
    destruct (IH (S s) l' Hxs) as [Hlen Hnth]. split; [simpl; lia|].
    intros [|k] Hk.
    + exists b. split; [reflexivity|]. replace (s + 0)%nat with s by lia. exact Hx.
    + destruct (Hnth k ltac:(lia)) as (b' & Hb' & HP). exists b'. split; [exact Hb'|].
      replace (s + S k)%nat with (S s + k)%nat by lia. exact HP.
Qed.

Lemma in_range_bounds (lo hi x : Z) : In x (range lo hi) -> (lo <= x < hi)%Z.
Proof.
  unfold range. intros H. apply in_map_iff in H as (k & <- & Hk).
  apply in_seq in Hk. lia.
Qed.

Lemma forward_hardware {A} (sim : M Pdu.Sim.t A) (hw : M (Pdu.Hw.t * Pdu.network) A)
    (h : Pdu.Hw.t) (net : Pdu.network) :
  fst (Pdu.forward sim hw (Pdu.Hardware h, net)) = fst (hw (h, net)).
Proof.
  unfold Pdu.forward. cbn [fst snd]. destruct (hw (h, net)) as [r [h' n']]. reflexivity.
Qed.



(** *** The query of the Telnet client and its retries *)

Lemma wrote_wrote (c : TelnetApi.connection) (l1 l2 : list string) :
  wrote (wrote c l1) l2 = wrote c (l1 ++ l2).
Proof. unfold wrote; simpl. rewrite <- app_assoc. reflexivity. Qed.

Lemma with_incoming_twice (c : TelnetApi.connection) (t1 t2 : list string) :
  with_incoming (with_incoming c t1) t2 = with_incoming c t2.
Proof. reflexivity. Qed.

Lemma wrote_with_incoming (c : TelnetApi.connection) (t l : list string) :
  wrote (with_incoming c t) l = with_incoming (wrote c l) t.
Proof. reflexivity. Qed.

Lemma poll_done (outlet_states : gmap Z bool) (incoming : list string)
    (c : TelnetApi.connection) :
  outlet_states <> ∅ ->
  TelnetApi.Hw.poll outlet_states incoming c = (Ok outlet_states, c).
Proof.
  intros Hne. destruct incoming; simpl;
    (destruct (decide (outlet_states = ∅)); [contradiction|reflexivity]).
Qed.

Lemma poll_step (response : string) (rest : list string) (c : TelnetApi.connection)
    (m : gmap Z bool) :
  TelnetApi.parse_response response = Ok m ->
  TelnetApi.Hw.poll ∅ (response :: rest) c
  = TelnetApi.Hw.poll m rest (with_incoming (wrote c [oltsta_show]) rest).
Proof.
  intros Hparse. simpl.
  destruct (decide ((∅ : gmap Z bool) = ∅)) as [_|Hne]; [|contradiction].
  rewrite Hparse. reflexivity.
Qed.

Lemma parse_response_no_match (response : string) :
  TelnetApi.findall TelnetApi.pattern response = [] ->
  TelnetApi.parse_response response = Ok ∅.
Proof. unfold TelnetApi.parse_response. intros ->. reflexivity. Qed.

(** Every page without a match costs one more query, and the first
    page with a match gives the result. *)
Lemma poll_retries (empties : list string) :
  forall (response : string) (rest : list string) (c : TelnetApi.connection)
         (m : gmap Z bool),
    Forall (fun page => TelnetApi.findall TelnetApi.pattern page = []) empties ->
    TelnetApi.parse_response response = Ok m ->
    m <> ∅ ->
    TelnetApi.Hw.poll ∅ (empties ++ response :: rest) c
    = (Ok m,
       with_incoming (wrote c (repeat oltsta_show (S (length empties)))) rest).
Proof.
  induction empties as [|page empties IH]; intros response rest c m Hemp Hparse Hne.
  - cbn [app length repeat]. rewrite (poll_step _ _ _ _ Hparse).
    apply poll_done. exact Hne.
  - inversion Hemp as [|? ? Hpage Hrest]; subst.
    cbn [app]. rewrite (poll_step _ _ _ _ (parse_response_no_match _ Hpage)).
    rewrite (IH response rest _ m Hrest Hparse Hne).
    rewrite wrote_with_incoming, with_incoming_twice, wrote_wrote. reflexivity.
Qed.

Lemma telnet_get_outlet_states_connected (self : TelnetApi.Hw.t)
    (c : TelnetApi.connection) :
  TelnetApi.Hw.self_connected self = true ->
  TelnetApi.Hw.get_outlet_states (self, c)
  = (fst (TelnetApi.Hw.poll ∅ (TelnetApi.incoming c) c),
     (self, snd (TelnetApi.Hw.poll ∅ (TelnetApi.incoming c) c))).
Proof.
  intros Hconn.
  unfold TelnetApi.Hw.get_outlet_states, TelnetApi.Hw.on_stream, bind, get_self, gets.
  cbn [fst snd]. rewrite Hconn. unfold on_network. cbn [fst snd].
  destruct (TelnetApi.Hw.poll ∅ (TelnetApi.incoming c) c). reflexivity.
Qed.

(** C4.  The query never returns the empty mapping.  When the first
    page read has no match and the second parses to a mapping that is
    not empty, the query is written twice, [oltsta show] each time, and
    the mapping of the second page is returned; no error is raised for
    the first page. *)
Theorem C4_telnet_query_retries (self : TelnetApi.Hw.t) (c : TelnetApi.connection)
    (first second : string) (rest : list string) (m : gmap Z bool) :
  TelnetApi.Hw.self_connected self = true ->
  TelnetApi.incoming c = first :: second :: rest ->
  TelnetApi.findall TelnetApi.pattern first = [] ->
  TelnetApi.parse_response second = Ok m ->
  m <> ∅ ->
  TelnetApi.Hw.get_outlet_states (self, c)
  = (Ok m, (self, with_incoming (wrote c [oltsta_show; oltsta_show]) rest))
  /\ (forall (w w' : TelnetApi.Hw.t * TelnetApi.connection) (m' : gmap Z bool),
        TelnetApi.Hw.get_outlet_states w = (Ok m', w') -> m' <> ∅).
Proof.
  intros Hconn Hin Hfirst Hsecond Hne. split.
  - rewrite (telnet_get_outlet_states_connected _ _ Hconn), Hin.
    assert (Hempties : Forall (fun page => TelnetApi.findall TelnetApi.pattern page = [])
                         [first])
      by (constructor; [exact Hfirst|constructor]).
    pose proof (poll_retries [first] second rest c m Hempties Hsecond Hne) as Hpoll.
    cbn [app length repeat] in Hpoll. rewrite Hpoll. reflexivity.
  - intros w w' m'. apply get_outlet_states_non_empty.
Qed.

(** *** Texts and character classes *)

Ltac class_arith :=
  unfold TelnetApi.is_word, TelnetApi.is_lower, TelnetApi.is_upper,
    TelnetApi.is_space, TelnetApi.is_digit in *;
  repeat match goal with
    | H : context [N.leb ?a ?b] |- _ => destruct (N.leb_spec a b); simpl in H
    | |- context [N.leb ?a ?b] => destruct (N.leb_spec a b); simpl
    | H : context [N.eqb ?a ?b] |- _ => destruct (N.eqb_spec a b); simpl in H
    | |- context [N.eqb ?a ?b] => destruct (N.eqb_spec a b); simpl
    end;
  try discriminate; try reflexivity; try lia.

Lemma space_not_digit (ch : ascii) :
  TelnetApi.is_space ch = true -> TelnetApi.is_digit ch = false.
Proof. intros H. class_arith. Qed.

Lemma space_not_word (ch : ascii) :
  TelnetApi.is_space ch = true -> TelnetApi.is_word ch = false.
Proof. intros H. class_arith. Qed.

Lemma word_not_space (ch : ascii) :
  TelnetApi.is_word ch = true -> TelnetApi.is_space ch = false.
Proof. intros H. class_arith. Qed.

Lemma digit_is_word (ch : ascii) :
  TelnetApi.is_digit ch = true -> TelnetApi.is_word ch = true.
Proof. intros H. class_arith. Qed.

Lemma digit_not_space (ch : ascii) :
  TelnetApi.is_digit ch = true -> TelnetApi.is_space ch = false.
Proof. intros H. class_arith. Qed.

Lemma length_append (a b : string) :
  String.length (a ++ b) = (String.length a + String.length b)%nat.
Proof. induction a as [|ch a IH]; simpl; [reflexivity|rewrite IH; reflexivity]. Qed.

Lemma substring_append (a b : string) :
  substring 0 (String.length (a ++ b) - String.length b) (a ++ b) = a.
Proof.
  rewrite length_append.
  replace (String.length a + String.length b - String.length b)%nat
    with (String.length a) by lia.
  induction a as [|ch a IH]; simpl.
  - destruct b; reflexivity.
  - rewrite IH. reflexivity.
Qed.

Lemma prefix_true (l s : string) :
  String.prefix l s = true -> exists t, s = l ++ t.
Proof.
  revert s. induction l as [|ch l IH]; intros s H.
  - exists s. reflexivity.
  - destruct s as [|ch' s]; simpl in H; [discriminate|].
    destruct (Ascii.ascii_dec ch ch') as [->|Hne]; [|discriminate].
    destruct (IH s H) as [t ->]. exists t. reflexivity.
Qed.

Lemma drop_append (l t : string) : TelnetApi.drop (String.length l) (l ++ t) = t.
Proof.
  induction l as [|ch l IH]; simpl; [destruct t; reflexivity|exact IH].
Qed.

Lemma all_chars_append (p : ascii -> bool) (a b : string) :
  all_chars p (a ++ b) = all_chars p a && all_chars p b.
Proof.
  induction a as [|ch a IH]; simpl; [reflexivity|].
  rewrite IH. destruct (p ch); reflexivity.
Qed.

Lemma all_chars_impl (p q : ascii -> bool) (s : string) :
  (forall ch, p ch = true -> q ch = true) ->
  all_chars p s = true -> all_chars q s = true.
Proof.
  intros Hpq. induction s as [|ch s IH]; simpl; [reflexivity|].
  intros H. apply andb_true_iff in H as [Hch Hs].
  rewrite (Hpq _ Hch), (IH Hs). reflexivity.
Qed.

Lemma first_is_append (p : ascii -> bool) (a b : string) :
  non_empty a = true -> first_is p (a ++ b) = first_is p a.
Proof. destruct a; [discriminate|reflexivity]. Qed.

Lemma first_is_all (p : ascii -> bool) (a : string) :
  non_empty a = true -> all_chars p a = true -> first_is p a = true.
Proof.
  destruct a as [|ch a]; [discriminate|]. simpl. intros _ H.
  apply andb_true_iff in H as [H _]. exact H.
Qed.

(** Two runs of a class, each followed by a text that does not start in
    the class, are the same run when the two texts are equal. *)
Lemma run_unique (p : ascii -> bool) (a : string) :
  forall (b x y : string),
    all_chars p a = true -> all_chars p b = true ->
    first_is p x = false -> first_is p y = false ->
    a ++ x = b ++ y ->
    a = b /\ x = y.
Proof.
  induction a as [|ch a IH]; intros b x y Ha Hb Hx Hy Heq.
  - destruct b as [|ch' b]; [split; [reflexivity|exact Heq]|].
    simpl in Heq. subst x. simpl in Hx, Hb.
    apply andb_true_iff in Hb as [Hch _]. congruence.
  - destruct b as [|ch' b].
    + simpl in Heq. subst y. simpl in Hy, Ha.
      apply andb_true_iff in Ha as [Hch _]. congruence.
    + simpl in Heq. injection Heq as -> Heq.
      simpl in Ha, Hb.
      apply andb_true_iff in Ha as [_ Ha]. apply andb_true_iff in Hb as [_ Hb].
      destruct (IH b x y Ha Hb Hx Hy Heq) as [-> ->]. split; reflexivity.
Qed.

(** *** The matcher *)

Lemma star_rests_in (p : ascii -> bool) (s t : string) :
  In t (TelnetApi.star_rests p s)
  <-> exists pre, all_chars p pre = true /\ s = pre ++ t.
Proof.
  revert t. induction s as [|ch s IH]; intros t; simpl.
  - split.
    + intros [<-|[]]. exists "". split; reflexivity.
    + intros (pre & _ & Heq). left. destruct pre; [exact Heq|discriminate].
  - destruct (p ch) eqn:Hch.
    + rewrite in_app_iff, IH. simpl. split.
      * intros [(pre & Hpre & ->)|[<-|[]]].
        -- exists (String ch pre). simpl. rewrite Hch, Hpre. split; reflexivity.
        -- exists "". split; reflexivity.
      * intros (pre & Hpre & Heq). destruct pre as [|ch' pre].
        -- right. left. exact Heq.
        -- simpl in Heq. injection Heq as <- ->. simpl in Hpre.
           apply andb_true_iff in Hpre as [_ Hpre]. left. exists pre. split; [exact Hpre|reflexivity].
    + simpl. split.
      * intros [<-|[]]. exists "". split; reflexivity.
      * intros (pre & Hpre & Heq). left. destruct pre as [|ch' pre]; [exact Heq|].
        simpl in Heq. injection Heq as <- ->. simpl in Hpre. rewrite Hch in Hpre. discriminate.
Qed.

Lemma plus_rests_in (p : ascii -> bool) (s t : string) :
  In t (TelnetApi.plus_rests p s)
  <-> exists pre, non_empty pre = true /\ all_chars p pre = true /\ s = pre ++ t.
Proof.
  destruct s as [|ch s]; simpl.
  - split; [intros []|]. intros (pre & Hne & _ & Heq).
    destruct pre; [discriminate Hne|discriminate Heq].
  - destruct (p ch) eqn:Hch.
    + rewrite star_rests_in. split.
      * intros (pre & Hpre & ->). exists (String ch pre). simpl.
        rewrite Hch, Hpre. repeat split.
      * intros (pre & Hne & Hpre & Heq). destruct pre as [|ch' pre]; [discriminate|].
        simpl in Heq. injection Heq as <- ->. simpl in Hpre.
        apply andb_true_iff in Hpre as [_ Hpre]. exists pre. split; [exact Hpre|reflexivity].
    + split; [intros []|]. intros (pre & Hne & Hpre & Heq).
      destruct pre as [|ch' pre]; [discriminate|].
      simpl in Heq. injection Heq as <- ->. simpl in Hpre. rewrite Hch in Hpre. discriminate.
Qed.

Lemma exec_seq_in (r1 r2 : TelnetApi.regex) (s t : string) (g : list string) :
  In (g, t) (TelnetApi.exec (TelnetApi.Seq r1 r2) s)
  <-> exists g1 s1 g2,
        In (g1, s1) (TelnetApi.exec r1 s)
        /\ In (g2, t) (TelnetApi.exec r2 s1)
        /\ g = (g1 ++ g2)%list.
Proof.
  cbn [TelnetApi.exec]. rewrite in_flat_map. split.
  - intros ([g1 s1] & H1 & H2). apply in_map_iff in H2 as ([g2 t2] & Heq & H2).
    cbn [fst snd] in *. injection Heq as <- <-. exists g1, s1, g2. auto.
  - intros (g1 & s1 & g2 & H1 & H2 & ->). exists (g1, s1). split; [exact H1|].
    apply in_map_iff. exists (g2, t). split; [reflexivity|exact H2].
Qed.

Lemma exec_plus_in (p : ascii -> bool) (s t : string) (g : list string) :
  In (g, t) (TelnetApi.exec (TelnetApi.PlusClass p) s)
  <-> g = []
      /\ exists pre, non_empty pre = true /\ all_chars p pre = true /\ s = pre ++ t.
Proof.
  cbn [TelnetApi.exec]. rewrite in_map_iff. split.
  - intros (t' & Heq & Hin). injection Heq as <- <-.
    split; [reflexivity|]. apply plus_rests_in. exact Hin.
  - intros (-> & Hpre). exists t. split; [reflexivity|]. apply plus_rests_in. exact Hpre.
Qed.

Lemma exec_lit_in (l s t : string) (g : list string) :
  In (g, t) (TelnetApi.exec (TelnetApi.Lit l) s) <-> g = [] /\ s = l ++ t.
Proof.
  cbn [TelnetApi.exec]. split.
  - destruct (String.prefix l s) eqn:Hp; [|intros []].
    intros [Heq|[]]. injection Heq as <- <-.
    destruct (prefix_true _ _ Hp) as [t' ->]. rewrite drop_append. split; reflexivity.
  - intros (-> & ->). rewrite prefix_append, drop_append. left. reflexivity.
Qed.

Lemma exec_alt_in (r1 r2 : TelnetApi.regex) (s t : string) (g : list string) :
  In (g, t) (TelnetApi.exec (TelnetApi.Alt r1 r2) s)
  <-> In (g, t) (TelnetApi.exec r1 s) \/ In (g, t) (TelnetApi.exec r2 s).
Proof. cbn [TelnetApi.exec]. apply in_app_iff. Qed.

Lemma exec_group_in (r : TelnetApi.regex) (s t : string) (g : list string) :
  In (g, t) (TelnetApi.exec (TelnetApi.Group r) s)
  <-> exists g',
        In (g', t) (TelnetApi.exec r s)
        /\ g = substring 0 (String.length s - String.length t) s :: g'.
Proof.
  cbn [TelnetApi.exec]. rewrite in_map_iff. split.
  - intros ([g' t'] & Heq & Hin). cbn [fst snd] in Heq. injection Heq as <- <-.
    exists g'. split; [exact Hin|reflexivity].
  - intros (g' & Hin & ->). exists (g', t). split; [reflexivity|exact Hin].
Qed.

(** What a match of the pattern is: digits, white space, word
    characters, digits, white space, then [On] or [Off], with the first
    digits and the last word as its two groups. *)
Lemma exec_pattern_in (s t : string) (g : list string) :
  In (g, t) (TelnetApi.exec TelnetApi.pattern s)
  <-> exists d w1 n1 n2 w2 lit,
        (non_empty d = true /\ all_chars TelnetApi.is_digit d = true)
        /\ (non_empty w1 = true /\ all_chars TelnetApi.is_space w1 = true)
        /\ (non_empty n1 = true /\ all_chars TelnetApi.is_word n1 = true)
        /\ (non_empty n2 = true /\ all_chars TelnetApi.is_digit n2 = true)
        /\ (non_empty w2 = true /\ all_chars TelnetApi.is_space w2 = true)
        /\ (lit = "On" \/ lit = "Off")
        /\ s = d ++ w1 ++ n1 ++ n2 ++ w2 ++ lit ++ t
        /\ g = [d; lit].
Proof.
  unfold TelnetApi.pattern. split.
  - intros H.
    apply exec_seq_in in H as (g1 & s1 & ga & H1 & H & ->).
    apply exec_group_in in H1 as (g1' & H1 & ->).
    apply exec_plus_in in H1 as (-> & d & Hd1 & Hd2 & ->).
    apply exec_seq_in in H as (g2 & s2 & gb & H2 & H & ->).
    apply exec_plus_in in H2 as (-> & w1 & Hw1 & Hw1' & ->).
    apply exec_seq_in in H as (g3 & s3 & gc & H3 & H & ->).
    apply exec_plus_in in H3 as (-> & n1 & Hn1 & Hn1' & ->).
    apply exec_seq_in in H as (g4 & s4 & gd & H4 & H & ->).
    apply exec_plus_in in H4 as (-> & n2 & Hn2 & Hn2' & ->).
    apply exec_seq_in in H as (g5 & s5 & ge & H5 & H & ->).
    apply exec_plus_in in H5 as (-> & w2 & Hw2 & Hw2' & ->).
    apply exec_group_in in H as (g6 & H & ->).
    apply exec_alt_in in H as [H|H]; apply exec_lit_in in H as (-> & ->).
    + exists d, w1, n1, n2, w2, "On". repeat split; try assumption; [left; reflexivity|].
      cbn [app]. rewrite !substring_append. reflexivity.
    + exists d, w1, n1, n2, w2, "Off". repeat split; try assumption; [right; reflexivity|].
      cbn [app]. rewrite !substring_append. reflexivity.
  - intros (d & w1 & n1 & n2 & w2 & lit & [Hd1 Hd2] & [Hw1 Hw1'] & [Hn1 Hn1']
            & [Hn2 Hn2'] & [Hw2 Hw2'] & Hlit & -> & ->).
    apply exec_seq_in. exists [d], (w1 ++ n1 ++ n2 ++ w2 ++ lit ++ t), [lit].
    split; [|split; [|reflexivity]].
    { apply exec_group_in. exists []. split.
      - apply exec_plus_in. split; [reflexivity|]. exists d. auto.
      - rewrite substring_append. reflexivity. }
    apply exec_seq_in. exists [], (n1 ++ n2 ++ w2 ++ lit ++ t), [lit].
    split; [apply exec_plus_in; split; [reflexivity|]; exists w1; auto|].
    split; [|reflexivity].
    apply exec_seq_in. exists [], (n2 ++ w2 ++ lit ++ t), [lit].
    split; [apply exec_plus_in; split; [reflexivity|]; exists n1; auto|].
    split; [|reflexivity].
    apply exec_seq_in. exists [], (w2 ++ lit ++ t), [lit].
    split; [apply exec_plus_in; split; [reflexivity|]; exists n2; auto|].
    split; [|reflexivity].
    apply exec_seq_in. exists [], (lit ++ t), [lit].
    split; [apply exec_plus_in; split; [reflexivity|]; exists w2; auto|].
    split; [|reflexivity].
    apply exec_group_in. exists []. split; [|rewrite substring_append; reflexivity].
    apply exec_alt_in. destruct Hlit as [->| ->]; [left|right];
      apply exec_lit_in; split; reflexivity.
Qed.

(** *** A row of the table under the pattern *)

Lemma first_is_other (p q : ascii -> bool) (a z : string) :
  (forall ch, q ch = true -> p ch = false) ->
  non_empty a = true -> all_chars q a = true ->
  first_is p (a ++ z) = false.
Proof.
  intros Hqp Hne Ha. destruct a as [|ch a]; [discriminate|]. simpl in *.
  apply andb_true_iff in Ha as [Hch _]. apply Hqp. exact Hch.
Qed.

Lemma row_ok_inv (r : row) :
  row_ok r = true ->
  (non_empty (row_index r) = true /\ all_chars TelnetApi.is_digit (row_index r) = true)
  /\ (non_empty (row_gap1 r) = true /\ all_chars TelnetApi.is_space (row_gap1 r) = true)
  /\ (non_empty (row_label r) = true /\ all_chars TelnetApi.is_word (row_label r) = true)
  /\ (non_empty (row_number r) = true
      /\ all_chars TelnetApi.is_digit (row_number r) = true)
  /\ (non_empty (row_gap2 r) = true /\ all_chars TelnetApi.is_space (row_gap2 r) = true).
Proof.
  unfold row_ok. intros H.
  repeat (apply andb_true_iff in H as [H ?]). repeat split; assumption.
Qed.

Lemma row_text_append (r : row) (rest : string) :
  row_text r ++ rest
  = row_index r ++ row_gap1 r ++ row_label r ++ row_number r ++ row_gap2 r
    ++ state_text (row_state r) ++ rest.
Proof. unfold row_text. rewrite !append_assoc. reflexivity. Qed.

Lemma first_not_space_lit (lit t : string) :
  lit = "On" \/ lit = "Off" -> first_is TelnetApi.is_space (lit ++ t) = false.
Proof. intros [->| ->]; reflexivity. Qed.

(** The row is matched, and in one way only. *)
Lemma exec_pattern_row_in (r : row) (rest : string) :
  row_ok r = true ->
  In ([row_index r; state_text (row_state r)], rest)
     (TelnetApi.exec TelnetApi.pattern (row_text r ++ rest)).
Proof.
  intros Hok. apply row_ok_inv in Hok as (Hi & Hg1 & Hl & Hn & Hg2).
  apply exec_pattern_in.
  exists (row_index r), (row_gap1 r), (row_label r), (row_number r), (row_gap2 r),
    (state_text (row_state r)).
  repeat split; try tauto.
  - destruct (row_state r); [left|right]; reflexivity.
  - apply row_text_append.
Qed.

Lemma exec_pattern_row (r : row) (rest t : string) (g : list string) :
  row_ok r = true ->
  In (g, t) (TelnetApi.exec TelnetApi.pattern (row_text r ++ rest)) ->
  g = [row_index r; state_text (row_state r)] /\ t = rest.
Proof.
  intros Hok Hin.
  apply row_ok_inv in Hok as ([Hi Hi'] & [Hg1 Hg1'] & [Hl Hl'] & [Hn Hn'] & [Hg2 Hg2']).
  apply exec_pattern_in in Hin
    as (d & w1 & n1 & n2 & w2 & lit & [Hd Hd'] & [Hw1 Hw1'] & [Hn1 Hn1'] & [Hn2 Hn2']
        & [Hw2 Hw2'] & Hlit & Heq & ->).
  rewrite row_text_append in Heq. symmetry in Heq.
  apply (run_unique TelnetApi.is_digit) in Heq as [-> Heq]; try assumption;
    try (apply (first_is_other _ TelnetApi.is_space);
         [exact space_not_digit|assumption|assumption]).
  apply (run_unique TelnetApi.is_space) in Heq as [-> Heq]; try assumption;
    try (apply (first_is_other _ TelnetApi.is_word);
         [exact word_not_space|assumption|assumption]).
  rewrite <- (append_assoc n1), <- (append_assoc (row_label r)) in Heq.
  apply (run_unique TelnetApi.is_word) in Heq as [Hname Heq];
    try (rewrite all_chars_append; apply andb_true_iff; split;
         [assumption|eapply all_chars_impl; [exact digit_is_word|assumption]]);
    try (apply (first_is_other _ TelnetApi.is_space);
         [exact space_not_word|assumption|assumption]).
  apply (run_unique TelnetApi.is_space) in Heq as [-> Heq]; try assumption;
    try (apply first_not_space_lit; assumption);
    try (apply first_not_space_lit; destruct (row_state r); [left|right]; reflexivity).
  destruct Hlit as [->| ->]; destruct (row_state r); cbn [state_text] in *;
    try discriminate; injection Heq as ->; split; reflexivity.
Qed.

(** *** [findall] on a page *)

Lemma findall_from_pass (r : TelnetApi.regex) (a rest : string) :
  TelnetApi.findall_from r (String.length a) (a ++ rest)
  = TelnetApi.findall_from r 0 rest.
Proof. induction a as [|ch a IH]; [reflexivity|exact IH]. Qed.

Lemma findall_from_no_match (r : TelnetApi.regex) (ch : ascii) (s : string) :
  TelnetApi.exec r (String ch s) = [] ->
  TelnetApi.findall_from r 0 (String ch s) = TelnetApi.findall_from r 0 s.
Proof. intros H. cbn [TelnetApi.findall_from]. rewrite H. reflexivity. Qed.

Lemma findall_from_match (r : TelnetApi.regex) (ch : ascii) (s rest : string)
    (g : list string) (others : list (list string * string)) :
  TelnetApi.exec r (String ch s) = (g, rest) :: others ->
  TelnetApi.findall_from r 0 (String ch s)
  = g :: TelnetApi.findall_from r
           (String.length (String ch s) - String.length rest - 1) s.
Proof. intros H. cbn [TelnetApi.findall_from]. rewrite H. reflexivity. Qed.

Lemma exec_pattern_not_digit (ch : ascii) (s : string) :
  TelnetApi.is_digit ch = false ->
  TelnetApi.exec TelnetApi.pattern (String ch s) = [].
Proof.
  intros H. unfold TelnetApi.pattern.
  cbn [TelnetApi.exec TelnetApi.plus_rests]. rewrite H. reflexivity.
Qed.

Lemma findall_junk (junk s : string) :
  no_digit junk = true ->
  TelnetApi.findall_from TelnetApi.pattern 0 (junk ++ s)
  = TelnetApi.findall_from TelnetApi.pattern 0 s.
Proof.
  unfold no_digit. induction junk as [|ch junk IH]; intros H; [reflexivity|].
  simpl in H. apply andb_true_iff in H as [Hch Hjunk].
  apply negb_true_iff in Hch.
  change (String ch junk ++ s) with (String ch (junk ++ s)).
  rewrite findall_from_no_match by (apply exec_pattern_not_digit; exact Hch).
  apply IH. exact Hjunk.
Qed.

Lemma findall_row (r : row) (rest : string) :
  row_ok r = true ->
  TelnetApi.findall_from TelnetApi.pattern 0 (row_text r ++ rest)
  = [row_index r; state_text (row_state r)]
      :: TelnetApi.findall_from TelnetApi.pattern 0 rest.
Proof.
  intros Hok.
  pose proof (exec_pattern_row_in r rest Hok) as Hin.
  pose proof (exec_pattern_row r rest) as Honly.
  pose proof (row_ok_inv r Hok) as ([Hi _] & _).
  destruct (row_text r) as [|ch tl] eqn:Htext.
  { unfold row_text in Htext. destruct (row_index r); discriminate. }
  change (String ch tl ++ rest) with (String ch (tl ++ rest)) in *.
  destruct (TelnetApi.exec TelnetApi.pattern (String ch (tl ++ rest)))
    as [|[g t] others] eqn:Hexec; [destruct Hin|].
  destruct (Honly t g Hok (or_introl eq_refl)) as [-> ->].
  rewrite (findall_from_match _ _ _ _ _ _ Hexec).
  cbn [String.length]. rewrite length_append.
  replace (S (String.length tl + String.length rest) - String.length rest - 1)%nat
    with (String.length tl) by lia.
  rewrite findall_from_pass. reflexivity.
Qed.

Lemma findall_page (rows : list (row * string)) :
  page_ok rows ->
  TelnetApi.findall_from TelnetApi.pattern 0 (page_text rows)
  = map (fun ra => [row_index (fst ra); state_text (row_state (fst ra))]) rows.
Proof.
  induction 1 as [|[r after] rows [Hrow Hafter] _ IH]; [reflexivity|].
  cbn [page_text map fst snd] in *.
  rewrite (findall_row _ _ Hrow), (findall_junk _ _ Hafter), IH. reflexivity.
Qed.

(** *** The groups of a match as an entry of the mapping *)

Lemma rstrip_no_space (s : string) :
  all_chars (fun ch => negb (TelnetApi.is_space ch)) s = true ->
  TelnetApi.rstrip s = s.
Proof.
  induction s as [|ch s IH]; [reflexivity|]. simpl. intros H.
  apply andb_true_iff in H as [Hch Hs]. apply negb_true_iff in Hch.
  rewrite (IH Hs). destruct s; [rewrite Hch|]; reflexivity.
Qed.

Lemma int_digits_all (s : string) :
  forall acc, all_chars TelnetApi.is_digit s = true ->
              TelnetApi.int_digits acc true s = Some (decimal_value acc s).
Proof.
  induction s as [|ch s IH]; intros acc H; [reflexivity|].
  simpl in H. apply andb_true_iff in H as [Hch Hs].
  cbn [TelnetApi.int_digits decimal_value]. rewrite Hch. apply IH. exact Hs.
Qed.

Lemma digit_cases (ch : ascii) :
  TelnetApi.is_digit ch = true ->
  In ch ["0"; "1"; "2"; "3"; "4"; "5"; "6"; "7"; "8"; "9"]%char.
Proof.
  destruct ch as [[] [] [] [] [] [] [] []]; intros H;
    try (vm_compute in H; discriminate H); cbn [In]; tauto.
Qed.

Lemma int_of_str_digits (s : string) :
  non_empty s = true -> all_chars TelnetApi.is_digit s = true ->
  TelnetApi.int_of_str s = Ok (decimal_value 0 s).
Proof.
  intros Hne Hall. unfold TelnetApi.int_of_str, TelnetApi.strip.
  destruct s as [|ch s]; [discriminate|].
  pose proof Hall as Hall'. simpl in Hall'. apply andb_true_iff in Hall' as [Hch Hs].
  cbn [TelnetApi.lstrip]. rewrite (digit_not_space _ Hch).
  rewrite rstrip_no_space
    by (eapply all_chars_impl; [|exact Hall];
        intros c Hc; rewrite (digit_not_space _ Hc); reflexivity).
  assert (Hbody : TelnetApi.int_digits 0 false (String ch s)
                  = Some (decimal_value 0 (String ch s))).
  { cbn [TelnetApi.int_digits decimal_value]. rewrite Hch.
    apply int_digits_all. exact Hs. }
  apply digit_cases in Hch. cbn [In] in Hch.
  destruct Hch as [<-|[<-|[<-|[<-|[<-|[<-|[<-|[<-|[<-|[<-|[]]]]]]]]]]];
    rewrite Hbody; reflexivity.
Qed.

Lemma convert_state_text (b : bool) :
  TelnetApi.convert_telnet_string_to_bool (state_text b) = Ok b.
Proof. destruct b; reflexivity. Qed.

Lemma states_of_matches_rows (rows : list (row * string)) :
  page_ok rows ->
  forall acc,
    TelnetApi.states_of_matches acc
      (map (fun ra => [row_index (fst ra); state_text (row_state (fst ra))]) rows)
    = Ok (fold_left
            (fun acc ra => <[fst (row_entry (fst ra)) := snd (row_entry (fst ra))]> acc)
            rows acc).
Proof.
  induction 1 as [|[r after] rows [Hrow _] _ IH]; intros acc; [reflexivity|].
  cbn [fst snd] in Hrow. apply row_ok_inv in Hrow as ([Hi Hi'] & _).
  cbn [map fold_left fst snd TelnetApi.states_of_matches].
  rewrite (int_of_str_digits _ Hi Hi'), convert_state_text. apply IH.
Qed.

Lemma fold_insert_lookup (entries : list (Z * bool)) :
  NoDup (map fst entries) ->
  forall (k : Z) (b : bool),
    fold_left (fun (acc : gmap Z bool) e => <[fst e := snd e]> acc) entries ∅ !! k
    = Some b
    <-> In (k, b) entries.
Proof.
  induction entries as [|[k0 b0] entries IH] using rev_ind; intros Hnd k b.
  - cbn [fold_left In]. rewrite lookup_empty. split; [discriminate|intros []].
  - rewrite map_app in Hnd. apply NoDup_app in Hnd as (Hnd & Hfresh & _).
    rewrite fold_left_app, in_app_iff. cbn [fold_left fst snd In].
    destruct (decide (k0 = k)) as [->|Hne].
    + rewrite lookup_insert_eq. split.
      * intros [= ->]. right. left. reflexivity.
      * intros [Hin|[[= ->]|[]]]; [|reflexivity].
        exfalso. apply (Hfresh k).
        -- apply list_elem_of_In, in_map_iff. exists (k, b). split; [reflexivity|exact Hin].
        -- cbn [map fst]. apply list_elem_of_In. left. reflexivity.
    + rewrite lookup_insert_ne by exact Hne. rewrite (IH Hnd). split.
      * intros Hin. left. exact Hin.
      * intros [Hin|[[= -> _]|[]]]; [exact Hin|contradiction].
Qed.

Lemma states_of_rows_entries (rows : list (row * string)) :
  states_of_rows rows
  = fold_left (fun (acc : gmap Z bool) e => <[fst e := snd e]> acc)
      (map (fun ra => row_entry (fst ra)) rows) ∅.
Proof.
  unfold states_of_rows. generalize (∅ : gmap Z bool).
  induction rows as [|ra rows IH]; intros acc; [reflexivity|].
  cbn [fold_left map]. apply IH.
Qed.




Lemma C4_telnet_query_retries_witness :
  TelnetApi.Hw.get_outlet_states
    (telnet_hw_8, telnet_connection [garbled_page; example_page])
  = (Ok (<[2 := false]> (<[1 := true]> ∅)),
     (telnet_hw_8,
      with_incoming
        (wrote (telnet_connection [garbled_page; example_page])
               [oltsta_show; oltsta_show])
        [])).
Proof.
  apply (C4_telnet_query_retries telnet_hw_8
           (telnet_connection [garbled_page; example_page])
           garbled_page example_page [] (<[2 := false]> (<[1 := true]> ∅))).
  - reflexivity.
  - reflexivity.
  - vm_compute. reflexivity.
  - vm_compute. reflexivity.
  - apply insert_non_empty.
Defined.

(** *** The counts that [initialize] stores *)

Lemma async_initialize_counts (ip : string) (net : AsyncApi.network) (banks outlets : Z) :
  wire_integer
    (AsyncApi.agent net (AsyncApi.sent net) (AsyncApi.GetCmd ip "public" bank_count_oid))
  = Some banks ->
  wire_integer
    (AsyncApi.agent net
       (AsyncApi.sent net ++ [AsyncApi.GetCmd ip "public" bank_count_oid])%list
       (AsyncApi.GetCmd ip "public" outlet_count_oid))
  = Some outlets ->
  AsyncApi.Hw.initialize (AsyncApi.Hw.init ip, net)
  = (Ok tt,
     ({| AsyncApi.Hw.self_ip_address := ip;
         AsyncApi.Hw.self_number_of_banks := banks;
         AsyncApi.Hw.self_number_of_outlets := outlets |},
      async_after (async_after net (AsyncApi.GetCmd ip "public" bank_count_oid))
        (AsyncApi.GetCmd ip "public" outlet_count_oid))).
Proof.
  intros Hbanks Houtlets.
  unfold AsyncApi.Hw.initialize. unfold bind at 1, get_self at 1, gets.
  unfold bind at 1, on_network at 1. cbn [fst snd AsyncApi.Hw.init AsyncApi.Hw.self_ip_address].
  unfold AsyncApi.get_number_of_banks. fold bank_count_oid.
  rewrite (async_get_integer_data _ _ _ _ Hbanks).
  unfold bind at 1, set_self at 1, modify. unfold bind at 1, get_self, gets.
  unfold bind at 1, on_network. cbn [fst snd].
  unfold AsyncApi.Hw.set_number_of_banks at 1.
  cbn [AsyncApi.Hw.self_ip_address].
  unfold AsyncApi.get_number_of_outlets. fold outlet_count_oid.
  change (AsyncApi.Hw.self_ip_address (AsyncApi.Hw.init ip)) with ip.
  rewrite (async_get_integer_data ip outlet_count_oid
             (async_after net (AsyncApi.GetCmd ip "public" bank_count_oid)) outlets)
    by exact Houtlets.
  reflexivity.
Qed.

Lemma telnet_initialize_counts (ip : string) (c : TelnetApi.connection)
    (name_prompt password_prompt ready page : string) (rest : list string)
    (m : gmap Z bool) :
  TelnetApi.host_up c = true ->
  TelnetApi.incoming c = name_prompt :: password_prompt :: ready :: page :: rest ->
  TelnetApi.parse_response page = Ok m ->
  m <> ∅ ->
  TelnetApi.Hw.initialize (TelnetApi.Hw.init ip, c)
  = (Ok tt,
     ({| TelnetApi.Hw.self_ip_address := ip;
         TelnetApi.Hw.self_number_of_outlets := Z.of_nat (size m);
         TelnetApi.Hw.self_connected := true |},
      with_incoming
        (wrote c ["test-username" ++ CRLF; "test-password" ++ CRLF; oltsta_show])
        rest)).
Proof.
  intros Hup Hin Hparse Hne.
  destruct c as [up written incoming closed]. cbn in Hup, Hin. subst up incoming.
  unfold TelnetApi.Hw.initialize, TelnetApi.Hw.open_connection,
    TelnetApi.Hw.get_outlet_states, TelnetApi.Hw.on_stream,
    TelnetApi.readuntil, TelnetApi.write, TelnetApi.drain,
    bind, gets, get_self, set_self, modify, on_network, ret.
  cbn -[TelnetApi.Hw.poll TelnetApi.parse_response String.append CRLF].
  rewrite (poll_step page rest _ m Hparse), (poll_done m rest _ Hne).
  unfold with_incoming, wrote. cbn. rewrite <- !app_assoc. reflexivity.
Qed.

(** *** The parser raises on no page *)

Lemma exec_pattern_shape (s t : string) (g : list string) :
  In (g, t) (TelnetApi.exec TelnetApi.pattern s) -> match_shape g.
Proof.
  intros H. apply exec_pattern_in in H
    as (d & w1 & n1 & n2 & w2 & lit & [Hd Hd'] & _ & _ & _ & _ & Hlit & _ & ->).
  exists d, lit. auto.
Qed.

Lemma findall_from_shape (s : string) :
  forall skip, Forall match_shape (TelnetApi.findall_from TelnetApi.pattern skip s).
Proof.
  induction s as [|ch s IH]; intros [|skip]; cbn [TelnetApi.findall_from].
  - destruct (TelnetApi.exec TelnetApi.pattern "") as [|[g t] others] eqn:He;
      [constructor|].
    constructor; [|constructor].
    apply (exec_pattern_shape "" t). rewrite He. left. reflexivity.
  - constructor.
  - destruct (TelnetApi.exec TelnetApi.pattern (String ch s)) as [|[g t] others] eqn:He.
    + apply IH.
    + constructor; [|apply IH].
      apply (exec_pattern_shape (String ch s) t). rewrite He. left. reflexivity.
  - apply IH.
Qed.

Lemma states_of_matches_total (matches : list (list string)) :
  Forall match_shape matches ->
  forall acc, exists m, TelnetApi.states_of_matches acc matches = Ok m.
Proof.
  induction 1 as [|g matches (d & lit & -> & Hd & Hd' & Hlit) _ IH]; intros acc.
  - exists acc. reflexivity.
  - cbn [TelnetApi.states_of_matches]. rewrite (int_of_str_digits _ Hd Hd').
    destruct Hlit as [->| ->].
    + change (TelnetApi.convert_telnet_string_to_bool "On") with (@Ok bool true).
      apply IH.
    + change (TelnetApi.convert_telnet_string_to_bool "Off") with (@Ok bool false).
      apply IH.
Qed.

(** Whatever the page, the parser returns a mapping: the error of
    [convert_telnet_string_to_bool] is out of reach of the pattern. *)
Lemma parse_response_total (response : string) :
  exists m, TelnetApi.parse_response response = Ok m.
Proof.
  unfold TelnetApi.parse_response, TelnetApi.findall.
  apply states_of_matches_total, findall_from_shape.
Qed.

Lemma poll_outcome (incoming : list string) :
  forall (outlet_states : gmap Z bool) (c : TelnetApi.connection),
    (exists m, fst (TelnetApi.Hw.poll outlet_states incoming c) = Ok m /\ m <> ∅)
    \/ fst (TelnetApi.Hw.poll outlet_states incoming c) = Raise (IncompleteReadError "").
Proof.
  induction incoming as [|response rest IH]; intros outlet_states c;
    cbn [TelnetApi.Hw.poll]; destruct (decide (outlet_states = ∅)) as [He|Hne].
  - right. reflexivity.
  - left. exists outlet_states. split; [reflexivity|exact Hne].
  - cbn [TelnetApi.write modify]. destruct (parse_response_total response) as [m ->].
    apply IH.
  - left. exists outlet_states. split; [reflexivity|exact Hne].
Qed.

(** *** The simulated PDU behind the facade *)

Lemma py_getitem_lookup {A} (l : list A) (k : nat) (x : A) :
  l !! k = Some x -> Pdu.py_getitem l (Z.of_nat k) = Ok x.
Proof.
  intros H. unfold Pdu.py_getitem.
  assert (Hk : (Z.of_nat k <? 0)%Z = false) by (apply Z.ltb_ge; lia).
  rewrite Hk. cbv zeta. rewrite Hk, Nat2Z.id, H. reflexivity.
Qed.

Lemma sim_initialize_initialized (s : Pdu.Sim.t) :
  sim_initialized (snd (Pdu.Sim.initialize s)).
Proof. split; [reflexivity|discriminate]. Qed.

Lemma sim_send_outlet_command_initialized (s : Pdu.Sim.t) (outlet : Z)
    (command : Pdu.OutletCommand) :
  sim_initialized s ->
  sim_initialized (snd (Pdu.Sim.send_outlet_command outlet command s)).
Proof.
  intros [Hlen Hne].
  assert (Hassign : forall b, sim_initialized (snd (Pdu.Sim.assign_outlet_state outlet b s))).
  { intros b. unfold Pdu.Sim.assign_outlet_state, bind, gets, lift, modify, Pdu.py_setitem.
    cbn [id fst snd]. cbv zeta.
    set (j := if (outlet - 1 <? 0)%Z
              then (outlet - 1 + Z.of_nat (length (Pdu.Sim.self_outlet_states s)))%Z
              else (outlet - 1)%Z).
    destruct (j <? 0)%Z; [split; assumption|].
    destruct (j <? Z.of_nat (length (Pdu.Sim.self_outlet_states s)))%Z;
      [|split; assumption].
    split; cbn [snd Pdu.Sim.self_number_of_outlets Pdu.Sim.self_outlet_states];
      [rewrite length_insert; exact Hlen|exact Hne]. }
  destruct command; apply Hassign.
Qed.

Lemma sim_all_outlet_states (s : Pdu.Sim.t) (n : Pdu.network) :
  sim_initialized s ->
  exists l,
    fst (Pdu.get_all_outlet_states (Pdu.Simulated s, n)) = Ok l
    /\ fst (Pdu.number_of_outlets (Pdu.Simulated s, n)) = Ok (Z.of_nat (length l))
    /\ forall (k : nat) (b : bool),
         l !! k = Some b ->
         fst (Pdu.get_outlet_state (Z.of_nat k + 1) (Pdu.Simulated s, n)) = Ok b.
Proof.
  intros [Hlen Hne]. exists (Pdu.Sim.self_outlet_states s). split; [reflexivity|].
  split.
  - unfold Pdu.number_of_outlets, Pdu.forward, Pdu.Sim.number_of_outlets, bind, gets.
    cbn [fst snd id].
    destruct (Z.eqb_spec (Pdu.Sim.self_number_of_outlets s) 0); [contradiction|].
    cbn [fst ret]. rewrite Hlen. reflexivity.
  - intros k b Hk.
    unfold Pdu.get_outlet_state, Pdu.forward, Pdu.Sim.get_outlet_state, bind, gets, lift.
    cbn [fst snd id].
    replace (Z.of_nat k + 1 - 1)%Z with (Z.of_nat k) by lia.
    rewrite (py_getitem_lookup _ _ _ Hk). reflexivity.
Qed.

(** ** Further properties of the pysnmp client *)

Lemma async_get_data_transport_error (ip oid : string) (net : AsyncApi.network)
    (text : string) :
  transport_error
    (AsyncApi.agent net (AsyncApi.sent net) (AsyncApi.GetCmd ip "public" oid))
  = Some text ->
  AsyncApi.get_data ip oid net
  = (Raise (RuntimeError text), async_after net (AsyncApi.GetCmd ip "public" oid)).
Proof.
  unfold transport_error, AsyncApi.get_data, bind, AsyncApi.exchange, async_after.
  destruct (AsyncApi.agent net (AsyncApi.sent net) (AsyncApi.GetCmd ip "public" oid))
    as [ind [code txt] idx binds]; simpl.
  destruct ind as [t|]; [intros [= ->]; reflexivity|].
  destruct (code =? 0)%Z; [discriminate|]. intros [= ->]. reflexivity.
Qed.

Lemma async_get_data_value (ip oid : string) (net : AsyncApi.network)
    (o : string) (v : AsyncApi.snmp_value) :
  transport_error
    (AsyncApi.agent net (AsyncApi.sent net) (AsyncApi.GetCmd ip "public" oid)) = None ->
  AsyncApi.variable_bindings
    (AsyncApi.agent net (AsyncApi.sent net) (AsyncApi.GetCmd ip "public" oid))
  = [(o, v)] ->
  AsyncApi.get_data ip oid net
  = (AsyncApi.convert_snmp_type_to_python_type v,
     async_after net (AsyncApi.GetCmd ip "public" oid)).
Proof.
  unfold transport_error, AsyncApi.get_data, bind, AsyncApi.exchange, async_after.
  destruct (AsyncApi.agent net (AsyncApi.sent net) (AsyncApi.GetCmd ip "public" oid))
    as [ind [code txt] idx binds]; simpl.
  destruct ind as [t|]; [discriminate|].
  destruct (code =? 0)%Z; [|discriminate]. intros _ ->. reflexivity.
Qed.

Lemma async_get_integer_data_raises (ip oid : string) (net net' : AsyncApi.network)
    (e : exn) :
  AsyncApi.get_data ip oid net = (Raise e, net') ->
  AsyncApi.get_integer_data ip oid net = (Raise e, net').
Proof. intros H. unfold AsyncApi.get_integer_data, bind. rewrite H. reflexivity. Qed.

Lemma async_module_get_outlet_state_raises (ip : string) (outlet : Z)
    (net net' : AsyncApi.network) (e : exn) :
  AsyncApi.get_integer_data ip (outlet_state_oid outlet) net = (Raise e, net') ->
  AsyncApi.get_outlet_state ip outlet net = (Raise e, net').
Proof.
  intros H. unfold AsyncApi.get_outlet_state, bind. fold (outlet_state_oid outlet).
  rewrite H. reflexivity.
Qed.

Lemma async_module_get_bank_load_raises (ip : string) (bank : Z)
    (net net' : AsyncApi.network) (e : exn) :
  AsyncApi.get_integer_data ip (bank_load_oid bank) net = (Raise e, net') ->
  AsyncApi.get_bank_load ip bank net = (Raise e, net').
Proof.
  intros H. unfold AsyncApi.get_bank_load, bind. fold (bank_load_oid bank).
  rewrite H. reflexivity.
Qed.

Lemma async_get_bank_load_in_range (self : AsyncApi.Hw.t) (net : AsyncApi.network)
    (bank : Z) :
  (1 <= bank <= AsyncApi.Hw.self_number_of_banks self)%Z ->
  AsyncApi.Hw.get_bank_load bank (self, net)
  = on_network (AsyncApi.get_bank_load (AsyncApi.Hw.self_ip_address self) bank)
      (self, net).
Proof.
  intros Hrange. unfold AsyncApi.Hw.get_bank_load, bind at 1, get_self, gets.
  cbn [fst snd].
  replace ((0 <? bank)%Z && (bank <=? AsyncApi.Hw.self_number_of_banks self)%Z)
    with true by (symmetry; apply andb_true_iff; lia).
  reflexivity.
Qed.

Lemma async_send_outlet_command_in_range (self : AsyncApi.Hw.t)
    (net : AsyncApi.network) (outlet : Z) (command : AsyncApi.OutletCommand) :
  (1 <= outlet <= AsyncApi.Hw.self_number_of_outlets self)%Z ->
  AsyncApi.Hw.send_outlet_command outlet command (self, net)
  = on_network
      (AsyncApi.send_outlet_command (AsyncApi.Hw.self_ip_address self) outlet command)
      (self, net).
Proof.
  intros Hrange.
  assert (Hcount : AsyncApi.Hw.self_number_of_outlets self <> 0) by lia.
  unfold AsyncApi.Hw.send_outlet_command.
  index_accepted (async_valid_outlet_index self net Hcount).
  reflexivity.
Qed.

Lemma on_network_result {S N A} (m : M N A) (s : S) (n n' : N) (r : result A) :
  m n = (r, n') -> on_network m (s, n) = (r, (s, n')).
Proof. intros H. unfold on_network. cbn [fst snd]. rewrite H. reflexivity. Qed.

(** X1.  On an outlet inside 1..count, a response without error whose
    value is an octet string makes the read of the state raise the
    [ValueError] that shows the text received, and a value of any other
    class makes it raise the [TypeError] that shows the class; one
    request has been sent. *)
Theorem async_outlet_state_rejects_other_types
    (self : AsyncApi.Hw.t) (net : AsyncApi.network) (outlet : Z)
    (o : string) (v : AsyncApi.snmp_value) :
  (1 <= outlet <= AsyncApi.Hw.self_number_of_outlets self)%Z ->
  transport_error
    (AsyncApi.agent net (AsyncApi.sent net)
       (AsyncApi.GetCmd (AsyncApi.Hw.self_ip_address self) "public"
          (outlet_state_oid outlet))) = None ->
  AsyncApi.variable_bindings
    (AsyncApi.agent net (AsyncApi.sent net)
       (AsyncApi.GetCmd (AsyncApi.Hw.self_ip_address self) "public"
          (outlet_state_oid outlet))) = [(o, v)] ->
  (forall s, v = AsyncApi.OctetString s ->
     AsyncApi.Hw.get_outlet_state outlet (self, net)
     = (Raise (ValueError ("Expected an integer response and received `" ++ s
                           ++ "` instead")),
        (self, async_after net
                 (AsyncApi.GetCmd (AsyncApi.Hw.self_ip_address self) "public"
                    (outlet_state_oid outlet)))))
  /\ (forall ty, v = AsyncApi.OtherValue ty ->
        AsyncApi.Hw.get_outlet_state outlet (self, net)
        = (Raise (TypeError
                    ("Only SNMP types of type integer and string are supported. "
                     ++ "Received type of " ++ ty)),
           (self, async_after net
                    (AsyncApi.GetCmd (AsyncApi.Hw.self_ip_address self) "public"
                       (outlet_state_oid outlet))))).
Proof.
  intros Hrange Hok Hbind.
  pose proof (async_get_data_value _ _ _ _ _ Hok Hbind) as Hdata.
  split; intros x ->; rewrite (async_get_outlet_state_in_range _ _ _ Hrange);
    apply on_network_result, async_module_get_outlet_state_raises.
  - unfold AsyncApi.get_integer_data, bind. rewrite Hdata. reflexivity.
  - unfold AsyncApi.get_integer_data, bind. rewrite Hdata. reflexivity.
Qed.

Lemma async_outlet_state_rejects_other_types_witness :
  fst (AsyncApi.Hw.get_outlet_state 3
         (async_hw_8, async_network_replying (value_response (AsyncApi.OctetString "on"))))
  = Raise (ValueError "Expected an integer response and received `on` instead")
  /\ fst (AsyncApi.Hw.get_outlet_state 3
            (async_hw_8,
             async_network_replying (value_response (AsyncApi.OtherValue "<class 'float'>"))))
     = Raise (TypeError
                "Only SNMP types of type integer and string are supported. Received type of <class 'float'>").
Proof.
  split.
  - destruct (async_outlet_state_rejects_other_types async_hw_8
                (async_network_replying (value_response (AsyncApi.OctetString "on")))
                3 "" (AsyncApi.OctetString "on")) as [H _];
      [simpl; lia|reflexivity|reflexivity|].
    rewrite (H "on" eq_refl). reflexivity.
  - destruct (async_outlet_state_rejects_other_types async_hw_8
                (async_network_replying
                   (value_response (AsyncApi.OtherValue "<class 'float'>")))
                3 "" (AsyncApi.OtherValue "<class 'float'>")) as [_ H];
      [simpl; lia|reflexivity|reflexivity|].
    rewrite (H "<class 'float'>" eq_refl). reflexivity.
Defined.

(** X2.  When the response to a read has an error indication, or else
    an error status that is not 0, the reads of the pysnmp client raise
    [RuntimeError] with the text of the indication, or else of the
    status, whatever the response carries besides; the request has been
    sent once and is not repeated. *)
Theorem async_reads_report_transport_errors
    (self : AsyncApi.Hw.t) (net : AsyncApi.network) (outlet bank : Z)
    (outlet_text bank_text : string) :
  (1 <= outlet <= AsyncApi.Hw.self_number_of_outlets self)%Z ->
  (1 <= bank <= AsyncApi.Hw.self_number_of_banks self)%Z ->
  transport_error
    (AsyncApi.agent net (AsyncApi.sent net)
       (AsyncApi.GetCmd (AsyncApi.Hw.self_ip_address self) "public"
          (outlet_state_oid outlet))) = Some outlet_text ->
  transport_error
    (AsyncApi.agent net (AsyncApi.sent net)
       (AsyncApi.GetCmd (AsyncApi.Hw.self_ip_address self) "public"
          (bank_load_oid bank))) = Some bank_text ->
  AsyncApi.Hw.get_outlet_state outlet (self, net)
  = (Raise (RuntimeError outlet_text),
     (self, async_after net
              (AsyncApi.GetCmd (AsyncApi.Hw.self_ip_address self) "public"
                 (outlet_state_oid outlet))))
  /\ AsyncApi.Hw.get_bank_load bank (self, net)
     = (Raise (RuntimeError bank_text),
        (self, async_after net
                 (AsyncApi.GetCmd (AsyncApi.Hw.self_ip_address self) "public"
                    (bank_load_oid bank)))).
Proof.
  intros Houtlet Hbank Hto Htb. split.
  - rewrite (async_get_outlet_state_in_range _ _ _ Houtlet).
    apply on_network_result, async_module_get_outlet_state_raises,
      async_get_integer_data_raises, async_get_data_transport_error. exact Hto.
  - rewrite (async_get_bank_load_in_range _ _ _ Hbank).
    apply on_network_result, async_module_get_bank_load_raises,
      async_get_integer_data_raises, async_get_data_transport_error. exact Htb.
Qed.

Lemma async_reads_report_transport_errors_witness :
  fst (AsyncApi.Hw.get_outlet_state 8 (async_hw_8, async_network_replying timeout_response))
  = Raise (RuntimeError "No SNMP response received before timeout")
  /\ fst (AsyncApi.Hw.get_bank_load 1 (async_hw_8, async_network_replying timeout_response))
     = Raise (RuntimeError "No SNMP response received before timeout").
Proof.
  destruct (async_reads_report_transport_errors async_hw_8
              (async_network_replying timeout_response) 8 1
              "No SNMP response received before timeout"
              "No SNMP response received before timeout") as [Ho Hb];
    [simpl; lia|simpl; lia|reflexivity|reflexivity|].
  rewrite Ho, Hb. split; reflexivity.
Defined.

Lemma async_set_data_outcome (ip oid : string) (v : AsyncApi.snmp_value)
    (net : AsyncApi.network) :
  AsyncApi.set_data ip oid v net
  = (match transport_error
             (AsyncApi.agent net (AsyncApi.sent net) (AsyncApi.SetCmd ip "private" oid v))
     with
     | Some text => Raise (RuntimeError text)
     | None => Ok tt
     end,
     async_after net (AsyncApi.SetCmd ip "private" oid v)).
Proof.
  unfold transport_error, AsyncApi.set_data, bind, AsyncApi.exchange, async_after.
  destruct (AsyncApi.agent net (AsyncApi.sent net) (AsyncApi.SetCmd ip "private" oid v))
    as [ind [code txt] idx binds]; simpl.
  destruct ind as [t|]; [reflexivity|]. destruct (code =? 0)%Z; reflexivity.
Qed.

(** X3.  For an outlet inside 1..count the pysnmp client sends one
    write, with the community [private], to the address of the command
    of that outlet, carrying the integer 1 for on, 2 for off and 3 for
    reboot; it returns when the response has no error and raises
    [RuntimeError] with the text of the error otherwise. *)
Theorem async_send_outlet_command_request
    (self : AsyncApi.Hw.t) (net : AsyncApi.network) (outlet : Z)
    (command : AsyncApi.OutletCommand) :
  (1 <= outlet <= AsyncApi.Hw.self_number_of_outlets self)%Z ->
  AsyncApi.Hw.send_outlet_command outlet command (self, net)
  = (match transport_error
             (AsyncApi.agent net (AsyncApi.sent net)
                (AsyncApi.SetCmd (AsyncApi.Hw.self_ip_address self) "private"
                   (outlet_control_oid outlet)
                   (AsyncApi.Integer match command with
                                     | AsyncApi.IMMEDIATE_ON => 1
                                     | AsyncApi.IMMEDIATE_OFF => 2
                                     | AsyncApi.IMMEDIATE_REBOOT => 3
                                     end)))
     with
     | Some text => Raise (RuntimeError text)
     | None => Ok tt
     end,
     (self,
      async_after net
        (AsyncApi.SetCmd (AsyncApi.Hw.self_ip_address self) "private"
           (outlet_control_oid outlet)
           (AsyncApi.Integer match command with
                             | AsyncApi.IMMEDIATE_ON => 1
                             | AsyncApi.IMMEDIATE_OFF => 2
                             | AsyncApi.IMMEDIATE_REBOOT => 3
                             end)))).
Proof.
  intros Hrange. rewrite (async_send_outlet_command_in_range _ _ _ _ Hrange).
  apply on_network_result. unfold AsyncApi.send_outlet_command.
  fold (outlet_control_oid outlet). rewrite async_set_data_outcome.
  destruct command; reflexivity.
Qed.

Lemma async_send_outlet_command_request_witness :
  AsyncApi.Hw.send_outlet_command 7 AsyncApi.IMMEDIATE_REBOOT
    (async_hw_8, async_network_with 8 2 1)
  = (Ok tt,
     (async_hw_8,
      async_after (async_network_with 8 2 1)
        (AsyncApi.SetCmd example_ip "private" ".1.3.6.1.4.1.3808.1.1.3.3.3.1.1.4.7"
           (AsyncApi.Integer 3)))).
Proof.
  rewrite (async_send_outlet_command_request async_hw_8 (async_network_with 8 2 1) 7
             AsyncApi.IMMEDIATE_REBOOT); [reflexivity|simpl; lia].
Defined.

Lemma async_get_data_network (ip oid : string) (net : AsyncApi.network) :
  snd (AsyncApi.get_data ip oid net)
  = async_after net (AsyncApi.GetCmd ip "public" oid).
Proof.
  unfold AsyncApi.get_data, bind, AsyncApi.exchange, async_after.
  destruct (AsyncApi.agent net (AsyncApi.sent net) (AsyncApi.GetCmd ip "public" oid))
    as [ind [code txt] idx binds]; simpl.
  destruct ind as [t|]; [reflexivity|]. destruct (code =? 0)%Z; [|reflexivity]. simpl.
  destruct binds as [|[o x] [|? ?]]; reflexivity.
Qed.

Lemma async_get_integer_data_network (ip oid : string) (net : AsyncApi.network) :
  snd (AsyncApi.get_integer_data ip oid net)
  = async_after net (AsyncApi.GetCmd ip "public" oid).
Proof.
  unfold AsyncApi.get_integer_data, bind.
  pose proof (async_get_data_network ip oid net) as H.
  destruct (AsyncApi.get_data ip oid net) as [[[n|s]|e] net']; exact H.
Qed.

Lemma index_in_range_true (index count : Z) :
  index_in_range index count = true <-> (1 <= index <= count)%Z.
Proof. unfold index_in_range. rewrite andb_true_iff. lia. Qed.

Lemma index_in_range_false (index count : Z) :
  index_in_range index count = false <-> ~ (1 <= index <= count)%Z.
Proof. unfold index_in_range. rewrite andb_false_iff. lia. Qed.

(** X4.  The pysnmp client sends a request exactly when the index is
    inside the range it checks: whatever the outcome, the client itself
    is left as it is (the counts are stored by [initialize] alone), the
    agent is the same, and the requests recorded are those before,
    followed, when the index is in range, by the one read or write of
    the operation. *)
Theorem async_operations_network_effect
    (self : AsyncApi.Hw.t) (net : AsyncApi.network) (index : Z)
    (command : AsyncApi.OutletCommand) :
  snd (AsyncApi.Hw.get_outlet_state index (self, net))
  = (self,
     if index_in_range index (AsyncApi.Hw.self_number_of_outlets self)
     then async_after net
            (AsyncApi.GetCmd (AsyncApi.Hw.self_ip_address self) "public"
               (outlet_state_oid index))
     else net)
  /\ snd (AsyncApi.Hw.send_outlet_command index command (self, net))
     = (self,
        if index_in_range index (AsyncApi.Hw.self_number_of_outlets self)
        then async_after net
               (AsyncApi.SetCmd (AsyncApi.Hw.self_ip_address self) "private"
                  (outlet_control_oid index) (AsyncApi.Integer (AsyncApi.value command)))
        else net)
  /\ snd (AsyncApi.Hw.get_bank_load index (self, net))
     = (self,
        if index_in_range index (AsyncApi.Hw.self_number_of_banks self)
        then async_after net
               (AsyncApi.GetCmd (AsyncApi.Hw.self_ip_address self) "public"
                  (bank_load_oid index))
        else net).
Proof.
  split; [|split].
  - destruct (index_in_range index (AsyncApi.Hw.self_number_of_outlets self)) eqn:Hr.
    + apply index_in_range_true in Hr.
      rewrite (async_get_outlet_state_in_range _ _ _ Hr).
      unfold on_network, AsyncApi.get_outlet_state, bind. cbn [fst snd].
      fold (outlet_state_oid index).
      pose proof (async_get_integer_data_network (AsyncApi.Hw.self_ip_address self)
                    (outlet_state_oid index) net) as Hnet.
      destruct (AsyncApi.get_integer_data (AsyncApi.Hw.self_ip_address self)
                  (outlet_state_oid index) net) as [[v|e] net']; cbn [snd] in Hnet; subst net'.
      * destruct v as [|[q|[q|q|]|]|q]; reflexivity.
      * reflexivity.
    + apply index_in_range_false in Hr.
      destruct (Z.eq_dec (AsyncApi.Hw.self_number_of_outlets self) 0) as [Hz|Hnz].
      * rewrite (async_get_outlet_state_zero _ _ Hz). reflexivity.
      * rewrite (async_get_outlet_state_out_of_range _ _ Hnz _ Hr). reflexivity.
  - destruct (index_in_range index (AsyncApi.Hw.self_number_of_outlets self)) eqn:Hr.
    + apply index_in_range_true in Hr.
      rewrite (async_send_outlet_command_in_range _ _ _ _ Hr).
      unfold on_network, AsyncApi.send_outlet_command. cbn [fst snd].
      fold (outlet_control_oid index). rewrite async_set_data_outcome. reflexivity.
    + apply index_in_range_false in Hr.
      destruct (Z.eq_dec (AsyncApi.Hw.self_number_of_outlets self) 0) as [Hz|Hnz].
      * rewrite (async_send_outlet_command_zero _ _ Hz). reflexivity.
      * rewrite (async_send_outlet_command_out_of_range _ _ Hnz _ _ Hr). reflexivity.
  - destruct (index_in_range index (AsyncApi.Hw.self_number_of_banks self)) eqn:Hr.
    + apply index_in_range_true in Hr.
      rewrite (async_get_bank_load_in_range _ _ _ Hr).
      unfold on_network, AsyncApi.get_bank_load, bind. cbn [fst snd].
      fold (bank_load_oid index).
      pose proof (async_get_integer_data_network (AsyncApi.Hw.self_ip_address self)
                    (bank_load_oid index) net) as Hnet.
      destruct (AsyncApi.get_integer_data (AsyncApi.Hw.self_ip_address self)
                  (bank_load_oid index) net) as [[v|e] net']; cbn [snd] in Hnet; subst net'.
      * unfold lift. destruct (float_of_int v); reflexivity.
      * reflexivity.
    + apply index_in_range_false in Hr.
      rewrite (async_get_bank_load_out_of_range _ _ _ Hr). reflexivity.
Qed.

(** X5.  When the count of banks has been read and the read of the
    count of outlets fails, [initialize] raises the error of that read
    and leaves a client that has stored the banks and not the outlets:
    its outlet operations raise the error of the missing
    initialization.  When the read of the banks fails, nothing is
    stored and the count of outlets is not asked for. *)
Theorem async_initialize_partial_failure
    (ip : string) (net : AsyncApi.network) (banks : Z) (text : string) :
  wire_integer
    (AsyncApi.agent net (AsyncApi.sent net) (AsyncApi.GetCmd ip "public" bank_count_oid))
  = Some banks ->
  transport_error
    (AsyncApi.agent net
       (AsyncApi.sent net ++ [AsyncApi.GetCmd ip "public" bank_count_oid])%list
       (AsyncApi.GetCmd ip "public" outlet_count_oid))
  = Some text ->
  AsyncApi.Hw.initialize (AsyncApi.Hw.init ip, net)
  = (Raise (RuntimeError text),
     ({| AsyncApi.Hw.self_ip_address := ip;
         AsyncApi.Hw.self_number_of_banks := banks;
         AsyncApi.Hw.self_number_of_outlets := 0 |},
      async_after (async_after net (AsyncApi.GetCmd ip "public" bank_count_oid))
        (AsyncApi.GetCmd ip "public" outlet_count_oid)))
  /\ (forall n outlet,
        AsyncApi.Hw.get_outlet_state outlet
          ({| AsyncApi.Hw.self_ip_address := ip;
              AsyncApi.Hw.self_number_of_banks := banks;
              AsyncApi.Hw.self_number_of_outlets := 0 |}, n)
        = (Raise (RuntimeError not_initialized_message),
           ({| AsyncApi.Hw.self_ip_address := ip;
               AsyncApi.Hw.self_number_of_banks := banks;
               AsyncApi.Hw.self_number_of_outlets := 0 |}, n)))
  /\ (forall n text',
        transport_error
          (AsyncApi.agent n (AsyncApi.sent n) (AsyncApi.GetCmd ip "public" bank_count_oid))
        = Some text' ->
        AsyncApi.Hw.initialize (AsyncApi.Hw.init ip, n)
        = (Raise (RuntimeError text'),
           (AsyncApi.Hw.init ip,
            async_after n (AsyncApi.GetCmd ip "public" bank_count_oid)))).
Proof.
  intros Hbanks Houtlets. split; [|split].
  - unfold AsyncApi.Hw.initialize. unfold bind at 1, get_self at 1, gets.
    unfold bind at 1, on_network at 1.
    cbn [fst snd AsyncApi.Hw.init AsyncApi.Hw.self_ip_address].
    unfold AsyncApi.get_number_of_banks. fold bank_count_oid.
    rewrite (async_get_integer_data _ _ _ _ Hbanks).
    unfold bind at 1, set_self at 1, modify. unfold bind at 1, get_self, gets.
    unfold bind at 1, on_network. cbn [fst snd].
    unfold AsyncApi.Hw.set_number_of_banks at 1.
    cbn [AsyncApi.Hw.self_ip_address].
    unfold AsyncApi.get_number_of_outlets. fold outlet_count_oid.
    change (AsyncApi.Hw.self_ip_address (AsyncApi.Hw.init ip)) with ip.
    rewrite (async_get_integer_data_raises ip outlet_count_oid
               (async_after net (AsyncApi.GetCmd ip "public" bank_count_oid)) _ _
               (async_get_data_transport_error ip outlet_count_oid
                  (async_after net (AsyncApi.GetCmd ip "public" bank_count_oid))
                  text Houtlets)).
    reflexivity.
  - intros n outlet. apply async_get_outlet_state_zero. reflexivity.
  - intros n text' Hfail.
    unfold AsyncApi.Hw.initialize. unfold bind at 1, get_self at 1, gets.
    unfold bind at 1, on_network at 1.
    cbn [fst snd AsyncApi.Hw.init AsyncApi.Hw.self_ip_address].
    unfold AsyncApi.get_number_of_banks. fold bank_count_oid.
    rewrite (async_get_integer_data_raises ip bank_count_oid n _ _
               (async_get_data_transport_error _ _ _ _ Hfail)).
    reflexivity.
Qed.

Lemma async_initialize_partial_failure_witness :
  AsyncApi.Hw.initialize (AsyncApi.Hw.init example_ip, async_network_banks_only)
  = (Raise (RuntimeError "No SNMP response received before timeout"),
     ({| AsyncApi.Hw.self_ip_address := example_ip;
         AsyncApi.Hw.self_number_of_banks := 2;
         AsyncApi.Hw.self_number_of_outlets := 0 |},
      async_after
        (async_after async_network_banks_only
           (AsyncApi.GetCmd example_ip "public" bank_count_oid))
        (AsyncApi.GetCmd example_ip "public" outlet_count_oid))).
Proof.
  apply (async_initialize_partial_failure example_ip async_network_banks_only 2
           "No SNMP response received before timeout"); reflexivity.
Defined.

(** ** Further properties of the puresnmp client *)

Lemma pdu_client_get_missing (self : Pdu.Hw.t) (net : Pdu.network) (oid : string) :
  Pdu.Hw.self_client self = None ->
  Pdu.Hw.client_get oid (self, net)
  = (Raise (AttributeError
       "'CyberPowerPDUHardware' object has no attribute '_CyberPowerPDUHardware__client'"),
     (self, net)).
Proof.
  intros Hcl. unfold Pdu.Hw.client_get, bind, get_self, gets; simpl.
  rewrite Hcl. reflexivity.
Qed.

Lemma pdu_client_set (self : Pdu.Hw.t) (net : Pdu.network) (cl : Pdu.client)
    (oid : string) (v : Z) :
  Pdu.Hw.self_client self = Some cl ->
  Pdu.Hw.client_set oid v (self, net)
  = (Pdu.agent net (Pdu.sent net) (Pdu.Set_ cl oid v),
     (self, pdu_after net (Pdu.Set_ cl oid v))).
Proof.
  intros Hcl. unfold Pdu.Hw.client_set, bind, get_self, gets; simpl.
  rewrite Hcl. reflexivity.
Qed.

Lemma pdu_client_set_missing (self : Pdu.Hw.t) (net : Pdu.network) (oid : string)
    (v : Z) :
  Pdu.Hw.self_client self = None ->
  Pdu.Hw.client_set oid v (self, net)
  = (Raise (AttributeError
       "'CyberPowerPDUHardware' object has no attribute '_CyberPowerPDUHardware__client'"),
     (self, net)).
Proof.
  intros Hcl. unfold Pdu.Hw.client_set, bind, get_self, gets; simpl.
  rewrite Hcl. reflexivity.
Qed.

Lemma pdu_get_outlet_state_accepted (self : Pdu.Hw.t) (net : Pdu.network) (outlet : Z) :
  (1 <= outlet <= Pdu.Hw.self_number_of_outlets self)%Z ->
  Pdu.Hw.get_outlet_state outlet (self, net)
  = match Pdu.Hw.client_get (outlet_state_oid outlet) (self, net) with
    | (Ok v, w) =>
        (match v with
         | 1 => Ok true
         | 2 => Ok false
         | _ => Raise (ValueError ("Received unexpected value for outlet state: "
                                   ++ str_of_int v))
         end, w)
    | (Raise e, w) => (Raise e, w)
    end.
Proof.
  intros Hrange.
  assert (Hcount : Pdu.Hw.self_number_of_outlets self <> 0) by lia.
  unfold Pdu.Hw.get_outlet_state.
  index_accepted (pdu_valid_outlet_index self net Hcount).
  unfold bind at 1. fold (outlet_state_oid outlet).
  destruct (Pdu.Hw.client_get (outlet_state_oid outlet) (self, net)) as [[v|e] w];
    [|reflexivity].
  destruct v as [|[q|[q|q|]|]|q]; reflexivity.
Qed.

Lemma pdu_send_outlet_command_accepted (self : Pdu.Hw.t) (net : Pdu.network)
    (outlet : Z) (command : Pdu.OutletCommand) :
  (1 <= outlet <= Pdu.Hw.self_number_of_outlets self)%Z ->
  Pdu.Hw.send_outlet_command outlet command (self, net)
  = match Pdu.Hw.client_set (outlet_control_oid outlet) (Pdu.value command) (self, net)
    with
    | (Ok _, w) => (Ok tt, w)
    | (Raise e, w) => (Raise e, w)
    end.
Proof.
  intros Hrange.
  assert (Hcount : Pdu.Hw.self_number_of_outlets self <> 0) by lia.
  unfold Pdu.Hw.send_outlet_command.
  index_accepted (pdu_valid_outlet_index self net Hcount).
  unfold bind at 1. fold (outlet_control_oid outlet).
  destruct (Pdu.Hw.client_set (outlet_control_oid outlet) (Pdu.value command) (self, net))
    as [[v|e] w]; reflexivity.
Qed.

(** X6.  The puresnmp client sends a request exactly when the outlet is
    inside 1..count and its SNMP client has been built: whatever the
    outcome, the object is left as it is, the agent is the same, and the
    requests recorded are those before, followed in that case by the
    read of the state or by the write of the command, the integer 1 for
    on, 2 for off and 3 for reboot. *)
Theorem pdu_operations_network_effect
    (self : Pdu.Hw.t) (net : Pdu.network) (outlet : Z) (command : Pdu.OutletCommand) :
  snd (Pdu.Hw.get_outlet_state outlet (self, net))
  = (self,
     if index_in_range outlet (Pdu.Hw.self_number_of_outlets self)
     then match Pdu.Hw.self_client self with
          | Some cl => pdu_after net (Pdu.Get cl (outlet_state_oid outlet))
          | None => net
          end
     else net)
  /\ snd (Pdu.Hw.send_outlet_command outlet command (self, net))
     = (self,
        if index_in_range outlet (Pdu.Hw.self_number_of_outlets self)
        then match Pdu.Hw.self_client self with
             | Some cl =>
                 pdu_after net
                   (Pdu.Set_ cl (outlet_control_oid outlet)
                      match command with
                      | Pdu.IMMEDIATE_ON => 1
                      | Pdu.IMMEDIATE_OFF => 2
                      | Pdu.IMMEDIATE_REBOOT => 3
                      end)
             | None => net
             end
        else net).
Proof.
  split.
  - destruct (index_in_range outlet (Pdu.Hw.self_number_of_outlets self)) eqn:Hr.
    + apply index_in_range_true in Hr. rewrite (pdu_get_outlet_state_accepted _ _ _ Hr).
      destruct (Pdu.Hw.self_client self) as [cl|] eqn:Hcl.
      * rewrite (pdu_client_get _ _ _ _ Hcl).
        destruct (Pdu.agent net (Pdu.sent net) _) as [v|e]; reflexivity.
      * rewrite (pdu_client_get_missing _ _ _ Hcl). reflexivity.
    + apply index_in_range_false in Hr.
      destruct (Z.eq_dec (Pdu.Hw.self_number_of_outlets self) 0) as [Hz|Hnz].
      * rewrite (pdu_get_outlet_state_zero _ _ Hz). reflexivity.
      * rewrite (pdu_get_outlet_state_out_of_range _ _ Hnz _ Hr). reflexivity.
  - destruct (index_in_range outlet (Pdu.Hw.self_number_of_outlets self)) eqn:Hr.
    + apply index_in_range_true in Hr.
      rewrite (pdu_send_outlet_command_accepted _ _ _ _ Hr).
      destruct (Pdu.Hw.self_client self) as [cl|] eqn:Hcl.
      * rewrite (pdu_client_set _ _ _ _ _ Hcl).
        destruct (Pdu.agent net (Pdu.sent net) _) as [v|e]; destruct command; reflexivity.
      * rewrite (pdu_client_set_missing _ _ _ _ Hcl). reflexivity.
    + apply index_in_range_false in Hr.
      destruct (Z.eq_dec (Pdu.Hw.self_number_of_outlets self) 0) as [Hz|Hnz].
      * rewrite (pdu_send_outlet_command_zero _ _ Hz). reflexivity.
      * rewrite (pdu_send_outlet_command_out_of_range _ _ Hnz _ _ Hr). reflexivity.
Qed.

(** X7.  Whatever the object was before, [initialize] of the puresnmp
    client builds the SNMP client for the address, the port 161 and the
    community [private], and asks once for the count of outlets: when
    the read succeeds the count read replaces the count stored, when it
    raises the error is raised and the count stored is kept. *)
Theorem pdu_initialize_outcome (self : Pdu.Hw.t) (net : Pdu.network) :
  Pdu.Hw.initialize (self, net)
  = (match Pdu.agent net (Pdu.sent net)
             (Pdu.Get (pdu_client (Pdu.Hw.self_ip_address self)) outlet_count_oid)
     with
     | Ok _ => Ok tt
     | Raise e => Raise e
     end,
     ({| Pdu.Hw.self_ip_address := Pdu.Hw.self_ip_address self;
         Pdu.Hw.self_number_of_outlets :=
           match Pdu.agent net (Pdu.sent net)
                   (Pdu.Get (pdu_client (Pdu.Hw.self_ip_address self)) outlet_count_oid)
           with
           | Ok n => n
           | Raise _ => Pdu.Hw.self_number_of_outlets self
           end;
         Pdu.Hw.self_client := Some (pdu_client (Pdu.Hw.self_ip_address self)) |},
      pdu_after net
        (Pdu.Get (pdu_client (Pdu.Hw.self_ip_address self)) outlet_count_oid))).
Proof.
  unfold Pdu.Hw.initialize, Pdu.Hw.get_number_of_outlets, Pdu.Hw.client_get,
    bind, set_self, get_self, gets, modify, on_network, Pdu.exchange; simpl.
  fold (pdu_client (Pdu.Hw.self_ip_address self)). fold outlet_count_oid.
  destruct (Pdu.agent net (Pdu.sent net) _) as [n|e]; reflexivity.
Qed.

Lemma pdu_after_all_nil (net : Pdu.network) : pdu_after_all net [] = net.
Proof. destruct net. unfold pdu_after_all. cbn. rewrite app_nil_r. reflexivity. Qed.

Lemma pdu_after_all_cons (net : Pdu.network) (rq : Pdu.request)
    (rqs : list Pdu.request) :
  pdu_after_all (pdu_after net rq) rqs = pdu_after_all net (rq :: rqs).
Proof. unfold pdu_after_all, pdu_after. cbn. rewrite <- app_assoc. reflexivity. Qed.

Lemma pdu_get_outlet_state_sent (self : Pdu.Hw.t) (net : Pdu.network) (cl : Pdu.client)
    (outlet : Z) :
  (1 <= outlet <= Pdu.Hw.self_number_of_outlets self)%Z ->
  Pdu.Hw.self_client self = Some cl ->
  snd (Pdu.Hw.get_outlet_state outlet (self, net))
  = (self, pdu_after net (Pdu.Get cl (outlet_state_oid outlet))).
Proof.
  intros Hr Hcl. rewrite (pdu_get_outlet_state_accepted _ _ _ Hr).
  rewrite (pdu_client_get _ _ _ _ Hcl).
  destruct (Pdu.agent net (Pdu.sent net) _) as [v|e]; reflexivity.
Qed.

Lemma for_each_cons {W A B} (f : A -> M W B) (x : A) (xs : list A) (w : W) :
  for_each f (x :: xs) w
  = match f x w with
    | (Ok y, w1) =>
        match for_each f xs w1 with
        | (Ok ys, w2) => (Ok (y :: ys), w2)
        | (Raise e, w2) => (Raise e, w2)
        end
    | (Raise e, w1) => (Raise e, w1)
    end.
Proof.
  cbn [for_each]. unfold bind at 1. destruct (f x w) as [[y|e] w1]; [|reflexivity].
  unfold bind, ret. destruct (for_each f xs w1) as [[ys|e] w2]; reflexivity.
Qed.

Lemma pdu_for_each_requests (self : Pdu.Hw.t) (cl : Pdu.client) (outlets : list Z) :
  Pdu.Hw.self_client self = Some cl ->
  (forall x, In x outlets -> (1 <= x <= Pdu.Hw.self_number_of_outlets self)%Z) ->
  forall net,
  exists k,
    (k <= length outlets)%nat
    /\ snd (for_each Pdu.Hw.get_outlet_state outlets (self, net))
       = (self, pdu_after_all net (state_requests cl (firstn k outlets)))
    /\ (forall l, fst (for_each Pdu.Hw.get_outlet_state outlets (self, net)) = Ok l ->
                  k = length outlets /\ length l = length outlets)
    /\ (forall e, fst (for_each Pdu.Hw.get_outlet_state outlets (self, net)) = Raise e ->
          exists x,
            (1 <= k)%nat
            /\ nth_error outlets (k - 1) = Some x
            /\ fst (Pdu.Hw.get_outlet_state x
                      (self,
                       pdu_after_all net (state_requests cl (firstn (k - 1) outlets))))
               = Raise e).
Proof.
  intros Hcl. induction outlets as [|x xs IH]; intros Hin net.
  - exists 0%nat. cbn [for_each firstn state_requests map length].
    unfold ret. cbn [fst snd]. rewrite pdu_after_all_nil.
    split; [lia|]. split; [reflexivity|]. split.
    + intros l [= <-]. split; reflexivity.
    + intros e [=].
  - assert (Hx : (1 <= x <= Pdu.Hw.self_number_of_outlets self)%Z)
      by (apply Hin; left; reflexivity).
    pose proof (pdu_get_outlet_state_sent self net cl x Hx Hcl) as Hsnd.
    rewrite (for_each_cons Pdu.Hw.get_outlet_state x xs (self, net)).
    destruct (Pdu.Hw.get_outlet_state x (self, net)) as [[b|e] w1] eqn:Hread;
      cbn [snd] in Hsnd; subst w1.
    + destruct (IH (fun y Hy => Hin y (or_intror Hy))
                  (pdu_after net (Pdu.Get cl (outlet_state_oid x))))
        as (k & Hk & Hs & Hok & Herr).
      exists (S k). cbn [length].
      destruct (for_each Pdu.Hw.get_outlet_state xs
                  (self, pdu_after net (Pdu.Get cl (outlet_state_oid x))))
        as [[l|e] w2]; cbn [fst snd] in *; subst w2.
      * split; [lia|].
        cbn [firstn state_requests map]. rewrite pdu_after_all_cons.
        split; [reflexivity|]. split.
        -- intros l' Hl'. injection Hl' as Hl'. subst l'.
           destruct (Hok l eq_refl) as [-> Hl]. cbn [length]. split; lia.
        -- intros e' [=].
      * split; [lia|].
        cbn [firstn state_requests map]. rewrite pdu_after_all_cons.
        split; [reflexivity|]. split; [intros l' [=]|].
        intros e' He'. injection He' as He'. subst e'.
        destruct (Herr e eq_refl) as (y & Hk1 & Hnth & Hy).
        exists y. split; [lia|]. split.
        -- replace (S k - 1)%nat with (S (k - 1)) by lia. exact Hnth.
        -- replace (S k - 1)%nat with (S (k - 1)) by lia.
           cbn [firstn state_requests map]. rewrite <- pdu_after_all_cons. exact Hy.
    + exists 1%nat. cbn [fst snd length firstn state_requests map].
      split; [lia|]. split.
      { unfold pdu_after_all, pdu_after. reflexivity. }
      split; [intros l [=]|].
      intros e' He'. injection He' as He'. subst e'.
      exists x. split; [lia|]. split; [reflexivity|].
      cbn [Nat.sub firstn state_requests map]. rewrite pdu_after_all_nil, Hread.
      reflexivity.
Qed.

Lemma nth_error_seq_value (n : nat) :
  forall (s k i : nat), nth_error (seq s n) k = Some i -> i = (s + k)%nat.
Proof.
  induction n as [|n IH]; intros s k i H.
  - destruct k; discriminate.
  - destruct k as [|k]; cbn in H.
    + injection H as <-. lia.
    + apply IH in H. lia.
Qed.

(** X8.  [get_all_outlet_states] reads the outlets in their order, one
    request each, and stops at the first read that raises: the requests
    it has sent are those of the first k outlets, all of them when it
    returns a list, and when it raises the error is the one of the read
    of outlet k. *)
Theorem pdu_get_all_outlet_states_requests
    (self : Pdu.Hw.t) (net : Pdu.network) (cl : Pdu.client) :
  Pdu.Hw.self_client self = Some cl ->
  Pdu.Hw.self_number_of_outlets self <> 0 ->
  exists k,
    (k <= Z.to_nat (Pdu.Hw.self_number_of_outlets self))%nat
    /\ snd (Pdu.Hw.get_all_outlet_states (self, net))
       = (self,
          pdu_after_all net
            (state_requests cl
               (firstn k (range 1 (Pdu.Hw.self_number_of_outlets self + 1)))))
    /\ (forall l, fst (Pdu.Hw.get_all_outlet_states (self, net)) = Ok l ->
                  k = Z.to_nat (Pdu.Hw.self_number_of_outlets self)
                  /\ length l = k)
    /\ (forall e, fst (Pdu.Hw.get_all_outlet_states (self, net)) = Raise e ->
          (1 <= k)%nat
          /\ fst (Pdu.Hw.get_outlet_state (Z.of_nat k)
                    (self,
                     pdu_after_all net
                       (state_requests cl
                          (firstn (k - 1)
                             (range 1 (Pdu.Hw.self_number_of_outlets self + 1))))))
             = Raise e).
Proof.
  intros Hcl Hcount.
  assert (Hlen : length (range 1 (Pdu.Hw.self_number_of_outlets self + 1))
                 = Z.to_nat (Pdu.Hw.self_number_of_outlets self)).
  { unfold range. rewrite length_map, length_seq. f_equal. lia. }
  destruct (pdu_for_each_requests self cl
              (range 1 (Pdu.Hw.self_number_of_outlets self + 1)) Hcl) with (net := net)
    as (k & Hk & Hs & Hok & Herr).
  { intros x Hx. apply in_range_bounds in Hx. lia. }
  assert (Hall : Pdu.Hw.get_all_outlet_states (self, net)
                 = for_each Pdu.Hw.get_outlet_state
                     (range 1 (Pdu.Hw.self_number_of_outlets self + 1)) (self, net)).
  { unfold Pdu.Hw.get_all_outlet_states, bind at 1.
    rewrite (pdu_number_of_outlets_ok self net Hcount). reflexivity. }
  rewrite Hall. exists k. rewrite <- Hlen. split; [exact Hk|]. split; [exact Hs|].
  split.
  - intros l Hl. destruct (Hok l Hl) as [-> Hll]. split; [reflexivity|exact Hll].
  - intros e He. destruct (Herr e He) as (x & Hk1 & Hnth & Hx). split; [exact Hk1|].
    assert (x = Z.of_nat k) as <-; [|exact Hx].
    unfold range in Hnth. rewrite nth_error_map in Hnth.
    destruct (nth_error (seq 0 (Z.to_nat (Pdu.Hw.self_number_of_outlets self + 1 - 1)))
                (k - 1)) as [i|] eqn:Hi; [|discriminate].
    cbn in Hnth. injection Hnth as <-.
    apply nth_error_seq_value in Hi. lia.
Qed.

Lemma pdu_get_all_outlet_states_requests_witness :
  exists k,
    snd (Pdu.Hw.get_all_outlet_states (pdu_hw_8, pdu_network_broken_outlet 8 3))
    = (pdu_hw_8,
       pdu_after_all (pdu_network_broken_outlet 8 3)
         (state_requests (pdu_client example_ip) (firstn k (range 1 9))))
    /\ k = 3%nat.
Proof.
  destruct (pdu_get_all_outlet_states_requests pdu_hw_8 (pdu_network_broken_outlet 8 3)
              (pdu_client example_ip) eq_refl) as (k & Hk & Hs & _ & Herr);
    [discriminate|].
  exists k. split; [exact Hs|].
  assert (Hsent : length (Pdu.sent (snd (snd (Pdu.Hw.get_all_outlet_states
                    (pdu_hw_8, pdu_network_broken_outlet 8 3))))) = 3%nat)
    by reflexivity.
  rewrite Hs in Hsent. cbn [snd pdu_after_all Pdu.sent] in Hsent.
  unfold state_requests in Hsent.
  rewrite length_app, length_map, length_firstn in Hsent.
  change (length (range 1 (Pdu.Hw.self_number_of_outlets pdu_hw_8 + 1))) with 8%nat
    in Hsent.
  change (Z.to_nat (Pdu.Hw.self_number_of_outlets pdu_hw_8)) with 8%nat in Hk.
  cbn [length pdu_network_broken_outlet Pdu.sent] in Hsent. lia.
Defined.

(** ** Further properties of the simulated PDU *)

Lemma py_getitem_index {A} (l : list A) (i : Z) :
  (0 <= i)%Z ->
  Pdu.py_getitem l i
  = match l !! Z.to_nat i with
    | Some x => Ok x
    | None => Raise (IndexError "list index out of range")
    end.
Proof.
  intros Hi. unfold Pdu.py_getitem.
  assert (Hk : (i <? 0)%Z = false) by (apply Z.ltb_ge; lia).
  rewrite Hk. cbv zeta. rewrite Hk. reflexivity.
Qed.

Lemma py_getitem_negative {A} (l : list A) (i : Z) :
  (i < 0)%Z -> (0 <= i + Z.of_nat (length l))%Z ->
  Pdu.py_getitem l i = Pdu.py_getitem l (i + Z.of_nat (length l)).
Proof.
  intros Hneg Hwrap. rewrite (py_getitem_index l (i + Z.of_nat (length l)) Hwrap).
  unfold Pdu.py_getitem.
  assert (Hk : (i <? 0)%Z = true) by (apply Z.ltb_lt; lia).
  rewrite Hk. cbv zeta.
  assert (Hj : (i + Z.of_nat (length l) <? 0)%Z = false) by (apply Z.ltb_ge; lia).
  rewrite Hj. reflexivity.
Qed.

Lemma py_setitem_index {A} (l : list A) (i : Z) (x : A) :
  (0 <= i < Z.of_nat (length l))%Z ->
  Pdu.py_setitem l i x = Ok (<[Z.to_nat i := x]> l).
Proof.
  intros Hi. unfold Pdu.py_setitem.
  assert (Hk : (i <? 0)%Z = false) by (apply Z.ltb_ge; lia).
  rewrite Hk. cbv zeta. rewrite Hk.
  assert (Hlt : (i <? Z.of_nat (length l))%Z = true) by (apply Z.ltb_lt; lia).
  rewrite Hlt. reflexivity.
Qed.

Lemma py_setitem_negative {A} (l : list A) (i : Z) (x : A) :
  (i < 0)%Z -> (0 <= i + Z.of_nat (length l))%Z ->
  Pdu.py_setitem l i x = Pdu.py_setitem l (i + Z.of_nat (length l)) x.
Proof.
  intros Hneg Hwrap. unfold Pdu.py_setitem.
  assert (Hk : (i <? 0)%Z = true) by (apply Z.ltb_lt; lia).
  assert (Hj : (i + Z.of_nat (length l) <? 0)%Z = false) by (apply Z.ltb_ge; lia).
  rewrite Hk, Hj. cbv zeta. rewrite Hj. reflexivity.
Qed.

Lemma py_getitem_out_of_range {A} (l : list A) (i : Z) :
  (Z.of_nat (length l) <= i \/ i < - Z.of_nat (length l))%Z ->
  Pdu.py_getitem l i = Raise (IndexError "list index out of range").
Proof.
  intros Hout. unfold Pdu.py_getitem.
  destruct (Z.ltb_spec i 0) as [Hneg|Hpos]; cbv zeta.
  - assert (Hj : (i + Z.of_nat (length l) <? 0)%Z = true) by (apply Z.ltb_lt; lia).
    rewrite Hj. reflexivity.
  - assert (Hj : (i <? 0)%Z = false) by (apply Z.ltb_ge; lia). rewrite Hj.
    rewrite (lookup_ge_None_2 l (Z.to_nat i)) by lia. reflexivity.
Qed.

Lemma py_setitem_out_of_range {A} (l : list A) (i : Z) (x : A) :
  (Z.of_nat (length l) <= i \/ i < - Z.of_nat (length l))%Z ->
  Pdu.py_setitem l i x = Raise (IndexError "list assignment index out of range").
Proof.
  intros Hout. unfold Pdu.py_setitem.
  destruct (Z.ltb_spec i 0) as [Hneg|Hpos]; cbv zeta.
  - assert (Hj : (i + Z.of_nat (length l) <? 0)%Z = true) by (apply Z.ltb_lt; lia).
    rewrite Hj. reflexivity.
  - assert (Hj : (i <? 0)%Z = false) by (apply Z.ltb_ge; lia). rewrite Hj.
    assert (Hlt : (i <? Z.of_nat (length l))%Z = false) by (apply Z.ltb_ge; lia).
    rewrite Hlt. reflexivity.
Qed.

Lemma sim_get_outlet_state_eq (s : Pdu.Sim.t) (outlet : Z) :
  Pdu.Sim.get_outlet_state outlet s
  = (Pdu.py_getitem (Pdu.Sim.self_outlet_states s) (outlet - 1), s).
Proof. reflexivity. Qed.

Lemma sim_assign_outlet_state_eq (s : Pdu.Sim.t) (outlet : Z) (b : bool) :
  Pdu.Sim.assign_outlet_state outlet b s
  = match Pdu.py_setitem (Pdu.Sim.self_outlet_states s) (outlet - 1) b with
    | Ok l => (Ok tt, {| Pdu.Sim.self_number_of_outlets := Pdu.Sim.self_number_of_outlets s;
                         Pdu.Sim.self_outlet_states := l |})
    | Raise e => (Raise e, s)
    end.
Proof.
  unfold Pdu.Sim.assign_outlet_state, bind, gets, lift, modify. cbn [id].
  destruct (Pdu.py_setitem (Pdu.Sim.self_outlet_states s) (outlet - 1) b); reflexivity.
Qed.

Lemma sim_send_outlet_command_eq (s : Pdu.Sim.t) (outlet : Z)
    (command : Pdu.OutletCommand) :
  Pdu.Sim.send_outlet_command outlet command s
  = Pdu.Sim.assign_outlet_state outlet
      match command with
      | Pdu.IMMEDIATE_OFF => false
      | _ => true
      end s.
Proof. destruct command; reflexivity. Qed.

(** X9.  On the simulated PDU, for an outlet inside 1..length of the
    list of states, a command is accepted, a read of that outlet then
    gives true after on and after reboot and false after off, and the
    reads of the other outlets give what they gave before. *)
Theorem sim_command_then_state (s : Pdu.Sim.t) (outlet : Z)
    (command : Pdu.OutletCommand) :
  (1 <= outlet <= Z.of_nat (length (Pdu.Sim.self_outlet_states s)))%Z ->
  exists s',
    Pdu.Sim.send_outlet_command outlet command s = (Ok tt, s')
    /\ length (Pdu.Sim.self_outlet_states s') = length (Pdu.Sim.self_outlet_states s)
    /\ Pdu.Sim.self_number_of_outlets s' = Pdu.Sim.self_number_of_outlets s
    /\ Pdu.Sim.get_outlet_state outlet s'
       = (Ok match command with
             | Pdu.IMMEDIATE_ON => true
             | Pdu.IMMEDIATE_OFF => false
             | Pdu.IMMEDIATE_REBOOT => true
             end, s')
    /\ forall other,
         (1 <= other <= Z.of_nat (length (Pdu.Sim.self_outlet_states s)))%Z ->
         other <> outlet ->
         fst (Pdu.Sim.get_outlet_state other s') = fst (Pdu.Sim.get_outlet_state other s).
Proof.
  intros Hrange.
  rewrite sim_send_outlet_command_eq, sim_assign_outlet_state_eq.
  rewrite py_setitem_index by lia.
  eexists. split; [reflexivity|].
  cbn [Pdu.Sim.self_outlet_states Pdu.Sim.self_number_of_outlets].
  split; [apply length_insert|]. split; [reflexivity|]. split.
  - rewrite sim_get_outlet_state_eq. cbn [Pdu.Sim.self_outlet_states].
    rewrite py_getitem_index by lia.
    rewrite list_lookup_insert_eq by lia. destruct command; reflexivity.
  - intros other Hother Hne. rewrite !sim_get_outlet_state_eq.
    cbn [fst Pdu.Sim.self_outlet_states].
    rewrite !py_getitem_index by lia.
    rewrite list_lookup_insert_ne by lia. reflexivity.
Qed.

Lemma sim_command_then_state_witness :
  exists s',
    Pdu.Sim.send_outlet_command 7 Pdu.IMMEDIATE_REBOOT sim_16 = (Ok tt, s')
    /\ Pdu.Sim.get_outlet_state 7 s' = (Ok true, s')
    /\ fst (Pdu.Sim.get_outlet_state 8 s') = Ok false.
Proof.
  destruct (sim_command_then_state sim_16 7 Pdu.IMMEDIATE_REBOOT)
    as (s' & Hsend & _ & _ & Hget & Hother);
    [change (Z.of_nat (length (Pdu.Sim.self_outlet_states sim_16))) with 16%Z; lia|].
  exists s'. split; [exact Hsend|]. split; [exact Hget|].
  rewrite (Hother 8);
    [reflexivity
    |change (Z.of_nat (length (Pdu.Sim.self_outlet_states sim_16))) with 16%Z; lia
    |lia].
Defined.

(** X10.  The simulated PDU checks no range and indexes its list as
    Python does: an outlet from 1 - n to 0, n being the length of the
    list, is the outlet n places further, so that outlet 0 is the last
    one, for the reads and for the commands. *)
Theorem sim_outlets_wrap_around (s : Pdu.Sim.t) (outlet : Z)
    (command : Pdu.OutletCommand) :
  (1 - Z.of_nat (length (Pdu.Sim.self_outlet_states s)) <= outlet <= 0)%Z ->
  Pdu.Sim.get_outlet_state outlet s
  = Pdu.Sim.get_outlet_state
      (outlet + Z.of_nat (length (Pdu.Sim.self_outlet_states s))) s
  /\ Pdu.Sim.send_outlet_command outlet command s
     = Pdu.Sim.send_outlet_command
         (outlet + Z.of_nat (length (Pdu.Sim.self_outlet_states s))) command s.
Proof.
  intros Hrange. split.
  - rewrite !sim_get_outlet_state_eq.
    rewrite py_getitem_negative by lia. do 2 f_equal. lia.
  - rewrite !sim_send_outlet_command_eq, !sim_assign_outlet_state_eq.
    rewrite py_setitem_negative by lia.
    replace (outlet - 1 + Z.of_nat (length (Pdu.Sim.self_outlet_states s)))%Z
      with (outlet + Z.of_nat (length (Pdu.Sim.self_outlet_states s)) - 1)%Z by lia.
    reflexivity.
Qed.

Lemma sim_outlets_wrap_around_witness :
  fst (Pdu.Sim.get_outlet_state 0
         (snd (Pdu.Sim.send_outlet_command 16 Pdu.IMMEDIATE_ON sim_16)))
  = Ok true.
Proof.
  destruct (sim_outlets_wrap_around
              (snd (Pdu.Sim.send_outlet_command 16 Pdu.IMMEDIATE_ON sim_16))
              0 Pdu.IMMEDIATE_ON) as [Hget _];
    [change (Z.of_nat (length (Pdu.Sim.self_outlet_states
               (snd (Pdu.Sim.send_outlet_command 16 Pdu.IMMEDIATE_ON sim_16)))))
       with 16%Z; lia|].
  rewrite Hget. reflexivity.
Defined.

(** X11.  Outside that span, for an outlet above the length of the list
    or not above its opposite, the simulated PDU raises [IndexError]
    and changes nothing; before [initialize] the list is empty, so every
    read and every command raises it, while [get_all_outlet_states]
    returns the empty list and the count raises the error of the
    missing initialization. *)
Theorem sim_outlets_out_of_range (s : Pdu.Sim.t) (outlet : Z)
    (command : Pdu.OutletCommand) :
  (Z.of_nat (length (Pdu.Sim.self_outlet_states s)) < outlet
   \/ outlet <= - Z.of_nat (length (Pdu.Sim.self_outlet_states s)))%Z ->
  Pdu.Sim.get_outlet_state outlet s
  = (Raise (IndexError "list index out of range"), s)
  /\ Pdu.Sim.send_outlet_command outlet command s
     = (Raise (IndexError "list assignment index out of range"), s)
  /\ (forall o c,
        Pdu.Sim.get_outlet_state o Pdu.Sim.init
        = (Raise (IndexError "list index out of range"), Pdu.Sim.init)
        /\ Pdu.Sim.send_outlet_command o c Pdu.Sim.init
           = (Raise (IndexError "list assignment index out of range"), Pdu.Sim.init))
  /\ Pdu.Sim.get_all_outlet_states Pdu.Sim.init = (Ok [], Pdu.Sim.init)
  /\ Pdu.Sim.number_of_outlets Pdu.Sim.init
     = (Raise (RuntimeError not_initialized_message), Pdu.Sim.init).
Proof.
  intros Hout.
  assert (Hany : forall (t : Pdu.Sim.t) o c,
             (Z.of_nat (length (Pdu.Sim.self_outlet_states t)) < o
              \/ o <= - Z.of_nat (length (Pdu.Sim.self_outlet_states t)))%Z ->
             Pdu.Sim.get_outlet_state o t
             = (Raise (IndexError "list index out of range"), t)
             /\ Pdu.Sim.send_outlet_command o c t
                = (Raise (IndexError "list assignment index out of range"), t)).
  { intros t o c Ho. split.
    - rewrite sim_get_outlet_state_eq, py_getitem_out_of_range by lia. reflexivity.
    - rewrite sim_send_outlet_command_eq, sim_assign_outlet_state_eq.
      rewrite py_setitem_out_of_range by lia. reflexivity. }
  destruct (Hany s outlet command Hout) as [Hget Hsend].
  split; [exact Hget|]. split; [exact Hsend|]. split; [|split; reflexivity].
  intros o c. apply Hany. cbn. lia.
Qed.

Lemma sim_outlets_out_of_range_witness :
  Pdu.Sim.get_outlet_state 17 sim_16
  = (Raise (IndexError "list index out of range"), sim_16)
  /\ Pdu.Sim.send_outlet_command (-16) Pdu.IMMEDIATE_OFF sim_16
     = (Raise (IndexError "list assignment index out of range"), sim_16).
Proof.
  split.
  - apply (sim_outlets_out_of_range sim_16 17 Pdu.IMMEDIATE_ON).
    change (Z.of_nat (length (Pdu.Sim.self_outlet_states sim_16))) with 16%Z. lia.
  - apply (sim_outlets_out_of_range sim_16 (-16) Pdu.IMMEDIATE_OFF).
    change (Z.of_nat (length (Pdu.Sim.self_outlet_states sim_16))) with 16%Z. lia.
Defined.

(** ** Further properties of the Telnet client *)

Lemma telnet_get_outlet_state_accepted (self : TelnetApi.Hw.t)
    (c : TelnetApi.connection) (outlet : Z) :
  (1 <= outlet <= TelnetApi.Hw.self_number_of_outlets self)%Z ->
  TelnetApi.Hw.get_outlet_state outlet (self, c)
  = match TelnetApi.Hw.get_outlet_states (self, c) with
    | (Ok m, w) =>
        (match m !! outlet with
         | Some b => Ok b
         | None => Raise (KeyError outlet)
         end, w)
    | (Raise e, w) => (Raise e, w)
    end.
Proof.
  intros Hrange.
  assert (Hcount : TelnetApi.Hw.self_number_of_outlets self <> 0) by lia.
  unfold TelnetApi.Hw.get_outlet_state.
  index_accepted (telnet_valid_outlet_index self c Hcount).
  unfold bind at 1.
  destruct (TelnetApi.Hw.get_outlet_states (self, c)) as [[m|e] w]; [|reflexivity].
  destruct (m !! outlet); reflexivity.
Qed.

(** X12.  For an outlet inside 1..count the Telnet client asks for the
    whole table once more and looks the outlet up in the mapping of the
    page: it returns the state of the row that has this index, and
    raises [KeyError] when no row of the page has it. *)
Theorem telnet_get_outlet_state_lookup (self : TelnetApi.Hw.t)
    (c : TelnetApi.connection) (outlet : Z) (page : string) (rest : list string)
    (m : gmap Z bool) :
  TelnetApi.Hw.self_connected self = true ->
  (1 <= outlet <= TelnetApi.Hw.self_number_of_outlets self)%Z ->
  TelnetApi.incoming c = page :: rest ->
  TelnetApi.parse_response page = Ok m ->
  m <> ∅ ->
  TelnetApi.Hw.get_outlet_state outlet (self, c)
  = (match m !! outlet with
     | Some b => Ok b
     | None => Raise (KeyError outlet)
     end,
     (self, with_incoming (wrote c [oltsta_show]) rest)).
Proof.
  intros Hconn Hrange Hin Hparse Hne.
  rewrite (telnet_get_outlet_state_accepted _ _ _ Hrange).
  rewrite (telnet_get_outlet_states_connected _ _ Hconn), Hin.
  rewrite (poll_step _ _ _ _ Hparse), (poll_done _ _ _ Hne). reflexivity.
Qed.

Lemma telnet_get_outlet_state_lookup_witness :
  fst (TelnetApi.Hw.get_outlet_state 2 (telnet_hw_8, telnet_connection [example_page]))
  = Ok false
  /\ fst (TelnetApi.Hw.get_outlet_state 5 (telnet_hw_8, telnet_connection [example_page]))
     = Raise (KeyError 5).
Proof.
  split.
  - rewrite (telnet_get_outlet_state_lookup telnet_hw_8 (telnet_connection [example_page])
               2 example_page [] (<[2 := false]> (<[1 := true]> ∅)));
      [reflexivity|reflexivity|simpl; lia|reflexivity|vm_compute; reflexivity
      |apply insert_non_empty].
  - rewrite (telnet_get_outlet_state_lookup telnet_hw_8 (telnet_connection [example_page])
               5 example_page [] (<[2 := false]> (<[1 := true]> ∅)));
      [reflexivity|reflexivity|simpl; lia|reflexivity|vm_compute; reflexivity
      |apply insert_non_empty].
Defined.

Lemma parse_response_page (before : string) (rows : list (row * string)) :
  no_digit before = true ->
  page_ok rows ->
  TelnetApi.parse_response (before ++ page_text rows) = Ok (states_of_rows rows).
Proof.
  intros Hbefore Hrows. unfold TelnetApi.parse_response, TelnetApi.findall.
  rewrite (findall_junk _ _ Hbefore), (findall_page _ Hrows).
  apply (states_of_matches_rows _ Hrows).
Qed.

Lemma fold_insert_size (entries : list (Z * bool)) :
  NoDup (map fst entries) ->
  size (fold_left (fun (acc : gmap Z bool) e => <[fst e := snd e]> acc) entries ∅)
  = length entries.
Proof.
  induction entries as [|[k0 b0] entries IH] using rev_ind; intros Hnd.
  - reflexivity.
  - pose proof Hnd as Hnd'. rewrite map_app in Hnd'.
    apply NoDup_app in Hnd' as (Hnd' & Hfresh & _).
    rewrite fold_left_app, length_app. cbn [fold_left fst snd length].
    rewrite map_size_insert_None, (IH Hnd'); [lia|].
    destruct (fold_left _ entries ∅ !! k0) as [b|] eqn:Hlook; [|reflexivity].
    apply (fold_insert_lookup entries Hnd') in Hlook. exfalso. apply (Hfresh k0).
    + apply list_elem_of_In, in_map_iff. exists (k0, b). split; [reflexivity|exact Hlook].
    + cbn [map fst]. apply list_elem_of_In. left. reflexivity.
Qed.

Lemma states_of_rows_size (rows : list (row * string)) :
  NoDup (row_keys rows) -> size (states_of_rows rows) = length rows.
Proof.
  intros Hnd. rewrite states_of_rows_entries, fold_insert_size.
  - apply length_map.
  - rewrite map_map. exact Hnd.
Qed.

Lemma states_of_rows_non_empty (rows : list (row * string)) :
  rows <> [] -> states_of_rows rows <> ∅.
Proof.
  intros Hne. rewrite states_of_rows_entries.
  destruct rows as [|ra rows] using rev_ind; [contradiction|].
  rewrite map_app, fold_left_app. cbn [map fold_left]. apply insert_non_empty.
Qed.



(** X14.  [close] of the Telnet client, once the streams exist, writes
    [exit], reads what is left to the end and closes the writer; the
    object keeps its count.  On a client whose streams were never
    opened it raises [AttributeError] and writes nothing. *)
Theorem telnet_close_outcome (self : TelnetApi.Hw.t) (c : TelnetApi.connection) :
  TelnetApi.Hw.close (self, c)
  = if TelnetApi.Hw.self_connected self
    then (Ok tt, (self, closed_connection c))
    else (Raise (AttributeError
            "'AsyncTelnetCyberPowerPDUHardware' object has no attribute '_AsyncTelnetCyberPowerPDUHardware__writer'"),
          (self, c)).
Proof.
  destruct self as [ip count [|]]; reflexivity.
Qed.

(** *** The word of the state *)

Lemma is_space_lower_char (ch : ascii) :
  TelnetApi.is_space (TelnetApi.lower_char ch) = TelnetApi.is_space ch.
Proof. destruct ch as [[] [] [] [] [] [] [] []]; reflexivity. Qed.

Lemma lstrip_spaces (pre s : string) :
  all_chars TelnetApi.is_space pre = true ->
  TelnetApi.lstrip (pre ++ s) = TelnetApi.lstrip s.
Proof.
  induction pre as [|ch pre IH]; [reflexivity|]. simpl. intros H.
  apply andb_true_iff in H as [Hch Hpre]. rewrite Hch. apply IH. exact Hpre.
Qed.

Lemma lstrip_first (s : string) :
  first_is TelnetApi.is_space s = false -> TelnetApi.lstrip s = s.
Proof. destruct s as [|ch s]; [reflexivity|]. simpl. intros ->. reflexivity. Qed.

Lemma rstrip_spaces (post : string) :
  all_chars TelnetApi.is_space post = true -> TelnetApi.rstrip post = "".
Proof.
  induction post as [|ch post IH]; [reflexivity|]. simpl. intros H.
  apply andb_true_iff in H as [Hch Hpost]. rewrite (IH Hpost), Hch. reflexivity.
Qed.

Lemma rstrip_append_spaces (s post : string) :
  all_chars TelnetApi.is_space post = true ->
  TelnetApi.rstrip (s ++ post) = TelnetApi.rstrip s.
Proof.
  intros Hpost. induction s as [|ch s IH].
  - cbn [String.append]. rewrite rstrip_spaces by exact Hpost. reflexivity.
  - cbn [String.append TelnetApi.rstrip]. rewrite IH. reflexivity.
Qed.

Lemma lower_no_space (s : string) :
  all_chars (fun ch => negb (TelnetApi.is_space ch)) (TelnetApi.lower s)
  = all_chars (fun ch => negb (TelnetApi.is_space ch)) s.
Proof.
  induction s as [|ch s IH]; [reflexivity|]. simpl.
  rewrite is_space_lower_char, IH. reflexivity.
Qed.

Lemma strip_padded (pre core post : string) :
  all_chars TelnetApi.is_space pre = true ->
  all_chars TelnetApi.is_space post = true ->
  non_empty core = true ->
  all_chars (fun ch => negb (TelnetApi.is_space ch)) core = true ->
  TelnetApi.strip (pre ++ core ++ post) = core.
Proof.
  intros Hpre Hpost Hne Hcore. unfold TelnetApi.strip.
  rewrite (lstrip_spaces _ _ Hpre), lstrip_first.
  - rewrite (rstrip_append_spaces _ _ Hpost). apply rstrip_no_space. exact Hcore.
  - destruct core as [|ch core]; [discriminate|]. simpl in *.
    apply andb_true_iff in Hcore as [Hch _]. apply negb_true_iff. exact Hch.
Qed.

(** X15.  [convert_telnet_string_to_bool] reads the word whatever the
    case of its letters and whatever white space stands around it: a
    text whose core is [on] in any case gives true, one whose core is
    [off] in any case gives false. *)
Theorem convert_telnet_string_any_case (pre core post : string) :
  all_chars TelnetApi.is_space pre = true ->
  all_chars TelnetApi.is_space post = true ->
  (TelnetApi.lower core = "on"
   -> TelnetApi.convert_telnet_string_to_bool (pre ++ core ++ post) = Ok true)
  /\ (TelnetApi.lower core = "off"
      -> TelnetApi.convert_telnet_string_to_bool (pre ++ core ++ post) = Ok false).
Proof.
  intros Hpre Hpost.
  assert (Hstrip : forall word,
             TelnetApi.lower core = word ->
             non_empty word = true ->
             all_chars (fun ch => negb (TelnetApi.is_space ch)) word = true ->
             TelnetApi.lower (TelnetApi.strip (pre ++ core ++ post)) = word).
  { intros word Hword Hne Hns. rewrite strip_padded; try assumption.
    - destruct core; [subst word; discriminate|reflexivity].
    - rewrite <- lower_no_space, Hword. exact Hns. }
  split; intros Hcore; unfold TelnetApi.convert_telnet_string_to_bool;
    rewrite (Hstrip _ Hcore); reflexivity.
Qed.

Lemma convert_telnet_string_any_case_witness :
  TelnetApi.convert_telnet_string_to_bool ("  " ++ "oN" ++ CRLF) = Ok true
  /\ TelnetApi.convert_telnet_string_to_bool (" " ++ "OFF" ++ "") = Ok false.
Proof.
  split.
  - apply (convert_telnet_string_any_case "  " "oN" CRLF); reflexivity.
  - apply (convert_telnet_string_any_case " " "OFF" ""); reflexivity.
Defined.

(** *** The parser on any page *)

Lemma decimal_value_nonneg (s : string) :
  forall acc, (0 <= acc)%Z -> (0 <= decimal_value acc s)%Z.
Proof.
  induction s as [|ch s IH]; intros acc Hacc; [exact Hacc|].
  cbn [decimal_value]. apply IH. lia.
Qed.

Lemma states_of_matches_keys (matches : list (list string)) :
  Forall match_shape matches ->
  forall acc,
    (forall k, is_Some (acc !! k) -> (0 <= k)%Z) ->
    exists m,
      TelnetApi.states_of_matches acc matches = Ok m
      /\ forall k, is_Some (m !! k) -> (0 <= k)%Z.
Proof.
  induction 1 as [|g matches (d & lit & -> & Hd & Hd' & Hlit) _ IH]; intros acc Hacc.
  - exists acc. split; [reflexivity|exact Hacc].
  - cbn [TelnetApi.states_of_matches]. rewrite (int_of_str_digits _ Hd Hd').
    assert (Hins : forall b k,
               is_Some (<[decimal_value 0 d := b]> acc !! k) -> (0 <= k)%Z).
    { intros b k Hk. destruct (decide (decimal_value 0 d = k)) as [<-|Hne].
      - apply decimal_value_nonneg. lia.
      - rewrite lookup_insert_ne in Hk by exact Hne. apply Hacc. exact Hk. }
    destruct Hlit as [->| ->].
    + change (TelnetApi.convert_telnet_string_to_bool "On") with (@Ok bool true).
      apply IH, Hins.
    + change (TelnetApi.convert_telnet_string_to_bool "Off") with (@Ok bool false).
      apply IH, Hins.
Qed.


(** *** The query, for any number of pages *)

Lemma poll_all_empty (pages : list string) :
  forall (c : TelnetApi.connection),
    TelnetApi.incoming c = pages ->
    Forall (fun page => TelnetApi.findall TelnetApi.pattern page = []) pages ->
    TelnetApi.Hw.poll ∅ pages c
    = (Raise (IncompleteReadError ""),
       with_incoming (wrote c (repeat oltsta_show (S (length pages)))) []).
Proof.
  induction pages as [|page pages IH]; intros c Hin Hall.
  - cbn [TelnetApi.Hw.poll].
    destruct (decide ((∅ : gmap Z bool) = ∅)) as [_|Hne]; [|contradiction].
    destruct c as [up written incoming closed]. cbn in Hin. subst incoming.
    reflexivity.
  - inversion Hall as [|? ? Hpage Hrest]; subst.
    rewrite (poll_step _ _ _ _ (parse_response_no_match _ Hpage)).
    rewrite (IH (with_incoming (wrote c [oltsta_show]) pages) eq_refl Hrest).
    cbn [length repeat].
    rewrite wrote_with_incoming, with_incoming_twice, wrote_wrote. reflexivity.
Qed.

(** X17.  The query of the Telnet client is written once for every page
    read: when k pages without a match come before a page with rows,
    the query has been written k + 1 times and the mapping of that page
    is returned; when every page that comes has no match, the query is
    written once more than there are pages and the end of the stream
    raises [IncompleteReadError]. *)
Theorem telnet_query_polls (self : TelnetApi.Hw.t) (c : TelnetApi.connection)
    (empties : list string) :
  TelnetApi.Hw.self_connected self = true ->
  Forall (fun page => TelnetApi.findall TelnetApi.pattern page = []) empties ->
  (forall page rest m,
     TelnetApi.incoming c = (empties ++ page :: rest)%list ->
     TelnetApi.parse_response page = Ok m ->
     m <> ∅ ->
     TelnetApi.Hw.get_outlet_states (self, c)
     = (Ok m,
        (self, with_incoming (wrote c (repeat oltsta_show (S (length empties)))) rest)))
  /\ (TelnetApi.incoming c = empties ->
      TelnetApi.Hw.get_outlet_states (self, c)
      = (Raise (IncompleteReadError ""),
         (self, with_incoming (wrote c (repeat oltsta_show (S (length empties)))) []))).
Proof.
  intros Hconn Hemp. split.
  - intros page rest m Hin Hparse Hne.
    rewrite (telnet_get_outlet_states_connected _ _ Hconn), Hin.
    rewrite (poll_retries empties page rest c m Hemp Hparse Hne). reflexivity.
  - intros Hin. rewrite (telnet_get_outlet_states_connected _ _ Hconn), Hin.
    rewrite (poll_all_empty empties c Hin Hemp). reflexivity.
Qed.

(** *** One match at a position *)

(** X18.  At a given position the pattern of the Telnet client matches
    in one way only as far as the result goes: the matcher may split
    the name and the digits after it in several ways, but every way
    gives the same two groups and leaves the same rest of the text, so
    the row that [findall] reports does not depend on the order in
    which the ways are tried. *)
Theorem pattern_match_unambiguous (s t t' : string) (g g' : list string) :
  In (g, t) (TelnetApi.exec TelnetApi.pattern s) ->
  In (g', t') (TelnetApi.exec TelnetApi.pattern s) ->
  g = g' /\ t = t'.
Proof.
  intros H H'.
  apply exec_pattern_in in H
    as (d & w1 & n1 & n2 & w2 & lit
        & [Hd Hd'] & [Hw1 Hw1'] & [Hn1 Hn1'] & [Hn2 Hn2'] & [Hw2 Hw2'] & Hlit & Hs & ->).
  apply exec_pattern_in in H'
    as (e & v1 & m1 & m2 & v2 & lit'
        & [He He'] & [Hv1 Hv1'] & [Hm1 Hm1'] & [Hm2 Hm2'] & [Hv2 Hv2'] & Hlit' & Hs' & ->).
  rewrite Hs in Hs'. clear Hs.
  apply (run_unique TelnetApi.is_digit) in Hs' as [<- Hs']; try assumption;
    try (apply (first_is_other _ TelnetApi.is_space); [apply space_not_digit| |]; assumption).
  apply (run_unique TelnetApi.is_space) in Hs' as [<- Hs']; try assumption;
    try (apply (first_is_other _ TelnetApi.is_word); [apply word_not_space| |]; assumption).
  rewrite <- (append_assoc n1 n2), <- (append_assoc m1 m2) in Hs'.
  assert (Hword : forall a b,
             all_chars TelnetApi.is_word a = true ->
             all_chars TelnetApi.is_digit b = true ->
             all_chars TelnetApi.is_word (a ++ b) = true).
  { intros a b Ha Hb. rewrite all_chars_append, Ha.
    apply (all_chars_impl _ _ _ digit_is_word Hb). }
  apply (run_unique TelnetApi.is_word) in Hs' as [_ Hs']; try (apply Hword; assumption);
    try (apply (first_is_other _ TelnetApi.is_space); [apply space_not_word| |]; assumption).
  apply (run_unique TelnetApi.is_space) in Hs' as [_ Hs']; try assumption;
    try (apply first_not_space_lit; assumption).
  destruct Hlit as [->| ->], Hlit' as [->| ->]; cbn in Hs';
    try discriminate Hs'; injection Hs' as ->; split; reflexivity.
Qed.

Lemma pattern_match_unambiguous_witness :
  In (["1"; "On"], CRLF) (TelnetApi.exec TelnetApi.pattern ("1  Outlet12  On" ++ CRLF))
  /\ (length (TelnetApi.exec TelnetApi.pattern ("1  Outlet12  On" ++ CRLF)) = 2)%nat
  /\ forall g t,
       In (g, t) (TelnetApi.exec TelnetApi.pattern ("1  Outlet12  On" ++ CRLF)) ->
       g = ["1"; "On"] /\ t = CRLF.
Proof.
  assert (Hin : In (["1"; "On"], CRLF)
                  (TelnetApi.exec TelnetApi.pattern ("1  Outlet12  On" ++ CRLF))).
  { vm_compute. left. reflexivity. }
  split; [exact Hin|]. split; [vm_compute; reflexivity|].
  intros g t H.
  exact (pattern_match_unambiguous ("1  Outlet12  On" ++ CRLF) t CRLF g ["1"; "On"] H Hin).
Defined.

Lemma telnet_query_polls_witness :
  TelnetApi.Hw.get_outlet_states
    (telnet_hw_8, telnet_connection [garbled_page; garbled_page; example_page])
  = (Ok (<[2 := false]> (<[1 := true]> ∅)),
     (telnet_hw_8,
      with_incoming
        (wrote (telnet_connection [garbled_page; garbled_page; example_page])
               [oltsta_show; oltsta_show; oltsta_show])
        []))
  /\ TelnetApi.Hw.get_outlet_states
       (telnet_hw_8, telnet_connection [garbled_page; garbled_page])
     = (Raise (IncompleteReadError ""),
        (telnet_hw_8,
         with_incoming
           (wrote (telnet_connection [garbled_page; garbled_page])
                  [oltsta_show; oltsta_show; oltsta_show])
           [])).
Proof.
  assert (Hemp : Forall (fun page => TelnetApi.findall TelnetApi.pattern page = [])
                   [garbled_page; garbled_page]).
  { repeat constructor. }
  split.
  - apply (proj1 (telnet_query_polls telnet_hw_8
                    (telnet_connection [garbled_page; garbled_page; example_page])
                    [garbled_page; garbled_page] eq_refl Hemp)
             example_page [] (<[2 := false]> (<[1 := true]> ∅))).
    + reflexivity.
    + vm_compute. reflexivity.
    + apply insert_non_empty.
  - apply (proj2 (telnet_query_polls telnet_hw_8
                    (telnet_connection [garbled_page; garbled_page])
                    [garbled_page; garbled_page] eq_refl Hemp)).
    reflexivity.
Defined.

(** ** The window of [gui.py] *)

Lemma for_each_app {W A B} (f : A -> M W B) (xs ys : list A) (w : W) :
  for_each f (xs ++ ys)%list w
  = match for_each f xs w with
    | (Ok a, w1) =>
        match for_each f ys w1 with
        | (Ok b, w2) => (Ok (a ++ b)%list, w2)
        | (Raise e, w2) => (Raise e, w2)
        end
    | (Raise e, w1) => (Raise e, w1)
    end.
Proof.
  revert w. induction xs as [|x xs IH]; intros w.
  - cbn [app for_each]. unfold ret.
    destruct (for_each f ys w) as [[b|e] w2]; reflexivity.
  - cbn [app]. rewrite !for_each_cons. destruct (f x w) as [[y|e] w1]; [|reflexivity].
    rewrite IH. destruct (for_each f xs w1) as [[a|e] w2]; [|reflexivity].
    destruct (for_each f ys w2) as [[b|e] w3]; reflexivity.
Qed.

Lemma range_from_zero (n : nat) :
  range 0 (Z.of_nat n) = map Z.of_nat (seq 0 n).
Proof.
  unfold range. rewrite Z.sub_0_r, Nat2Z.id. apply map_ext. intros k. lia.
Qed.

Lemma update_outlet_control_eq (g : Gui.t) (net : Pdu.network) (index : Z)
    (f : Gui.OutletControl -> Gui.OutletControl) :
  Gui.update_outlet_control index f (g, net)
  = match Pdu.py_getitem (Gui.self_outlet_controls g) index with
    | Ok c =>
        match Pdu.py_setitem (Gui.self_outlet_controls g) index (f c) with
        | Ok l => (Ok tt, (Gui.set_outlet_controls l g, net))
        | Raise e => (Raise e, (g, net))
        end
    | Raise e => (Raise e, (g, net))
    end.
Proof.
  unfold Gui.update_outlet_control, bind, get_self, gets, lift, set_self, modify.
  cbn [fst snd].
  destruct (Pdu.py_getitem (Gui.self_outlet_controls g) index) as [c|e]; [|reflexivity].
  destruct (Pdu.py_setitem (Gui.self_outlet_controls g) index (f c)); reflexivity.
Qed.

Lemma enable_first_step (n : nat) (l : list Gui.OutletControl) (c : Gui.OutletControl) :
  l !! n = Some c ->
  <[n := Gui.setEnabled true c]> (enable_first n l) = enable_first (S n) l.
Proof.
  intros Hc. unfold enable_first.
  assert (Hn : (n < length l)%nat) by (apply lookup_lt_is_Some; eauto).
  rewrite insert_app_r_alt by (rewrite length_map, length_take; lia).
  rewrite length_map, length_take, Nat.min_l, Nat.sub_diag by lia.
  rewrite (take_S_r l n c Hc), (drop_S l c n Hc). cbn [insert list_insert].
  rewrite map_app, <- app_assoc. reflexivity.
Qed.

Lemma enable_first_lookup (n : nat) (l : list Gui.OutletControl) :
  enable_first n l !! n = l !! n.
Proof.
  unfold enable_first. destruct (le_lt_dec (length l) n) as [Hge|Hlt].
  - rewrite take_ge, drop_ge by lia. rewrite app_nil_r.
    rewrite !lookup_ge_None_2; [reflexivity|lia|rewrite length_map; lia].
  - rewrite lookup_app_r by (rewrite length_map, length_take; lia).
    rewrite length_map, length_take, Nat.min_l, Nat.sub_diag by lia.
    rewrite lookup_drop, Nat.add_0_r. reflexivity.
Qed.

Lemma enable_first_length (n : nat) (l : list Gui.OutletControl) :
  length (enable_first n l) = length l.
Proof.
  unfold enable_first. rewrite length_app, length_map, length_take, length_drop. lia.
Qed.

Lemma enable_first_all (n : nat) (l : list Gui.OutletControl) :
  (length l <= n)%nat -> enable_first n l = map (Gui.setEnabled true) l.
Proof.
  intros Hn. unfold enable_first. rewrite take_ge, drop_ge by lia. apply app_nil_r.
Qed.

Lemma set_outlet_controls_same (g : Gui.t) :
  Gui.set_outlet_controls (Gui.self_outlet_controls g) g = g.
Proof. destruct g. reflexivity. Qed.

(** The loop that enables the controls, as long as there are controls. *)
Lemma enable_loop (n : nat) (g : Gui.t) (net : Pdu.network) :
  (n <= length (Gui.self_outlet_controls g))%nat ->
  for_each (fun index => Gui.update_outlet_control index (Gui.setEnabled true))
    (range 0 (Z.of_nat n)) (g, net)
  = (Ok (repeat tt n),
     (Gui.set_outlet_controls (enable_first n (Gui.self_outlet_controls g)) g, net)).
Proof.
  rewrite range_from_zero. induction n as [|n IH]; intros Hn.
  - cbn [seq map for_each repeat]. unfold ret.
    change (enable_first 0 (Gui.self_outlet_controls g)) with (Gui.self_outlet_controls g).
    rewrite set_outlet_controls_same. reflexivity.
  - rewrite seq_S, map_app, for_each_app, IH by lia. cbn [map Nat.add].
    rewrite for_each_cons, update_outlet_control_eq.
    change (Gui.self_outlet_controls (Gui.set_outlet_controls ?l g)) with l.
    destruct (lookup_lt_is_Some_2 (Gui.self_outlet_controls g) n ltac:(lia)) as [c Hc].
    rewrite py_getitem_index by lia. rewrite Nat2Z.id, enable_first_lookup, Hc.
    rewrite py_setitem_index by (rewrite enable_first_length; lia).
    rewrite Nat2Z.id, (enable_first_step _ _ _ Hc).
    cbn [for_each]. unfold ret.
    replace (repeat tt n ++ [tt])%list with (repeat tt (S n))
      by (rewrite <- repeat_cons; reflexivity).
    reflexivity.
Qed.

(** The same loop when the count is larger than the number of controls:
    every control is enabled, then the index runs off the list. *)
Lemma enable_loop_overflow (n : Z) (g : Gui.t) (net : Pdu.network) :
  (Z.of_nat (length (Gui.self_outlet_controls g)) < n)%Z ->
  for_each (fun index => Gui.update_outlet_control index (Gui.setEnabled true))
    (range 0 n) (g, net)
  = (Raise (IndexError "list index out of range"),
     (Gui.set_outlet_controls
        (map (Gui.setEnabled true) (Gui.self_outlet_controls g)) g, net)).
Proof.
  intros Hn. set (m := length (Gui.self_outlet_controls g)) in *.
  replace n with (Z.of_nat (m + S (Z.to_nat n - S m))) by lia.
  rewrite range_from_zero, seq_app, map_app, for_each_app.
  rewrite <- range_from_zero, enable_loop by reflexivity.
  fold m. rewrite enable_first_all by reflexivity.
  cbn [seq map Nat.add]. rewrite for_each_cons, update_outlet_control_eq.
  change (Gui.self_outlet_controls (Gui.set_outlet_controls ?l g)) with l.
  rewrite py_getitem_out_of_range by (rewrite length_map; fold m; lia).
  reflexivity.
Qed.

Lemma pdu_hw_initialize_eq (self : Pdu.Hw.t) (net : Pdu.network) :
  Pdu.Hw.initialize (self, net)
  = (match Pdu.agent net (Pdu.sent net)
             (Pdu.Get (pdu_client (Pdu.Hw.self_ip_address self)) outlet_count_oid)
     with
     | Ok _ => Ok tt
     | Raise e => Raise e
     end,
     ({| Pdu.Hw.self_ip_address := Pdu.Hw.self_ip_address self;
         Pdu.Hw.self_number_of_outlets :=
           match Pdu.agent net (Pdu.sent net)
                   (Pdu.Get (pdu_client (Pdu.Hw.self_ip_address self)) outlet_count_oid)
           with
           | Ok n => n
           | Raise _ => Pdu.Hw.self_number_of_outlets self
           end;
         Pdu.Hw.self_client := Some (pdu_client (Pdu.Hw.self_ip_address self)) |},
      pdu_after net
        (Pdu.Get (pdu_client (Pdu.Hw.self_ip_address self)) outlet_count_oid))).
Proof.
  unfold Pdu.Hw.initialize, Pdu.Hw.get_number_of_outlets, Pdu.Hw.client_get,
    bind, set_self, get_self, gets, modify, on_network, Pdu.exchange; simpl.
  fold (pdu_client (Pdu.Hw.self_ip_address self)). fold outlet_count_oid.
  destruct (Pdu.agent net (Pdu.sent net) _) as [n|e]; reflexivity.
Qed.

Lemma on_pdu_eq {A} (m : M (Pdu.session * Pdu.network) A) (g : Gui.t)
    (net : Pdu.network) (p : Pdu.session) :
  Gui.self_pdu g = Some p ->
  Gui.on_pdu m (g, net)
  = match m (p, net) with (r, (p', n')) => (r, (Gui.set_pdu p' g, n')) end.
Proof. intros Hp. unfold Gui.on_pdu. cbn [fst snd]. rewrite Hp. reflexivity. Qed.

Lemma on_pdu_set_pdu {A} (m : M (Pdu.session * Pdu.network) A) (g : Gui.t)
    (net : Pdu.network) (p : Pdu.session) :
  Gui.on_pdu m (Gui.set_pdu p g, net)
  = match m (p, net) with (r, (p', n')) => (r, (Gui.set_pdu p' g, n')) end.
Proof.
  rewrite (on_pdu_eq m (Gui.set_pdu p g) net p eq_refl).
  destruct (m (p, net)) as [r [p' n']]. reflexivity.
Qed.

Lemma forward_hardware_eq {A} (sim : M Pdu.Sim.t A) (hw : M (Pdu.Hw.t * Pdu.network) A)
    (h : Pdu.Hw.t) (net : Pdu.network) :
  Pdu.forward sim hw (Pdu.Hardware h, net)
  = match hw (h, net) with (r, (h', n')) => (r, (Pdu.Hardware h', n')) end.
Proof. reflexivity. Qed.

Lemma range_to_nat (n : Z) : range 0 n = range 0 (Z.of_nat (Z.to_nat n)).
Proof. unfold range. rewrite !Z.sub_0_r, Nat2Z.id. reflexivity. Qed.

(** [try_ip_address] up to the calls on the PDU. *)
Lemma try_ip_address_with_eq (simulate : bool) (g : Gui.t) (net : Pdu.network) :
  Gui.try_ip_address_with simulate (g, net)
  = match
      (do* Gui.on_pdu Pdu.initialize in
       let* n := Gui.on_pdu Pdu.number_of_outlets in
       do* set_self (Gui.set_number_of_outlets n) in
       do* for_each (fun index => Gui.update_outlet_control index (Gui.setEnabled true))
                    (range 0 n) in
       Gui.emit Gui.signal_connected_to_ip_address)
        (Gui.set_pdu (Pdu.init (Gui.self_ip_address g) 161 simulate)
           (Gui.set_label ("Trying IP address: " ++ Gui.self_ip_address g) g), net)
    with
    | (Ok a, w') => (Ok a, w')
    | (Raise _, w') => Gui.emit Gui.signal_failed_to_connect_to_ip_address w'
    end.
Proof. reflexivity. Qed.

(** X19.  The window as the module is written, with the constant
    [SIMULATE_HARDWARE] true: whatever address the line edit holds,
    [try_ip_address] ends without error, holds a simulated PDU of 16
    outlets, keeps the count 16, has enabled the first sixteen controls,
    has emitted the signal of the connection and no other, and has sent
    nothing to the network. *)
Theorem gui_try_ip_address_simulated (g : Gui.t) (net : Pdu.network) :
  (16 <= length (Gui.self_outlet_controls g))%nat ->
  Gui.try_ip_address (g, net)
  = (Ok tt,
     (gui_tried g (Pdu.Simulated sim_16) 16
        (enable_first 16 (Gui.self_outlet_controls g))
        Gui.signal_connected_to_ip_address,
      net)).
Proof.
  intros Hlen.
  unfold Gui.try_ip_address, Gui.SIMULATE_HARDWARE. rewrite try_ip_address_with_eq.
  unfold bind at 1. rewrite on_pdu_set_pdu.
  change (Pdu.initialize (Pdu.init (Gui.self_ip_address g) 161 true, net))
    with (@Ok unit tt, (Pdu.Simulated sim_16, net)).
  cbv iota beta.
  unfold bind at 1. rewrite on_pdu_set_pdu.
  change (Pdu.number_of_outlets (Pdu.Simulated sim_16, net))
    with (@Ok Z 16, (Pdu.Simulated sim_16, net)).
  cbv iota beta.
  unfold bind at 1. unfold set_self at 1, modify at 1. cbn [fst snd].
  unfold bind at 1.
  change 16%Z with (Z.of_nat 16).
  rewrite enable_loop by exact Hlen.
  reflexivity.
Qed.

Lemma gui_try_ip_address_simulated_witness :
  Gui.try_ip_address (gui_with_address "192.168.20.177", pdu_network_with 8 2)
  = (Ok tt,
     (gui_tried (gui_with_address "192.168.20.177") (Pdu.Simulated sim_16) 16
        (enable_first 16 (Gui.self_outlet_controls Gui.init))
        Gui.signal_connected_to_ip_address,
      pdu_network_with 8 2)).
Proof.
  apply (gui_try_ip_address_simulated (gui_with_address "192.168.20.177")
           (pdu_network_with 8 2)).
  vm_compute. lia.
Defined.

(** X20.  The same method with the constant false, so that the window
    holds the puresnmp client: one request for the count is sent, and
    exactly one signal is emitted.  When the read raises, or gives 0,
    the signal is the one of the failure and the count and the controls
    of the window are as before.  When the read gives a count that is
    not 0 and not above the number of controls, the count is kept, the
    first controls up to the count are enabled (none for a negative
    count) and the signal is the one of the connection.  When the count
    is above the number of controls, every control is enabled, the
    count is kept, and the index that runs off the list makes the
    signal the one of the failure. *)
Theorem gui_try_ip_address_hardware (g : Gui.t) (net : Pdu.network) :
  let ip := Gui.self_ip_address g in
  let rq := Pdu.Get (pdu_client ip) outlet_count_oid in
  let l := Gui.self_outlet_controls g in
  (forall e,
     Pdu.agent net (Pdu.sent net) rq = Raise e ->
     Gui.try_ip_address_with false (g, net)
     = (Ok tt,
        (gui_tried g (pdu_hw_counted ip 0) (Gui.self_number_of_outlets g) l
           Gui.signal_failed_to_connect_to_ip_address,
         pdu_after net rq)))
  /\ (Pdu.agent net (Pdu.sent net) rq = Ok 0 ->
      Gui.try_ip_address_with false (g, net)
      = (Ok tt,
         (gui_tried g (pdu_hw_counted ip 0) (Gui.self_number_of_outlets g) l
            Gui.signal_failed_to_connect_to_ip_address,
          pdu_after net rq)))
  /\ (forall n,
        Pdu.agent net (Pdu.sent net) rq = Ok n ->
        n <> 0 ->
        (n <= Z.of_nat (length l))%Z ->
        Gui.try_ip_address_with false (g, net)
        = (Ok tt,
           (gui_tried g (pdu_hw_counted ip n) n (enable_first (Z.to_nat n) l)
              Gui.signal_connected_to_ip_address,
            pdu_after net rq)))
  /\ (forall n,
        Pdu.agent net (Pdu.sent net) rq = Ok n ->
        (Z.of_nat (length l) < n)%Z ->
        Gui.try_ip_address_with false (g, net)
        = (Ok tt,
           (gui_tried g (pdu_hw_counted ip n) n (map (Gui.setEnabled true) l)
              Gui.signal_failed_to_connect_to_ip_address,
            pdu_after net rq))).
Proof.
  intros ip rq l.
  assert (Hinit : forall r,
             Pdu.agent net (Pdu.sent net) rq = r ->
             Pdu.initialize (Pdu.init ip 161 false, net)
             = (match r with Ok _ => Ok tt | Raise e => Raise e end,
                (pdu_hw_counted ip match r with Ok n => n | Raise _ => 0 end,
                 pdu_after net rq))).
  { intros r Hr. unfold Pdu.initialize, Pdu.init. rewrite forward_hardware_eq.
    rewrite pdu_hw_initialize_eq.
    change (Pdu.Hw.self_ip_address (Pdu.Hw.init ip 161)) with ip.
    fold rq. rewrite Hr. reflexivity. }
  assert (Hcount : forall n net',
             Pdu.number_of_outlets (pdu_hw_counted ip n, net')
             = (if (n =? 0)%Z
                then Raise (RuntimeError
                  "The `initialize` must be called to populate the `number_of_outlets` property")
                else Ok n, (pdu_hw_counted ip n, net'))).
  { intros n net'. unfold Pdu.number_of_outlets, pdu_hw_counted.
    rewrite forward_hardware_eq.
    unfold Pdu.Hw.number_of_outlets, bind, get_self, gets. cbn [fst snd].
    cbn [Pdu.Hw.self_number_of_outlets].
    destruct (n =? 0)%Z; reflexivity. }
  assert (Hstart : forall n,
             Pdu.agent net (Pdu.sent net) rq = Ok n ->
             n <> 0 ->
             Gui.try_ip_address_with false (g, net)
             = match
                 for_each
                   (fun index => Gui.update_outlet_control index (Gui.setEnabled true))
                   (range 0 n)
                   (Gui.set_number_of_outlets n
                      (Gui.set_pdu (pdu_hw_counted ip n)
                         (Gui.set_label ("Trying IP address: " ++ ip) g)),
                    pdu_after net rq)
               with
               | (Ok _, w') => Gui.emit Gui.signal_connected_to_ip_address w'
               | (Raise _, w') => Gui.emit Gui.signal_failed_to_connect_to_ip_address w'
               end).
  { intros n Hn Hnz. rewrite try_ip_address_with_eq. fold ip.
    unfold bind at 1. rewrite on_pdu_set_pdu, (Hinit _ Hn). cbv iota beta.
    unfold bind at 1. rewrite on_pdu_set_pdu, Hcount.
    destruct (Z.eqb_spec n 0) as [Hz|_]; [contradiction|]. cbv iota beta.
    unfold bind at 1. unfold set_self at 1, modify at 1. cbn [fst snd].
    unfold bind at 1.
    destruct (for_each _ (range 0 n) _) as [[u|e] w']; [|reflexivity].
    destruct (Gui.emit Gui.signal_connected_to_ip_address w') as [[[]|e] w''] eqn:He;
      [reflexivity|discriminate He]. }
  split; [|split; [|split]].
  - intros e He. rewrite try_ip_address_with_eq. fold ip.
    unfold bind at 1. rewrite on_pdu_set_pdu, (Hinit _ He). reflexivity.
  - intros H0. rewrite try_ip_address_with_eq. fold ip.
    unfold bind at 1. rewrite on_pdu_set_pdu, (Hinit _ H0). cbv iota beta.
    unfold bind at 1. rewrite on_pdu_set_pdu, Hcount. reflexivity.
  - intros n Hn Hnz Hle. rewrite (Hstart n Hn Hnz).
    rewrite range_to_nat, enable_loop by (cbn; fold l; lia). reflexivity.
  - intros n Hn Hgt. rewrite (Hstart n Hn) by lia.
    rewrite enable_loop_overflow by (cbn; fold l; lia). reflexivity.
Qed.

Lemma gui_try_ip_address_hardware_witness :
  Gui.try_ip_address_with false (gui_with_address "192.168.20.177", pdu_network_silent)
  = (Ok tt,
     (gui_tried (gui_with_address "192.168.20.177")
        (pdu_hw_counted "192.168.20.177" 0) 0 (Gui.self_outlet_controls Gui.init)
        Gui.signal_failed_to_connect_to_ip_address,
      pdu_after pdu_network_silent
        (Pdu.Get (pdu_client "192.168.20.177") outlet_count_oid)))
  /\ Gui.try_ip_address_with false
       (gui_with_address "192.168.20.177", pdu_network_with 0 1)
     = (Ok tt,
        (gui_tried (gui_with_address "192.168.20.177")
           (pdu_hw_counted "192.168.20.177" 0) 0 (Gui.self_outlet_controls Gui.init)
           Gui.signal_failed_to_connect_to_ip_address,
         pdu_after (pdu_network_with 0 1)
           (Pdu.Get (pdu_client "192.168.20.177") outlet_count_oid)))
  /\ Gui.try_ip_address_with false
       (gui_with_address "192.168.20.177", pdu_network_with 8 1)
     = (Ok tt,
        (gui_tried (gui_with_address "192.168.20.177")
           (pdu_hw_counted "192.168.20.177" 8) 8
           (enable_first 8 (Gui.self_outlet_controls Gui.init))
           Gui.signal_connected_to_ip_address,
         pdu_after (pdu_network_with 8 1)
           (Pdu.Get (pdu_client "192.168.20.177") outlet_count_oid)))
  /\ Gui.try_ip_address_with false
       (gui_with_address "192.168.20.177", pdu_network_with 24 1)
     = (Ok tt,
        (gui_tried (gui_with_address "192.168.20.177")
           (pdu_hw_counted "192.168.20.177" 24) 24
           (map (Gui.setEnabled true) (Gui.self_outlet_controls Gui.init))
           Gui.signal_failed_to_connect_to_ip_address,
         pdu_after (pdu_network_with 24 1)
           (Pdu.Get (pdu_client "192.168.20.177") outlet_count_oid))).
Proof.
  split; [|split; [|split]].
  - apply (proj1 (gui_try_ip_address_hardware
                    (gui_with_address "192.168.20.177") pdu_network_silent)
             (LibraryError "Timeout" "no response")).
    reflexivity.
  - apply (proj1 (proj2 (gui_try_ip_address_hardware
                           (gui_with_address "192.168.20.177") (pdu_network_with 0 1)))).
    reflexivity.
  - apply (proj1 (proj2 (proj2 (gui_try_ip_address_hardware
                                  (gui_with_address "192.168.20.177")
                                  (pdu_network_with 8 1)))) 8).
    + reflexivity.
    + discriminate.
    + vm_compute. discriminate.
  - apply (proj2 (proj2 (proj2 (gui_try_ip_address_hardware
                                  (gui_with_address "192.168.20.177")
                                  (pdu_network_with 24 1)))) 24).
    + reflexivity.
    + vm_compute. reflexivity.
Defined.

(** *** Commands and LEDs *)

Lemma outlet_control_eq (g : Gui.t) (net : Pdu.network) (k : nat)
    (c : Gui.OutletControl) :
  Gui.self_outlet_controls g !! k = Some c ->
  Gui.outlet_control (Z.of_nat k) (g, net) = (Ok c, (g, net)).
Proof.
  intros Hc. unfold Gui.outlet_control, bind, get_self, gets, lift. cbn [fst snd].
  rewrite py_getitem_index by lia. rewrite Nat2Z.id, Hc. reflexivity.
Qed.

Lemma update_outlet_control_at (g : Gui.t) (net : Pdu.network) (k : nat)
    (c : Gui.OutletControl) (f : Gui.OutletControl -> Gui.OutletControl) :
  Gui.self_outlet_controls g !! k = Some c ->
  Gui.update_outlet_control (Z.of_nat k) f (g, net)
  = (Ok tt,
     (Gui.set_outlet_controls (<[k := f c]> (Gui.self_outlet_controls g)) g, net)).
Proof.
  intros Hc. rewrite update_outlet_control_eq.
  assert (Hk : (k < length (Gui.self_outlet_controls g))%nat)
    by (apply lookup_lt_is_Some; eauto).
  rewrite py_getitem_index by lia. rewrite Nat2Z.id, Hc.
  rewrite py_setitem_index by lia. rewrite Nat2Z.id. reflexivity.
Qed.

Lemma gui_send_outlet_command_eq (g : Gui.t) (net : Pdu.network) (k : nat)
    (c : Gui.OutletControl) (p : Pdu.session) (state : bool) :
  Gui.self_outlet_controls g !! k = Some c ->
  Gui.self_pdu g = Some p ->
  Gui.send_outlet_command (Z.of_nat k) state (g, net)
  = match
      Pdu.send_outlet_command (Gui.outlet c)
        (if state then Pdu.IMMEDIATE_ON else Pdu.IMMEDIATE_OFF) (p, net)
    with
    | (Ok _, (p', n')) => (Ok tt, (gui_commanded g p' (Z.of_nat k), n'))
    | (Raise e, (p', n')) => (Raise e, (Gui.set_pdu p' g, n'))
    end.
Proof.
  intros Hc Hp. unfold Gui.send_outlet_command.
  unfold bind at 1. rewrite (outlet_control_eq _ _ _ _ Hc).
  unfold bind at 1. rewrite (on_pdu_eq _ _ _ _ Hp).
  destruct (Pdu.send_outlet_command _ _ _) as [[[]|e] [p' n']]; reflexivity.
Qed.

Lemma gui_get_outlet_status_eq (g : Gui.t) (net : Pdu.network) (k : nat)
    (c : Gui.OutletControl) (p : Pdu.session) :
  Gui.self_outlet_controls g !! k = Some c ->
  Gui.self_pdu g = Some p ->
  Gui.get_outlet_status (Z.of_nat k) (g, net)
  = match Pdu.get_outlet_state (Gui.outlet c) (p, net) with
    | (Ok b, (p', n')) =>
        (Ok tt,
         (Gui.set_outlet_controls
            (<[k := Gui.set_checked b c]> (Gui.self_outlet_controls g))
            (Gui.set_pdu p' g), n'))
    | (Raise e, (p', n')) => (Raise e, (Gui.set_pdu p' g, n'))
    end.
Proof.
  intros Hc Hp. unfold Gui.get_outlet_status.
  unfold bind at 1. rewrite (outlet_control_eq _ _ _ _ Hc).
  unfold bind at 1. rewrite (on_pdu_eq _ _ _ _ Hp).
  destruct (Pdu.get_outlet_state _ _) as [[b|e] [p' n']]; [|reflexivity].
  rewrite (update_outlet_control_at (Gui.set_pdu p' g) n' k c _ Hc). reflexivity.
Qed.

Lemma set_pdu_same (g : Gui.t) (p : Pdu.session) :
  Gui.self_pdu g = Some p -> Gui.set_pdu p g = g.
Proof. destruct g. cbn. intros ->. reflexivity. Qed.

(** X21.  A click in the window that holds a simulated PDU: for a
    control of the list whose outlet is inside 1..length of the list of
    states, [send_outlet_command] ends without error, the simulated
    outlet takes the state of the button, and two timers are started
    for the control, of 500 and of 1000 milliseconds; when a timer then
    runs [get_outlet_status], the LED of the control takes the state of
    the button and no other control changes.  Nothing is sent to the
    network. *)
Theorem gui_click_then_led (g : Gui.t) (net : Pdu.network) (sim : Pdu.Sim.t)
    (k : nat) (c : Gui.OutletControl) (state : bool) :
  Gui.self_pdu g = Some (Pdu.Simulated sim) ->
  Gui.self_outlet_controls g !! k = Some c ->
  (1 <= Gui.outlet c <= Z.of_nat (length (Pdu.Sim.self_outlet_states sim)))%Z ->
  let g1 := gui_commanded g (Pdu.Simulated (sim_with_state sim (Gui.outlet c) state))
              (Z.of_nat k) in
  Gui.send_outlet_command (Z.of_nat k) state (g, net) = (Ok tt, (g1, net))
  /\ Gui.get_outlet_status (Z.of_nat k) (g1, net)
     = (Ok tt,
        (Gui.set_outlet_controls
           (<[k := Gui.set_checked state c]> (Gui.self_outlet_controls g)) g1,
         net)).
Proof.
  intros Hp Hc Hrange g1. split.
  - rewrite (gui_send_outlet_command_eq _ _ _ _ _ _ Hc Hp).
    unfold Pdu.send_outlet_command, Pdu.forward. cbn [fst snd].
    rewrite sim_send_outlet_command_eq, sim_assign_outlet_state_eq.
    rewrite py_setitem_index by lia.
    destruct state; reflexivity.
  - rewrite (gui_get_outlet_status_eq g1 net k c
               (Pdu.Simulated (sim_with_state sim (Gui.outlet c) state)) Hc eq_refl).
    unfold Pdu.get_outlet_state, Pdu.forward. cbn [fst snd].
    rewrite sim_get_outlet_state_eq.
    rewrite py_getitem_index by lia.
    unfold sim_with_state. cbn [Pdu.Sim.self_outlet_states].
    rewrite list_lookup_insert_eq by lia. reflexivity.
Qed.

Lemma gui_click_then_led_witness :
  Gui.send_outlet_command 2 true (gui_connected, pdu_network_silent)
  = (Ok tt,
     (gui_commanded gui_connected (Pdu.Simulated (sim_with_state sim_16 3 true)) 2,
      pdu_network_silent))
  /\ Gui.get_outlet_status 2
       (gui_commanded gui_connected (Pdu.Simulated (sim_with_state sim_16 3 true)) 2,
        pdu_network_silent)
     = (Ok tt,
        (Gui.set_outlet_controls
           (<[2%nat := {| Gui.outlet := 3; Gui.enabled := true; Gui.checked := true |}]>
              (Gui.self_outlet_controls gui_connected))
           (gui_commanded gui_connected
              (Pdu.Simulated (sim_with_state sim_16 3 true)) 2),
         pdu_network_silent)).
Proof.
  apply (gui_click_then_led gui_connected pdu_network_silent sim_16 2
           {| Gui.outlet := 3; Gui.enabled := true; Gui.checked := false |} true).
  - reflexivity.
  - reflexivity.
  - vm_compute. split; discriminate.
Defined.

(** X22.  A click in the window that holds a puresnmp client, for a
    control whose outlet is inside 1..count: one write is sent, to the
    command object of that outlet, with the value 1 for the on button
    and 2 for the off button, never 3; the two timers are started when
    the write succeeds and are not started when it raises, and the
    error of the write is the error of the method. *)
Theorem gui_click_on_hardware (g : Gui.t) (net : Pdu.network) (h : Pdu.Hw.t)
    (cl : Pdu.client) (k : nat) (c : Gui.OutletControl) (state : bool) :
  Gui.self_pdu g = Some (Pdu.Hardware h) ->
  Pdu.Hw.self_client h = Some cl ->
  Gui.self_outlet_controls g !! k = Some c ->
  (1 <= Gui.outlet c <= Pdu.Hw.self_number_of_outlets h)%Z ->
  let rq := Pdu.Set_ cl (outlet_control_oid (Gui.outlet c)) (if state then 1 else 2) in
  Gui.send_outlet_command (Z.of_nat k) state (g, net)
  = match Pdu.agent net (Pdu.sent net) rq with
    | Ok _ =>
        (Ok tt,
         (Gui.add_single_shot 1000 (Z.of_nat k)
            (Gui.add_single_shot 500 (Z.of_nat k) g),
          pdu_after net rq))
    | Raise e => (Raise e, (g, pdu_after net rq))
    end.
Proof.
  intros Hp Hcl Hc Hrange rq.
  rewrite (gui_send_outlet_command_eq _ _ _ _ _ _ Hc Hp).
  unfold Pdu.send_outlet_command. rewrite forward_hardware_eq.
  rewrite (pdu_send_outlet_command_accepted _ _ _ _ Hrange).
  rewrite (pdu_client_set _ _ _ _ _ Hcl).
  replace (Pdu.value (if state then Pdu.IMMEDIATE_ON else Pdu.IMMEDIATE_OFF))
    with (if state then 1 else 2)%Z by (destruct state; reflexivity).
  fold rq. unfold gui_commanded.
  destruct (Pdu.agent net (Pdu.sent net) rq) as [v|e];
    rewrite (set_pdu_same _ _ Hp); reflexivity.
Qed.

Lemma gui_click_on_hardware_witness :
  Gui.send_outlet_command 2 false (gui_hardware_8, pdu_network_with 8 1)
  = (Ok tt,
     (Gui.add_single_shot 1000 2 (Gui.add_single_shot 500 2 gui_hardware_8),
      pdu_after (pdu_network_with 8 1)
        (Pdu.Set_ (pdu_client "192.168.20.177") (outlet_control_oid 3) 2))).
Proof.
  apply (gui_click_on_hardware gui_hardware_8 (pdu_network_with 8 1)
           {| Pdu.Hw.self_ip_address := "192.168.20.177";
              Pdu.Hw.self_number_of_outlets := 8;
              Pdu.Hw.self_client := Some (pdu_client "192.168.20.177") |}
           (pdu_client "192.168.20.177") 2
           {| Gui.outlet := 3; Gui.enabled := false; Gui.checked := false |} false).
  - reflexivity.
  - reflexivity.
  - reflexivity.
  - cbn. lia.
Defined.

(** *** The loop over the controls *)

Lemma map_first_step (f : Gui.OutletControl -> Gui.OutletControl) (n : nat)
    (l : list Gui.OutletControl) (c : Gui.OutletControl) :
  l !! n = Some c ->
  <[n := f c]> (map_first f n l) = map_first f (S n) l.
Proof.
  intros Hc. unfold map_first.
  assert (Hn : (n < length l)%nat) by (apply lookup_lt_is_Some; eauto).
  rewrite insert_app_r_alt by (rewrite length_map, length_take; lia).
  rewrite length_map, length_take, Nat.min_l, Nat.sub_diag by lia.
  rewrite (take_S_r l n c Hc), (drop_S l c n Hc). cbn [insert list_insert].
  rewrite map_app, <- app_assoc. reflexivity.
Qed.

Lemma map_first_lookup (f : Gui.OutletControl -> Gui.OutletControl) (n : nat)
    (l : list Gui.OutletControl) :
  map_first f n l !! n = l !! n.
Proof.
  unfold map_first. destruct (le_lt_dec (length l) n) as [Hge|Hlt].
  - rewrite take_ge, drop_ge by lia. rewrite app_nil_r.
    rewrite !lookup_ge_None_2; [reflexivity|lia|rewrite length_map; lia].
  - rewrite lookup_app_r by (rewrite length_map, length_take; lia).
    rewrite length_map, length_take, Nat.min_l, Nat.sub_diag by lia.
    rewrite lookup_drop, Nat.add_0_r. reflexivity.
Qed.

Section ControlLoop.

Variable step : Z -> M (Gui.t * Pdu.network) unit.
Variable f : Gui.OutletControl -> Gui.OutletControl.
Variable holds : Gui.t -> Prop.
Variable fits : Gui.OutletControl -> Prop.

Hypothesis step_eq :
  forall (g : Gui.t) (net : Pdu.network) (k : nat) (c : Gui.OutletControl),
    holds g ->
    Gui.self_outlet_controls g !! k = Some c ->
    fits c ->
    step (Z.of_nat k) (g, net)
    = (Ok tt, (Gui.set_outlet_controls (<[k := f c]> (Gui.self_outlet_controls g)) g, net)).

Hypothesis holds_kept :
  forall (g : Gui.t) (l : list Gui.OutletControl),
    holds g -> holds (Gui.set_outlet_controls l g).

Lemma control_loop (n : nat) (g : Gui.t) (net : Pdu.network) :
  holds g ->
  (n <= length (Gui.self_outlet_controls g))%nat ->
  (forall k c, (k < n)%nat -> Gui.self_outlet_controls g !! k = Some c -> fits c) ->
  for_each step (range 0 (Z.of_nat n)) (g, net)
  = (Ok (repeat tt n),
     (Gui.set_outlet_controls (map_first f n (Gui.self_outlet_controls g)) g, net)).
Proof.
  intros Hg. rewrite range_from_zero. induction n as [|n IH]; intros Hn Hfits.
  - cbn [seq map for_each repeat]. unfold ret.
    change (map_first f 0 (Gui.self_outlet_controls g)) with (Gui.self_outlet_controls g).
    rewrite set_outlet_controls_same. reflexivity.
  - rewrite seq_S, map_app, for_each_app.
    rewrite IH; [|lia|intros k c Hk Hc; apply (Hfits k c); [lia|exact Hc]].
    cbn [map Nat.add]. rewrite for_each_cons.
    destruct (lookup_lt_is_Some_2 (Gui.self_outlet_controls g) n ltac:(lia)) as [c Hc].
    rewrite (step_eq _ net n c).
    + change (Gui.self_outlet_controls (Gui.set_outlet_controls ?l g)) with l.
      rewrite (map_first_step _ _ _ _ Hc). cbn [for_each]. unfold ret.
      replace (repeat tt n ++ [tt])%list with (repeat tt (S n))
        by (rewrite <- repeat_cons; reflexivity).
      reflexivity.
    + apply holds_kept, Hg.
    + change (Gui.self_outlet_controls (Gui.set_outlet_controls ?l g)) with l.
      rewrite map_first_lookup. exact Hc.
    + apply (Hfits n c); [lia|exact Hc].
Qed.

End ControlLoop.

(** X23.  [get_outlet_statuses] in the window that holds a simulated
    PDU: when the count kept by the window is not above the number of
    controls and the outlets of the first controls up to the count are
    inside 1..length of the list of states, the method ends without
    error, the LED of each of these controls shows the state that the
    simulated PDU holds for the outlet of the control, the other
    controls and the simulated PDU are as before, and nothing is sent
    to the network. *)
Theorem gui_leds_mirror_simulation (g : Gui.t) (net : Pdu.network) (sim : Pdu.Sim.t) :
  Gui.self_pdu g = Some (Pdu.Simulated sim) ->
  (0 <= Gui.self_number_of_outlets g
   <= Z.of_nat (length (Gui.self_outlet_controls g)))%Z ->
  (forall k c,
     (Z.of_nat k < Gui.self_number_of_outlets g)%Z ->
     Gui.self_outlet_controls g !! k = Some c ->
     (1 <= Gui.outlet c <= Z.of_nat (length (Pdu.Sim.self_outlet_states sim)))%Z) ->
  Gui.get_outlet_statuses (g, net)
  = (Ok tt,
     (Gui.set_outlet_controls
        (map_first (led_of_states (Pdu.Sim.self_outlet_states sim))
           (Z.to_nat (Gui.self_number_of_outlets g)) (Gui.self_outlet_controls g))
        g,
      net)).
Proof.
  intros Hp Hcount Houtlets.
  unfold Gui.get_outlet_statuses. unfold bind at 1. unfold get_self at 1, gets at 1.
  cbn [fst]. unfold bind at 1.
  replace (Gui.self_number_of_outlets g)
    with (Z.of_nat (Z.to_nat (Gui.self_number_of_outlets g))) at 1 by lia.
  rewrite (control_loop Gui.get_outlet_status
             (led_of_states (Pdu.Sim.self_outlet_states sim))
             (fun g' => Gui.self_pdu g' = Some (Pdu.Simulated sim))
             (fun c => (1 <= Gui.outlet c
                        <= Z.of_nat (length (Pdu.Sim.self_outlet_states sim)))%Z)).
  - reflexivity.
  - intros g' net' k c Hp' Hc Hfits.
    rewrite (gui_get_outlet_status_eq _ _ _ _ _ Hc Hp').
    unfold Pdu.get_outlet_state, Pdu.forward. cbn [fst snd].
    rewrite sim_get_outlet_state_eq, py_getitem_index by lia.
    destruct (lookup_lt_is_Some_2 (Pdu.Sim.self_outlet_states sim)
                (Z.to_nat (Gui.outlet c - 1)) ltac:(lia)) as [b Hb].
    rewrite Hb, (set_pdu_same _ _ Hp'). unfold led_of_states.
    rewrite nth_lookup, Hb. reflexivity.
  - intros g' l Hp'. exact Hp'.
  - exact Hp.
  - lia.
  - intros k c Hk Hc. apply (Houtlets k c); [lia|exact Hc].
Qed.


Lemma gui_leds_mirror_simulation_witness :
  Gui.get_outlet_statuses
    (Gui.set_pdu (Pdu.Simulated (sim_with_state sim_16 3 true)) gui_connected,
     pdu_network_silent)
  = (Ok tt,
     (Gui.set_outlet_controls
        (map_first (led_of_states (<[2%nat := true]> (repeat false 16))) 16
           (Gui.self_outlet_controls gui_connected))
        (Gui.set_pdu (Pdu.Simulated (sim_with_state sim_16 3 true)) gui_connected),
      pdu_network_silent)).
Proof.
  refine (gui_leds_mirror_simulation
           (Gui.set_pdu (Pdu.Simulated (sim_with_state sim_16 3 true)) gui_connected)
           pdu_network_silent (sim_with_state sim_16 3 true) eq_refl _ _).
  - vm_compute. split; discriminate.
  - intros k c Hk Hc.
    assert (Hk' : (k < 16)%nat).
    { revert Hk. vm_compute (Gui.self_number_of_outlets _). lia. }
    clear Hk. revert Hc.
    vm_compute (Gui.self_outlet_controls _).
    vm_compute (Z.of_nat (length _)).
    do 16 (destruct k as [|k]; [intros [= <-]; vm_compute; split; discriminate|]).
    lia.
Defined.

(** ** The list of the simulated PDU as an object *)

Lemma simobj_assign_outlet_state_eq (self : SimObj.t) (h : list (list bool))
    (outlet : Z) (b : bool) :
  SimObj.assign_outlet_state outlet b (self, h)
  = match Pdu.py_setitem (h !!! SimObj.self_outlet_states self) (outlet - 1) b with
    | Ok l => (Ok tt, (self, <[SimObj.self_outlet_states self := l]> h))
    | Raise e => (Raise e, (self, h))
    end.
Proof.
  unfold SimObj.assign_outlet_state, SimObj.deref, SimObj.assign, bind, get_self,
    gets, lift, modify. cbn [fst snd].
  destruct (Pdu.py_setitem (h !!! SimObj.self_outlet_states self) (outlet - 1) b);
    reflexivity.
Qed.

Lemma simobj_send_outlet_command_eq (self : SimObj.t) (h : list (list bool))
    (outlet : Z) (command : Pdu.OutletCommand) :
  SimObj.send_outlet_command outlet command (self, h)
  = SimObj.assign_outlet_state outlet (commanded_state command) (self, h).
Proof. destruct command; reflexivity. Qed.

(** The object with its store stands for the simulated PDU of
    [Pdu.Sim]: every method gives the result that [Pdu.Sim] gives, on
    the list behind the address. *)
Lemma sim_view_agrees (self : SimObj.t) (h : list (list bool)) (outlet : Z)
    (command : Pdu.OutletCommand) :
  (SimObj.self_outlet_states self < length h)%nat ->
  fst (SimObj.number_of_outlets (self, h))
  = fst (Pdu.Sim.number_of_outlets (sim_view (self, h)))
  /\ sim_view (snd (SimObj.initialize (self, h)))
     = snd (Pdu.Sim.initialize (sim_view (self, h)))
  /\ fst (SimObj.get_outlet_state outlet (self, h))
     = fst (Pdu.Sim.get_outlet_state outlet (sim_view (self, h)))
  /\ fst (SimObj.send_outlet_command outlet command (self, h))
     = fst (Pdu.Sim.send_outlet_command outlet command (sim_view (self, h)))
  /\ sim_view (snd (SimObj.send_outlet_command outlet command (self, h)))
     = snd (Pdu.Sim.send_outlet_command outlet command (sim_view (self, h))).
Proof.
  intros Ha. split; [|split; [|split; [|split]]].
  - unfold SimObj.number_of_outlets, Pdu.Sim.number_of_outlets, bind, get_self, gets.
    cbn [fst snd id sim_view Pdu.Sim.self_number_of_outlets].
    destruct (SimObj.self_number_of_outlets self =? 0)%Z; reflexivity.
  - unfold sim_view. cbn [fst snd SimObj.initialize].
    unfold SimObj.initialize, SimObj.new_list, bind, set_self, get_self, gets, modify.
    cbn [fst snd SimObj.self_number_of_outlets SimObj.self_outlet_states].
    rewrite lookup_total_app_r by lia. rewrite Nat.sub_diag. reflexivity.
  - reflexivity.
  - rewrite simobj_send_outlet_command_eq, sim_send_outlet_command_eq.
    rewrite simobj_assign_outlet_state_eq, sim_assign_outlet_state_eq.
    cbn [sim_view fst snd Pdu.Sim.self_outlet_states].
    fold (commanded_state command).
    destruct (Pdu.py_setitem _ _ _); reflexivity.
  - rewrite simobj_send_outlet_command_eq, sim_send_outlet_command_eq.
    rewrite simobj_assign_outlet_state_eq, sim_assign_outlet_state_eq.
    cbn [sim_view fst snd Pdu.Sim.self_outlet_states].
    fold (commanded_state command).
    destruct (Pdu.py_setitem _ _ _); [|reflexivity].
    unfold sim_view. cbn [fst snd]. rewrite list_lookup_total_insert_eq by lia.
    reflexivity.
Qed.

(** X24.  The list that [get_all_outlet_states] of the simulated PDU
    returns is the list the PDU keeps, not a copy: a later command on
    an outlet inside the range changes that very list, so the caller
    who kept the list sees the new state in it.  [initialize] gives the
    PDU a new list of sixteen false: the list returned before is no
    longer the list of the PDU and stays as it was. *)
Theorem sim_returned_list_is_live (self : SimObj.t) (h : list (list bool))
    (outlet : Z) (command : Pdu.OutletCommand) :
  let a := SimObj.self_outlet_states self in
  (a < length h)%nat ->
  (1 <= outlet <= Z.of_nat (length (h !!! a)))%Z ->
  exists (h2 h3 : list (list bool)) (self3 : SimObj.t),
    SimObj.get_all_outlet_states (self, h) = (Ok a, (self, h))
    /\ SimObj.send_outlet_command outlet command (self, h) = (Ok tt, (self, h2))
    /\ h2 !!! a = <[Z.to_nat (outlet - 1) := commanded_state command]> (h !!! a)
    /\ SimObj.initialize (self, h2) = (Ok tt, (self3, h3))
    /\ SimObj.self_outlet_states self3 <> a
    /\ h3 !!! a = h2 !!! a
    /\ h3 !!! SimObj.self_outlet_states self3 = repeat false 16.
Proof.
  intros a Ha Hrange.
  exists (<[a := <[Z.to_nat (outlet - 1) := commanded_state command]> (h !!! a)]> h).
  eexists. eexists.
  split; [reflexivity|]. split.
  { rewrite simobj_send_outlet_command_eq, simobj_assign_outlet_state_eq.
    fold a. rewrite py_setitem_index by lia. reflexivity. }
  split; [apply list_lookup_total_insert_eq; lia|].
  split; [reflexivity|].
  cbn [fst snd SimObj.self_outlet_states SimObj.self_number_of_outlets].
  rewrite length_insert.
  split; [lia|]. split.
  - rewrite lookup_total_app_l by (rewrite length_insert; lia). reflexivity.
  - rewrite lookup_total_app_r by (rewrite length_insert; lia).
    rewrite length_insert, Nat.sub_diag. reflexivity.
Qed.

Lemma sim_returned_list_is_live_witness :
  exists (h2 h3 : list (list bool)) (self3 : SimObj.t),
    SimObj.get_all_outlet_states
      (snd (SimObj.initialize (SimObj.init [])))
    = (Ok 1%nat, snd (SimObj.initialize (SimObj.init [])))
    /\ SimObj.send_outlet_command 3 Pdu.IMMEDIATE_ON
         (snd (SimObj.initialize (SimObj.init [])))
       = (Ok tt, (fst (snd (SimObj.initialize (SimObj.init []))), h2))
    /\ h2 !!! 1%nat = <[2%nat := true]> (repeat false 16)
    /\ SimObj.initialize (fst (snd (SimObj.initialize (SimObj.init []))), h2)
       = (Ok tt, (self3, h3))
    /\ SimObj.self_outlet_states self3 <> 1%nat
    /\ h3 !!! 1%nat = h2 !!! 1%nat
    /\ h3 !!! SimObj.self_outlet_states self3 = repeat false 16.
Proof.
  apply (sim_returned_list_is_live
           (fst (snd (SimObj.initialize (SimObj.init []))))
           (snd (snd (SimObj.initialize (SimObj.init []))))
           3 Pdu.IMMEDIATE_ON).
  - vm_compute. lia.
  - vm_compute. split; discriminate.
Defined.

(** ** The validator of the line edit *)

Lemma ip_exec_class_in (p : ascii -> bool) (s t : string) :
  In t (IpAddressLineEdit.exec (IpAddressLineEdit.Class p) s)
  <-> exists c, s = String c t /\ p c = true.
Proof.
  cbn [IpAddressLineEdit.exec]. destruct s as [|c rest].
  - split; [intros []|intros (c & Heq & _); discriminate Heq].
  - destruct (p c) eqn:Hp.
    + split.
      * intros [<-|[]]. exists c. split; [reflexivity|exact Hp].
      * intros (c' & Heq & _). injection Heq as <- <-. left. reflexivity.
    + split; [intros []|]. intros (c' & Heq & Hp'). injection Heq as <- <-. congruence.
Qed.

Lemma ip_exec_chr_in (c : ascii) (s t : string) :
  In t (IpAddressLineEdit.exec (IpAddressLineEdit.Chr c) s) <-> s = String c t.
Proof.
  unfold IpAddressLineEdit.Chr. rewrite ip_exec_class_in. split.
  - intros (c' & -> & Heq). apply Ascii.eqb_eq in Heq. subst c'. reflexivity.
  - intros ->. exists c. split; [reflexivity|apply Ascii.eqb_refl].
Qed.

Lemma ip_exec_seq_in (r1 r2 : IpAddressLineEdit.regex) (s t : string) :
  In t (IpAddressLineEdit.exec (IpAddressLineEdit.Seq r1 r2) s)
  <-> exists u, In u (IpAddressLineEdit.exec r1 s) /\ In t (IpAddressLineEdit.exec r2 u).
Proof. cbn [IpAddressLineEdit.exec]. apply in_flat_map. Qed.

Lemma ip_exec_alt_in (r1 r2 : IpAddressLineEdit.regex) (s t : string) :
  In t (IpAddressLineEdit.exec (IpAddressLineEdit.Alt r1 r2) s)
  <-> In t (IpAddressLineEdit.exec r1 s) \/ In t (IpAddressLineEdit.exec r2 s).
Proof. cbn [IpAddressLineEdit.exec]. apply in_app_iff. Qed.

Lemma ip_exec_opt_in (r : IpAddressLineEdit.regex) (s t : string) :
  In t (IpAddressLineEdit.exec (IpAddressLineEdit.Opt r) s)
  <-> In t (IpAddressLineEdit.exec r s) \/ t = s.
Proof.
  cbn [IpAddressLineEdit.exec]. rewrite in_app_iff. cbn [In].
  split.
  - intros [H|[<-|[]]]; [left; exact H|right; reflexivity].
  - intros [H| ->]; [left; exact H|right; left; reflexivity].
Qed.

Lemma ip_exec_repeat_zero (r : IpAddressLineEdit.regex) (s t : string) :
  In t (IpAddressLineEdit.exec (IpAddressLineEdit.Repeat 0 r) s) <-> t = s.
Proof.
  cbn. split; [intros [<-|[]]; reflexivity|intros ->; left; reflexivity].
Qed.

Lemma ip_exec_repeat_succ (n : nat) (r : IpAddressLineEdit.regex) (s t : string) :
  In t (IpAddressLineEdit.exec (IpAddressLineEdit.Repeat (S n) r) s)
  <-> exists u, In u (IpAddressLineEdit.exec r s)
                /\ In t (IpAddressLineEdit.exec (IpAddressLineEdit.Repeat n r) u).
Proof. cbn [IpAddressLineEdit.exec]. apply in_flat_map. Qed.

Lemma in_range_cases (hi c : ascii) :
  In hi ["1"; "4"; "5"; "9"]%char ->
  IpAddressLineEdit.in_range "0" hi c = true ->
  TelnetApi.is_digit c = true
  /\ (N_of_ascii c <= N_of_ascii hi)%N.
Proof.
  intros Hhi H. unfold IpAddressLineEdit.in_range in H.
  apply andb_true_iff in H as [Hlo Hup].
  apply N.leb_le in Hlo, Hup. split; [|exact Hup].
  unfold TelnetApi.is_digit, TelnetApi.code. apply andb_true_iff.
  change (N_of_ascii "0") with 48%N in Hlo.
  split; apply N.leb_le; [exact Hlo|].
  cbn [In] in Hhi. destruct Hhi as [<-|[<-|[<-|[<-|[]]]]];
    (etransitivity; [exact Hup|]); vm_compute; discriminate.
Qed.

Lemma is_digit_bounds (c : ascii) :
  TelnetApi.is_digit c = true <-> (48 <= N_of_ascii c <= 57)%N.
Proof.
  unfold TelnetApi.is_digit, TelnetApi.code. rewrite andb_true_iff, !N.leb_le.
  reflexivity.
Qed.

Lemma in_range_bounds_iff (lo hi c : ascii) :
  IpAddressLineEdit.in_range lo hi c = true
  <-> (N_of_ascii lo <= N_of_ascii c <= N_of_ascii hi)%N.
Proof.
  unfold IpAddressLineEdit.in_range. rewrite andb_true_iff, !N.leb_le. reflexivity.
Qed.

Lemma one_of_01 (c : ascii) :
  IpAddressLineEdit.one_of ["0"; "1"]%char c = true
  <-> (48 <= N_of_ascii c <= 49)%N.
Proof.
  unfold IpAddressLineEdit.one_of. cbn [existsb].
  rewrite !orb_true_iff, !Ascii.eqb_eq. split.
  - intros [->|[->|H]]; [vm_compute; split; discriminate ..|discriminate H].
  - intros H.
    assert (Hc : N_of_ascii c = 48%N \/ N_of_ascii c = 49%N) by lia.
    destruct Hc as [Hc|Hc]; apply (f_equal ascii_of_N) in Hc;
      rewrite ascii_N_embedding in Hc; subst c; auto.
Qed.

Lemma code_char (c : ascii) (n : N) :
  N_of_ascii c = n -> c = ascii_of_N n.
Proof. intros <-. symmetry. apply ascii_N_embedding. Qed.

(** What the alternative for one number matches: one to three digits
    with a value of at most 255. *)
Lemma ip_exec_octet_in (s t : string) :
  In t (IpAddressLineEdit.exec IpAddressLineEdit.octet s)
  <-> exists x, is_octet x = true /\ s = x ++ t.
Proof.
  unfold IpAddressLineEdit.octet. split.
  - intros H. apply ip_exec_alt_in in H as [H|H]; [|apply ip_exec_alt_in in H as [H|H]].
    + apply ip_exec_seq_in in H as (u1 & H1 & H). apply ip_exec_chr_in in H1 as ->.
      apply ip_exec_seq_in in H as (u2 & H2 & H). apply ip_exec_chr_in in H2 as ->.
      apply ip_exec_class_in in H as (c & -> & Hc).
      apply in_range_bounds_iff in Hc.
      change (N_of_ascii "0") with 48%N in Hc. change (N_of_ascii "5") with 53%N in Hc.
      exists (String "2" (String "5" (String c ""))). split; [|reflexivity].
      unfold is_octet. cbn [String.length all_chars decimal_value].
      rewrite (proj2 (is_digit_bounds c)) by lia.
      unfold TelnetApi.code. change (N_of_ascii "2") with 50%N.
      change (N_of_ascii "5") with 53%N.
      cbn [Nat.leb andb]. apply Z.leb_le. lia.
    + apply ip_exec_seq_in in H as (u1 & H1 & H). apply ip_exec_chr_in in H1 as ->.
      apply ip_exec_seq_in in H as (u2 & H2 & H).
      apply ip_exec_class_in in H2 as (c & -> & Hc).
      apply ip_exec_class_in in H as (d & -> & Hd).
      apply in_range_bounds_iff in Hc, Hd.
      change (N_of_ascii "0") with 48%N in Hc, Hd.
      change (N_of_ascii "4") with 52%N in Hc. change (N_of_ascii "9") with 57%N in Hd.
      exists (String "2" (String c (String d ""))). split; [|reflexivity].
      unfold is_octet. cbn [String.length all_chars decimal_value].
      rewrite (proj2 (is_digit_bounds c)), (proj2 (is_digit_bounds d)) by lia.
      unfold TelnetApi.code. change (N_of_ascii "2") with 50%N.
      cbn [Nat.leb andb]. apply Z.leb_le. lia.
    + apply ip_exec_seq_in in H as (u1 & H1 & H).
      apply ip_exec_seq_in in H as (u2 & H2 & H).
      apply ip_exec_class_in in H2 as (b & -> & Hb).
      apply in_range_bounds_iff in Hb.
      change (N_of_ascii "0") with 48%N in Hb. change (N_of_ascii "9") with 57%N in Hb.
      apply ip_exec_opt_in in H1 as [H1| <-];
        [apply ip_exec_class_in in H1 as (a & -> & Ha); apply one_of_01 in Ha|];
        (apply ip_exec_opt_in in H as [H| ->];
         [apply ip_exec_class_in in H as (c & -> & Hc);
          apply in_range_bounds_iff in Hc;
          change (N_of_ascii "0") with 48%N in Hc;
          change (N_of_ascii "9") with 57%N in Hc|]).
      * exists (String a (String b (String c ""))). split; [|reflexivity].
        unfold is_octet. cbn [String.length all_chars decimal_value].
        rewrite (proj2 (is_digit_bounds a)), (proj2 (is_digit_bounds b)),
          (proj2 (is_digit_bounds c)) by lia.
        unfold TelnetApi.code. cbn [Nat.leb andb]. apply Z.leb_le. lia.
      * exists (String a (String b "")). split; [|reflexivity].
        unfold is_octet. cbn [String.length all_chars decimal_value].
        rewrite (proj2 (is_digit_bounds a)), (proj2 (is_digit_bounds b)) by lia.
        unfold TelnetApi.code. cbn [Nat.leb andb]. apply Z.leb_le. lia.
      * exists (String b (String c "")). split; [|reflexivity].
        unfold is_octet. cbn [String.length all_chars decimal_value].
        rewrite (proj2 (is_digit_bounds b)), (proj2 (is_digit_bounds c)) by lia.
        unfold TelnetApi.code. cbn [Nat.leb andb]. apply Z.leb_le. lia.
      * exists (String b ""). split; [|reflexivity].
        unfold is_octet. cbn [String.length all_chars decimal_value].
        rewrite (proj2 (is_digit_bounds b)) by lia.
        unfold TelnetApi.code. cbn [Nat.leb andb]. apply Z.leb_le. lia.
  - intros (x & Hx & ->). unfold is_octet in Hx.
    apply andb_true_iff in Hx as [Hx Hval]. apply andb_true_iff in Hx as [Hx Hdig].
    apply andb_true_iff in Hx as [Hmin Hmax].
    apply Z.leb_le in Hval.
    assert (Hdigit : forall c, (48 <= N_of_ascii c <= 57)%N ->
                               IpAddressLineEdit.in_range "0" "9" c = true).
    { intros c Hc. apply in_range_bounds_iff.
      change (N_of_ascii "0") with 48%N. change (N_of_ascii "9") with 57%N. exact Hc. }
    destruct x as [|a [|b [|c [|e x]]]]; [discriminate Hmin| | | |discriminate Hmax].
    + cbn [all_chars] in Hdig. rewrite andb_true_r in Hdig.
      apply is_digit_bounds in Hdig. cbn [String.append].
      apply ip_exec_alt_in. right. apply ip_exec_alt_in. right.
      apply ip_exec_seq_in. exists (String a t). split.
      { apply ip_exec_opt_in. right. reflexivity. }
      apply ip_exec_seq_in. exists t. split.
      { apply ip_exec_class_in. exists a. split; [reflexivity|apply Hdigit, Hdig]. }
      apply ip_exec_opt_in. right. reflexivity.
    + cbn [all_chars] in Hdig. rewrite andb_true_r in Hdig.
      apply andb_true_iff in Hdig as [Ha Hb].
      apply is_digit_bounds in Ha, Hb. cbn [String.append].
      apply ip_exec_alt_in. right. apply ip_exec_alt_in. right.
      apply ip_exec_seq_in. exists (String a (String b t)). split.
      { apply ip_exec_opt_in. right. reflexivity. }
      apply ip_exec_seq_in. exists (String b t). split.
      { apply ip_exec_class_in. exists a. split; [reflexivity|apply Hdigit, Ha]. }
      apply ip_exec_opt_in. left.
      apply ip_exec_class_in. exists b. split; [reflexivity|apply Hdigit, Hb].
    + cbn [all_chars] in Hdig. rewrite andb_true_r in Hdig.
      apply andb_true_iff in Hdig as [Ha Hdig]. apply andb_true_iff in Hdig as [Hb Hc].
      apply is_digit_bounds in Ha, Hb, Hc. cbn [String.append].
      cbn [decimal_value] in Hval. unfold TelnetApi.code in Hval.
      destruct (N.le_gt_cases (N_of_ascii a) 49) as [Ha1|Ha1].
      * apply ip_exec_alt_in. right. apply ip_exec_alt_in. right.
        apply ip_exec_seq_in. exists (String b (String c t)). split.
        { apply ip_exec_opt_in. left. apply ip_exec_class_in. exists a.
          split; [reflexivity|]. apply one_of_01. lia. }
        apply ip_exec_seq_in. exists (String c t). split.
        { apply ip_exec_class_in. exists b. split; [reflexivity|apply Hdigit, Hb]. }
        apply ip_exec_opt_in. left.
        apply ip_exec_class_in. exists c. split; [reflexivity|apply Hdigit, Hc].
      * assert (Ha2 : N_of_ascii a = 50%N) by lia.
        apply code_char in Ha2. subst a.
        destruct (N.le_gt_cases (N_of_ascii b) 52) as [Hb1|Hb1].
        -- apply ip_exec_alt_in. right. apply ip_exec_alt_in. left.
           apply ip_exec_seq_in. exists (String b (String c t)). split.
           { apply ip_exec_chr_in. reflexivity. }
           apply ip_exec_seq_in. exists (String c t). split.
           { apply ip_exec_class_in. exists b. split; [reflexivity|].
             apply in_range_bounds_iff.
             change (N_of_ascii "0") with 48%N. change (N_of_ascii "4") with 52%N. lia. }
           apply ip_exec_class_in. exists c. split; [reflexivity|apply Hdigit, Hc].
        -- change (N_of_ascii (ascii_of_N 50)) with 50%N in Hval.
           assert (Hb2 : N_of_ascii b = 53%N) by lia.
           assert (Hc2 : (N_of_ascii c <= 53)%N) by lia.
           apply code_char in Hb2. subst b.
           apply ip_exec_alt_in. left.
           apply ip_exec_seq_in. exists (String (ascii_of_N 53) (String c t)). split.
           { apply ip_exec_chr_in. reflexivity. }
           apply ip_exec_seq_in. exists (String c t). split.
           { apply ip_exec_chr_in. reflexivity. }
           apply ip_exec_class_in. exists c. split; [reflexivity|].
           apply in_range_bounds_iff.
           change (N_of_ascii "0") with 48%N. change (N_of_ascii "5") with 53%N. lia.
Qed.

Lemma ip_exec_group_in (s t : string) :
  In t (IpAddressLineEdit.exec
          (IpAddressLineEdit.Seq IpAddressLineEdit.octet (IpAddressLineEdit.Chr ".")) s)
  <-> exists x, is_octet x = true /\ s = x ++ "." ++ t.
Proof.
  rewrite ip_exec_seq_in. split.
  - intros (u & Hu & Ht). apply ip_exec_octet_in in Hu as (x & Hx & ->).
    apply ip_exec_chr_in in Ht as ->. exists x. split; [exact Hx|reflexivity].
  - intros (x & Hx & ->). exists ("." ++ t). split.
    + apply ip_exec_octet_in. exists x. split; [exact Hx|reflexivity].
    + apply ip_exec_chr_in. reflexivity.
Qed.

Lemma ip_acceptable_iff (text : string) :
  IpAddressLineEdit.acceptable text = true
  <-> exists a b c d,
        is_octet a = true /\ is_octet b = true /\ is_octet c = true
        /\ is_octet d = true
        /\ text = a ++ "." ++ b ++ "." ++ c ++ "." ++ d.
Proof.
  unfold IpAddressLineEdit.acceptable, IpAddressLineEdit.ip_address_regex.
  rewrite existsb_exists. split.
  - intros (r & Hin & Hr). apply String.eqb_eq in Hr. subst r.
    apply ip_exec_seq_in in Hin as (u & Hrep & Hd).
    apply ip_exec_repeat_succ in Hrep as (u1 & Ha & Hrep).
    apply ip_exec_repeat_succ in Hrep as (u2 & Hb & Hrep).
    apply ip_exec_repeat_succ in Hrep as (u3 & Hc & Hrep).
    apply ip_exec_repeat_zero in Hrep. subst u3.
    apply ip_exec_group_in in Ha as (a & Ha & ->).
    apply ip_exec_group_in in Hb as (b & Hb & ->).
    apply ip_exec_group_in in Hc as (c & Hc & ->).
    apply ip_exec_octet_in in Hd as (d & Hd & ->).
    exists a, b, c, d. rewrite append_empty_r. repeat split; assumption.
  - intros (a & b & c & d & Ha & Hb & Hc & Hd & ->). exists "". split; [|reflexivity].
    apply ip_exec_seq_in. exists d. split.
    + apply ip_exec_repeat_succ. exists (b ++ "." ++ c ++ "." ++ d). split.
      { apply ip_exec_group_in. exists a. split; [exact Ha|reflexivity]. }
      apply ip_exec_repeat_succ. exists (c ++ "." ++ d). split.
      { apply ip_exec_group_in. exists b. split; [exact Hb|reflexivity]. }
      apply ip_exec_repeat_succ. exists d. split.
      { apply ip_exec_group_in. exists c. split; [exact Hc|reflexivity]. }
      apply ip_exec_repeat_zero. reflexivity.
    + apply ip_exec_octet_in. exists d. split; [exact Hd|].
      symmetry. apply append_empty_r.
Qed.

(** X25.  [check_ip_address] of the line edit sets one of two style
    sheets.  It sets the white background exactly when the text is four
    numbers separated by three dots, each number written with one to
    three decimal digits and at most 255; leading zeros are accepted.
    For every other text it sets the background [#F6989D]. *)
Theorem ip_address_background (text : string) :
  (IpAddressLineEdit.check_ip_address text = "QLineEdit { background-color: #FFFFFF }"
   <-> exists a b c d,
         is_octet a = true /\ is_octet b = true /\ is_octet c = true
         /\ is_octet d = true
         /\ text = a ++ "." ++ b ++ "." ++ c ++ "." ++ d)
  /\ (IpAddressLineEdit.check_ip_address text <> "QLineEdit { background-color: #FFFFFF }"
      -> IpAddressLineEdit.check_ip_address text
         = "QLineEdit { background-color: #F6989D }").
Proof.
  rewrite <- ip_acceptable_iff. unfold IpAddressLineEdit.check_ip_address.
  destruct (IpAddressLineEdit.acceptable text); split.
  - split; reflexivity.
  - intros H. exfalso. apply H. reflexivity.
  - split; intros H; discriminate H.
  - intros _. reflexivity.
Qed.

Lemma ip_address_background_witness :
  IpAddressLineEdit.check_ip_address "192.168.020.7"
  = "QLineEdit { background-color: #FFFFFF }"
  /\ IpAddressLineEdit.check_ip_address "192.168.20.256"
     = "QLineEdit { background-color: #F6989D }".
Proof.
  split.
  - apply (proj1 (ip_address_background "192.168.020.7")).
    exists "192", "168", "020", "7". repeat split; reflexivity.
  - apply (proj2 (ip_address_background "192.168.20.256")).
    vm_compute. discriminate.
Defined.

(** ** The two typed reads of the pysnmp helpers *)

Lemma async_get_string_data_eq (ip oid : string) (net : AsyncApi.network) :
  AsyncApi.get_string_data ip oid net
  = match AsyncApi.get_data ip oid net with
    | (Ok (AsyncApi.PyStr s), net') => (Ok s, net')
    | (Ok (AsyncApi.PyInt n), net') =>
        (Raise (ValueError ("Expected a string response and received `"
                            ++ str_of_int n ++ "` instead")), net')
    | (Raise e, net') => (Raise e, net')
    end.
Proof.
  unfold AsyncApi.get_string_data, bind.
  destruct (AsyncApi.get_data ip oid net) as [[[n|s]|e] net']; reflexivity.
Qed.

Lemma async_get_integer_data_eq (ip oid : string) (net : AsyncApi.network) :
  AsyncApi.get_integer_data ip oid net
  = match AsyncApi.get_data ip oid net with
    | (Ok (AsyncApi.PyInt n), net') => (Ok n, net')
    | (Ok (AsyncApi.PyStr s), net') =>
        (Raise (ValueError ("Expected an integer response and received `"
                            ++ s ++ "` instead")), net')
    | (Raise e, net') => (Raise e, net')
    end.
Proof.
  unfold AsyncApi.get_integer_data, bind.
  destruct (AsyncApi.get_data ip oid net) as [[[n|s]|e] net']; reflexivity.
Qed.

(** X26.  [get_integer_data] and [get_string_data] send the same one
    request, and on a response they split the values between them: an
    error of the exchange is the [RuntimeError] of both; a value of an
    integer class is returned by the first and makes the second raise
    [ValueError] with the integer in its message; an [OctetString] is
    returned by the second and makes the first raise [ValueError] with
    the text in its message; a value of another class is the
    [TypeError] of both. *)
Theorem async_typed_reads (ip oid : string) (net : AsyncApi.network) :
  let rq := AsyncApi.GetCmd ip "public" oid in
  let r := AsyncApi.agent net (AsyncApi.sent net) rq in
  (forall text,
     transport_error r = Some text ->
     AsyncApi.get_integer_data ip oid net = (Raise (RuntimeError text), async_after net rq)
     /\ AsyncApi.get_string_data ip oid net
        = (Raise (RuntimeError text), async_after net rq))
  /\ (forall o v,
        transport_error r = None ->
        AsyncApi.variable_bindings r = [(o, v)] ->
        match AsyncApi.convert_snmp_type_to_python_type v with
        | Ok (AsyncApi.PyInt n) =>
            AsyncApi.get_integer_data ip oid net = (Ok n, async_after net rq)
            /\ AsyncApi.get_string_data ip oid net
               = (Raise (ValueError ("Expected a string response and received `"
                                     ++ str_of_int n ++ "` instead")),
                  async_after net rq)
        | Ok (AsyncApi.PyStr s) =>
            AsyncApi.get_string_data ip oid net = (Ok s, async_after net rq)
            /\ AsyncApi.get_integer_data ip oid net
               = (Raise (ValueError ("Expected an integer response and received `"
                                     ++ s ++ "` instead")),
                  async_after net rq)
        | Raise e =>
            AsyncApi.get_integer_data ip oid net = (Raise e, async_after net rq)
            /\ AsyncApi.get_string_data ip oid net = (Raise e, async_after net rq)
        end).
Proof.
  intros rq r. split.
  - intros text Herr.
    rewrite async_get_integer_data_eq, async_get_string_data_eq.
    rewrite (async_get_data_transport_error _ _ _ _ Herr). split; reflexivity.
  - intros o v Herr Hbind.
    rewrite async_get_integer_data_eq, async_get_string_data_eq.
    rewrite (async_get_data_value _ _ _ _ _ Herr Hbind).
    destruct (AsyncApi.convert_snmp_type_to_python_type v) as [[n|s]|e];
      split; reflexivity.
Qed.

Lemma async_typed_reads_witness :
  AsyncApi.get_string_data "192.168.20.177" ".1.3.6.1.2.1.1.5.0"
    (async_network_replying (value_response (AsyncApi.OctetString "pdu-rack-4")))
  = (Ok "pdu-rack-4",
     async_after
       (async_network_replying (value_response (AsyncApi.OctetString "pdu-rack-4")))
       (AsyncApi.GetCmd "192.168.20.177" "public" ".1.3.6.1.2.1.1.5.0"))
  /\ AsyncApi.get_integer_data "192.168.20.177" ".1.3.6.1.2.1.1.5.0"
       (async_network_replying (value_response (AsyncApi.OctetString "pdu-rack-4")))
     = (Raise (ValueError "Expected an integer response and received `pdu-rack-4` instead"),
        async_after
          (async_network_replying (value_response (AsyncApi.OctetString "pdu-rack-4")))
          (AsyncApi.GetCmd "192.168.20.177" "public" ".1.3.6.1.2.1.1.5.0")).
Proof.
  exact (proj2 (async_typed_reads "192.168.20.177" ".1.3.6.1.2.1.1.5.0"
                  (async_network_replying
                     (value_response (AsyncApi.OctetString "pdu-rack-4"))))
           "" (AsyncApi.OctetString "pdu-rack-4") eq_refl eq_refl).
Defined.
